(** * FrogUI (frogos.c): navigation and view state machine

    A shallow embedding of the menu state of [frogos.c] and of the
    functions that populate and navigate it:
    [ensure_entries_capacity], [reset_navigation_state],
    [load_empty_dirs_cache], [is_in_empty_cache],
    [rebuild_empty_dirs_cache], [scan_directory], the [show_*] view
    populators, [pick_random_game], [init_direct_loader], [render_menu]
    as far as it writes the scroll offset and reads the store (the rows
    of the window and the copy of a path into [directory\[256\]]), and
    the blocks of [handle_input]: the A-Z picker and, for a frame that
    reaches the main handler, the right, up, down, L, R, X, A and B
    buttons followed by the render.

    Around these: the start-up path of [retro_init] with
    [auto_launch_recent_game], the table [console_mappings] with
    [get_core_name_for_console], the legend of the X button, a whole
    frame of [handle_input] from the pad and [prev_input] (the
    navigation sound, SELECT, the settings menu as a parameter, the
    picker, the buttons and what is stored for the next frame), the WAV
    reader [wav_load], [load_file], [navigation_sfx], the voices of
    [sfx_play], and the scrolling name of [get_scrolling_text], whose
    scroll state is kept apart from the menu state. The pixels,
    thumbnails, the mixer and the inside of the settings menu are left
    out.

    Conventions.
    - A C [int] is a [Z]; every arithmetic result is passed through
      [wrap], the two's complement reduction to 32 bits.
    - A C string is a [string]; a copy into a [char\[n\]] buffer keeps at
      most [n-1] characters ([strncpy_buf], [snprintf_buf]). The last
      byte of [name\[256\]] in a row is never written: a stored name of
      255 characters stands for a field without terminator
      ([name_equals]).
    - The heap block behind [entries] is a list whose length is the
      allocated capacity; cells at and after [entry_count] hold stale data.
    - Behaviour the C standard leaves undefined (an index outside the
      block, [%] by zero, use of an uninitialised buffer) is the
      [Undefined] outcome; a loop that never exits is [Diverges].
    - The file system, the allocator and the collaborators that live in
      other translation units are the fields of [World]. *)

From Stdlib Require Import ZArith Lia ZifyBool Bool String Ascii List Sorted
  DecimalString.
From stdpp Require Import base tactics option list.

Open Scope Z_scope.

(** ** Machine integers *)

Definition INT_MAX : Z := 2147483647.
Definition INT_MIN : Z := -2147483648.

Definition wrap (z : Z) : Z := (z + 2147483648) mod 4294967296 - 2147483648.

Definition int_add (a b : Z) : Z := wrap (a + b).
Definition int_sub (a b : Z) : Z := wrap (a - b).
Definition int_mul (a b : Z) : Z := wrap (a * b).

(** ** Outcomes of a C function *)

Inductive ub : Type :=
| DivisionByZero
| OutOfBounds
| Uninitialised
| Diverges.

Inductive outcome (A : Type) : Type :=
| Ok (a : A)
| Undefined (u : ub).

Arguments Ok {A} a.
Arguments Undefined {A} u.

Definition bind {A B : Type} (m : outcome A) (k : A -> outcome B) : outcome B :=
  match m with
  | Ok a => k a
  | Undefined u => Undefined u
  end.

Notation "'let*' x ':=' m 'in' k" := (bind m (fun x => k))
  (at level 10, x name, m at level 100, k at level 200).

(** [a % b] of C: truncated remainder, undefined for a zero divisor. *)
Definition int_rem (a b : Z) : outcome Z :=
  if b =? 0 then Undefined DivisionByZero else Ok (wrap (Z.rem a b)).

(** ** C strings *)

Definition chr (c : ascii) : Z := Z.of_N (N_of_ascii c).

(** First [n] characters: what a bounded copy keeps. *)
Fixpoint str_take (n : nat) (s : string) : string :=
  match n, s with
  | O, _ => EmptyString
  | _, EmptyString => EmptyString
  | S n', String c r => String c (str_take n' r)
  end.

(** [strncpy(dst, src, size - 1)] into a [char dst\[size\]] whose last
    byte is zero. *)
Definition strncpy_buf (size : nat) (src : string) : string :=
  str_take (size - 1) src.

(** [snprintf(dst, size, ...)] of the already formatted text. *)
Definition snprintf_buf (size : nat) (text : string) : string :=
  str_take (size - 1) text.

(** [s\[0\]]: the terminating zero when [s] is empty. *)
Definition first_char (s : string) : ascii :=
  match s with
  | EmptyString => zero
  | String c _ => c
  end.

Definition strcmp_eq (a b : string) : bool := String.eqb a b.

Definition tolower (c : ascii) : ascii :=
  if (65 <=? chr c) && (chr c <=? 90)
  then ascii_of_N (N_of_ascii c + 32)
  else c.

Fixpoint str_lower (s : string) : string :=
  match s with
  | EmptyString => EmptyString
  | String c r => String (tolower c) (str_lower r)
  end.

(** [strcasecmp(a, b) == 0]. *)
Definition strcasecmp_eq (a b : string) : bool :=
  String.eqb (str_lower a) (str_lower b).

(** [strrchr(s, c)]: the text before and after the last [c], if any. *)
Fixpoint strrchr_split (c : ascii) (s : string) : option (string * string) :=
  match s with
  | EmptyString => None
  | String a r =>
      match strrchr_split c r with
      | Some (p, q) => Some (String a p, q)
      | None => if Ascii.eqb a c then Some (EmptyString, r) else None
      end
  end.

(** [strchr(s, c)]: the text before and after the first [c], if any. *)
Fixpoint strchr_split (c : ascii) (s : string) : option (string * string) :=
  match s with
  | EmptyString => None
  | String a r =>
      if Ascii.eqb a c then Some (EmptyString, r)
      else match strchr_split c r with
           | Some (p, q) => Some (String a p, q)
           | None => None
           end
  end.

Definition ROMS_PATH : string := "/mnt/sda1/ROMS".
Definition MAX_PATH_LEN : nat := 512.
Definition INITIAL_ENTRIES_CAPACITY : Z := 64.
Definition MAX_EMPTY_DIRS : nat := 256.

(** ** Menu entries and the global state *)

Record MenuEntry : Type := mkEntry {
  path : string;
  name : string;
  is_dir : bool
}.

(** Content of a cell that was allocated and never written. *)
Definition stale_cell : MenuEntry := mkEntry EmptyString EmptyString false.

Record RecentGame : Type := mkGame {
  core_name : string;
  game_name : string;
  full_path : string;
  display_name : string
}.

Record State : Type := mkState {
  entries : list MenuEntry;
  entry_count : Z;
  selected_index : Z;
  scroll_offset : Z;
  current_path : string;
  boundary_delay_timer : Z;
  at_boundary : Z;
  az_picker_active : bool;
  az_selected_index : Z;
  empty_dirs : list string;
  empty_dirs_loaded : bool;
  hide_empty_folders : bool;
  cache_file : option string;
  game_queued : bool;
  run_game_file : string;
  run_game_name : string;
  recent_games : list RecentGame;
  favorites : list RecentGame
}.

Definition entries_capacity (s : State) : Z := Z.of_nat (length (entries s)).

(** The Entry Store a user sees: the first [entry_count] cells. *)
Definition listing (s : State) : list MenuEntry :=
  take (Z.to_nat (entry_count s)) (entries s).

Definition set_entries (v : list MenuEntry) (s : State) : State :=
  mkState v (entry_count s) (selected_index s) (scroll_offset s) (current_path s)
    (boundary_delay_timer s) (at_boundary s) (az_picker_active s) (az_selected_index s)
    (empty_dirs s) (empty_dirs_loaded s) (hide_empty_folders s) (cache_file s)
    (game_queued s) (run_game_file s) (run_game_name s) (recent_games s) (favorites s).

Definition set_entry_count (v : Z) (s : State) : State :=
  mkState (entries s) v (selected_index s) (scroll_offset s) (current_path s)
    (boundary_delay_timer s) (at_boundary s) (az_picker_active s) (az_selected_index s)
    (empty_dirs s) (empty_dirs_loaded s) (hide_empty_folders s) (cache_file s)
    (game_queued s) (run_game_file s) (run_game_name s) (recent_games s) (favorites s).

Definition set_selected_index (v : Z) (s : State) : State :=
  mkState (entries s) (entry_count s) v (scroll_offset s) (current_path s)
    (boundary_delay_timer s) (at_boundary s) (az_picker_active s) (az_selected_index s)
    (empty_dirs s) (empty_dirs_loaded s) (hide_empty_folders s) (cache_file s)
    (game_queued s) (run_game_file s) (run_game_name s) (recent_games s) (favorites s).

Definition set_scroll_offset (v : Z) (s : State) : State :=
  mkState (entries s) (entry_count s) (selected_index s) v (current_path s)
    (boundary_delay_timer s) (at_boundary s) (az_picker_active s) (az_selected_index s)
    (empty_dirs s) (empty_dirs_loaded s) (hide_empty_folders s) (cache_file s)
    (game_queued s) (run_game_file s) (run_game_name s) (recent_games s) (favorites s).

Definition set_current_path (v : string) (s : State) : State :=
  mkState (entries s) (entry_count s) (selected_index s) (scroll_offset s) v
    (boundary_delay_timer s) (at_boundary s) (az_picker_active s) (az_selected_index s)
    (empty_dirs s) (empty_dirs_loaded s) (hide_empty_folders s) (cache_file s)
    (game_queued s) (run_game_file s) (run_game_name s) (recent_games s) (favorites s).

Definition set_boundary (timer at_b : Z) (s : State) : State :=
  mkState (entries s) (entry_count s) (selected_index s) (scroll_offset s) (current_path s)
    timer at_b (az_picker_active s) (az_selected_index s)
    (empty_dirs s) (empty_dirs_loaded s) (hide_empty_folders s) (cache_file s)
    (game_queued s) (run_game_file s) (run_game_name s) (recent_games s) (favorites s).

Definition set_az_picker_active (v : bool) (s : State) : State :=
  mkState (entries s) (entry_count s) (selected_index s) (scroll_offset s) (current_path s)
    (boundary_delay_timer s) (at_boundary s) v (az_selected_index s)
    (empty_dirs s) (empty_dirs_loaded s) (hide_empty_folders s) (cache_file s)
    (game_queued s) (run_game_file s) (run_game_name s) (recent_games s) (favorites s).

Definition set_az_selected_index (v : Z) (s : State) : State :=
  mkState (entries s) (entry_count s) (selected_index s) (scroll_offset s) (current_path s)
    (boundary_delay_timer s) (at_boundary s) (az_picker_active s) v
    (empty_dirs s) (empty_dirs_loaded s) (hide_empty_folders s) (cache_file s)
    (game_queued s) (run_game_file s) (run_game_name s) (recent_games s) (favorites s).

Definition set_empty_dirs (v : list string) (s : State) : State :=
  mkState (entries s) (entry_count s) (selected_index s) (scroll_offset s) (current_path s)
    (boundary_delay_timer s) (at_boundary s) (az_picker_active s) (az_selected_index s)
    v (empty_dirs_loaded s) (hide_empty_folders s) (cache_file s)
    (game_queued s) (run_game_file s) (run_game_name s) (recent_games s) (favorites s).

Definition set_empty_dirs_loaded (v : bool) (s : State) : State :=
  mkState (entries s) (entry_count s) (selected_index s) (scroll_offset s) (current_path s)
    (boundary_delay_timer s) (at_boundary s) (az_picker_active s) (az_selected_index s)
    (empty_dirs s) v (hide_empty_folders s) (cache_file s)
    (game_queued s) (run_game_file s) (run_game_name s) (recent_games s) (favorites s).

Definition set_cache_file (v : option string) (s : State) : State :=
  mkState (entries s) (entry_count s) (selected_index s) (scroll_offset s) (current_path s)
    (boundary_delay_timer s) (at_boundary s) (az_picker_active s) (az_selected_index s)
    (empty_dirs s) (empty_dirs_loaded s) (hide_empty_folders s) v
    (game_queued s) (run_game_file s) (run_game_name s) (recent_games s) (favorites s).

Definition set_favorites (v : list RecentGame) (s : State) : State :=
  mkState (entries s) (entry_count s) (selected_index s) (scroll_offset s) (current_path s)
    (boundary_delay_timer s) (at_boundary s) (az_picker_active s) (az_selected_index s)
    (empty_dirs s) (empty_dirs_loaded s) (hide_empty_folders s) (cache_file s)
    (game_queued s) (run_game_file s) (run_game_name s) (recent_games s) v.

Definition set_launch (file gname : string) (recents : list RecentGame) (s : State) : State :=
  mkState (entries s) (entry_count s) (selected_index s) (scroll_offset s) (current_path s)
    (boundary_delay_timer s) (at_boundary s) (az_picker_active s) (az_selected_index s)
    (empty_dirs s) (empty_dirs_loaded s) (hide_empty_folders s) (cache_file s)
    true file gname recents (favorites s).

(** ** The world outside the translation unit *)

Inductive d_type_t : Type := DT_UNKNOWN | DT_DIR | DT_OTHER.

Record dirent : Type := mkDirent {
  d_name : string;
  d_type : d_type_t
}.

Record World : Type := mkWorld {
  (** [opendir] followed by [readdir] until [NULL]; [None] when the
      directory cannot be opened. *)
  opendir : string -> option (list dirent);
  (** [stat]: [None] on failure, else [S_ISDIR(st.st_mode)]. *)
  stat_is_dir : string -> option bool;
  (** Whether [realloc] to the given number of cells succeeds. *)
  realloc_ok : Z -> bool;
  (** Whether the cache file can be opened for writing. *)
  cache_file_writable : bool;
  (** [recent_games_add] of recent_games.c. *)
  recent_games_add :
    string -> string -> string -> list RecentGame -> list RecentGame;
  (** [favorites_toggle] and [favorites_remove_by_index] of favorites.c. *)
  favorites_toggle :
    string -> string -> string -> list RecentGame -> list RecentGame;
  favorites_remove_by_index : Z -> list RecentGame -> list RecentGame;
  (** The successive results of [rand] within one [pick_random_game]. *)
  rand : nat -> Z;
  (** [fopen(path, "rb")] and the bytes of the file; [None] when the
      file cannot be opened. *)
  read_file : string -> option (list Z);
  (** Whether [malloc] of the given number of bytes succeeds. *)
  malloc_ok : Z -> bool
}.

(** ** The entry array *)

Definition in_block (i : Z) (a : list MenuEntry) : bool :=
  (0 <=? i) && (i <? Z.of_nat (length a)).

Definition read_cell (i : Z) (a : list MenuEntry) : outcome MenuEntry :=
  if in_block i a
  then match a !! Z.to_nat i with
       | Some e => Ok e
       | None => Undefined OutOfBounds
       end
  else Undefined OutOfBounds.

Definition write_cell (i : Z) (e : MenuEntry) (a : list MenuEntry)
  : outcome (list MenuEntry) :=
  if in_block i a then Ok (<[Z.to_nat i := e]> a) else Undefined OutOfBounds.

(** [while (new_capacity < required_capacity) new_capacity *= 2;]
    After 32 doublings the wrapped value is 0 for good, so running out
    of the 64 rounds means the loop never exits. *)
Fixpoint grow_capacity (fuel : nat) (new_capacity required_capacity : Z)
  : outcome Z :=
  if new_capacity <? required_capacity then
    match fuel with
    | O => Undefined Diverges
    | S fuel' =>
        grow_capacity fuel' (int_mul new_capacity 2) required_capacity
    end
  else Ok new_capacity.

Definition ensure_entries_capacity (w : World) (required_capacity : Z)
  (s : State) : outcome State :=
  if entries_capacity s >=? required_capacity then Ok s
  else
    let* new_capacity :=
      grow_capacity 64
        (if entries_capacity s =? 0 then INITIAL_ENTRIES_CAPACITY
         else entries_capacity s)
        required_capacity in
    if realloc_ok w new_capacity
    then Ok (set_entries
               (resize (Z.to_nat new_capacity) stale_cell (entries s)) s)
    else Ok s.

Definition reset_navigation_state (s : State) : State :=
  set_boundary 0 0 (set_scroll_offset 0 (set_selected_index 0 s)).

(** The recurring four lines
    [strncpy(entries\[entry_count\].name, ...);
     strncpy(entries\[entry_count\].path, ...);
     entries\[entry_count\].is_dir = ...; entry_count++;] *)
Definition append_entry (nm pth : string) (dir : bool) (s : State)
  : outcome State :=
  let* a := write_cell (entry_count s)
              (mkEntry (strncpy_buf 512 pth) (strncpy_buf 256 nm) dir)
              (entries s) in
  Ok (set_entry_count (int_add (entry_count s) 1) (set_entries a s)).

(** ** The empty-directory cache *)

Definition newline : ascii := "010"%char.
Definition dot : ascii := "."%char.

(** [fgets(line, n + 1, fp)] on the unread rest of the file: the line
    read and what is left. *)
Fixpoint fgets (n : nat) (rest : string) : string * string :=
  match n, rest with
  | O, _ => (EmptyString, rest)
  | _, EmptyString => (EmptyString, EmptyString)
  | S n', String c r =>
      if Ascii.eqb c newline then (String c EmptyString, r)
      else let (l, r') := fgets n' r in (String c l, r')
  end.

(** [if (len > 0 && line\[len-1\] == '\n') line\[len-1\] = '\0';] *)
Fixpoint chomp (line : string) : string :=
  match line with
  | EmptyString => EmptyString
  | String c EmptyString =>
      if Ascii.eqb c newline then EmptyString else line
  | String c r => String c (chomp r)
  end.

Definition is_empty_string (s : string) : bool :=
  match s with EmptyString => true | _ => false end.

(** The [while (fgets(...) && empty_dirs_count < MAX_EMPTY_DIRS)] loop
    of [load_empty_dirs_cache]; every round consumes a character. *)
Fixpoint read_cache_lines (fuel : nat) (rest : string) (acc : list string)
  : list string :=
  match fuel with
  | O => acc
  | S fuel' =>
      if is_empty_string rest then acc
      else
        let (line, rest') := fgets 63 rest in
        if (length acc <? MAX_EMPTY_DIRS)%nat then
          let line' := chomp line in
          read_cache_lines fuel' rest'
            (if is_empty_string line' then acc
             else acc ++ [strncpy_buf 64 line'])
        else acc
  end.

Definition is_in_empty_cache (s : State) (folder_name : string) : bool :=
  existsb (fun d => strcasecmp_eq d folder_name) (empty_dirs s).

Definition is_hidden (nm : string) : bool := Ascii.eqb (first_char nm) dot.

Definition is_reserved (nm : string) : bool :=
  strcasecmp_eq nm "frogui" || strcasecmp_eq nm "saves"
  || strcasecmp_eq nm "save".

Definition path_join (dir nm : string) : string :=
  snprintf_buf MAX_PATH_LEN (String.append dir (String "/" nm)).

(** The [readdir] loop of [rebuild_empty_dirs_cache]. *)
Fixpoint rebuild_loop (w : World) (ents : list dirent) (acc : list string)
  : list string :=
  match ents with
  | [] => acc
  | ent :: rest =>
      if (length acc <? MAX_EMPTY_DIRS)%nat then
        if is_hidden (d_name ent) then rebuild_loop w rest acc
        else if is_reserved (d_name ent) then rebuild_loop w rest acc
        else
          match d_type ent with
          | DT_DIR =>
              let entry_name := strncpy_buf 64 (d_name ent) in
              let full_path := path_join ROMS_PATH entry_name in
              match opendir w full_path with
              | Some subs =>
                  let has_content :=
                    existsb (fun sub => negb (is_hidden (d_name sub))) subs in
                  if has_content then rebuild_loop w rest acc
                  else rebuild_loop w rest (acc ++ [strncpy_buf 64 entry_name])
              | None => rebuild_loop w rest acc
              end
          | _ => rebuild_loop w rest acc
          end
      else acc
  end.

(** [fprintf(fp, "%s\n", empty_dirs\[i\])] for every cached name. *)
Fixpoint cache_text (dirs : list string) : string :=
  match dirs with
  | [] => EmptyString
  | d :: rest =>
      String.append d (String newline (cache_text rest))
  end.

Definition rebuild_empty_dirs_cache (w : World) (s : State) : State :=
  let s0 := set_empty_dirs [] s in
  match opendir w ROMS_PATH with
  | None => s0
  | Some ents =>
      let s1 := set_empty_dirs (rebuild_loop w ents []) s0 in
      if cache_file_writable w
      then set_cache_file (Some (cache_text (empty_dirs s1))) s1
      else s1
  end.

Definition load_empty_dirs_cache (w : World) (s : State) : State :=
  if empty_dirs_loaded s then s
  else
    let s1 := set_empty_dirs [] (set_empty_dirs_loaded true s) in
    match cache_file s1 with
    | None => rebuild_empty_dirs_cache w s1
    | Some text =>
        set_empty_dirs (read_cache_lines (S (String.length text)) text []) s1
    end.

(** ** Directory scanner *)

Definition is_directory_fast (w : World) (pth : string) (t : d_type_t)
  : bool :=
  match t with
  | DT_DIR => true
  | DT_OTHER => false
  | DT_UNKNOWN =>
      match stat_is_dir w pth with
      | Some b => b
      | None => false
      end
  end.

(** The [readdir] loop of [scan_directory]. *)
Fixpoint scan_loop (w : World) (pth : string) (is_root : bool)
  (ents : list dirent) (s : State) : outcome State :=
  match ents with
  | [] => Ok s
  | ent :: rest =>
      if is_hidden (d_name ent) then scan_loop w pth is_root rest s
      else if is_reserved (d_name ent) then scan_loop w pth is_root rest s
      else
        let entry_name := strncpy_buf 256 (d_name ent) in
        let full_path := path_join pth entry_name in
        let dir := is_directory_fast w full_path (d_type ent) in
        if is_root && negb dir then scan_loop w pth is_root rest s
        else
          let check_cache := is_root && dir && hide_empty_folders s in
          let s1 := if check_cache then load_empty_dirs_cache w s else s in
          if check_cache && is_in_empty_cache s1 entry_name
          then scan_loop w pth is_root rest s1
          else
            let* s2 := ensure_entries_capacity w (int_add (entry_count s1) 1) s1 in
            let* s3 := append_entry entry_name full_path dir s2 in
            scan_loop w pth is_root rest s3
  end.

Definition compare_entries (a b : MenuEntry) : comparison :=
  String.compare (name a) (name b).

Fixpoint insert_sorted (e : MenuEntry) (l : list MenuEntry) : list MenuEntry :=
  match l with
  | [] => [e]
  | x :: r =>
      match compare_entries e x with
      | Gt => x :: insert_sorted e r
      | _ => e :: l
      end
  end.

(** A sort by [compare_entries]; the C library leaves the order of
    equal names open, here they keep the order they had. *)
Definition sort_entries (l : list MenuEntry) : list MenuEntry :=
  foldr insert_sorted [] l.

(** [qsort(entries, entry_count, sizeof(MenuEntry), compare_entries)] *)
Definition qsort_entries (s : State) : State :=
  set_entries
    (sort_entries (listing s) ++ drop (Z.to_nat (entry_count s)) (entries s))
    s.

(** [n] rounds of [entries\[i\] = entries\[i - 1\]; i--]. *)
Fixpoint shift_loop (n : nat) (i : Z) (a : list MenuEntry)
  : outcome (list MenuEntry) :=
  match n with
  | O => Ok a
  | S n' =>
      let* e := read_cell (int_sub i 1) a in
      let* a' := write_cell i e a in
      shift_loop n' (int_sub i 1) a'
  end.

(** [for (int i = entry_count; i > k; i--) entries\[i\] = entries\[i - 1\];]
    followed by the three stores into [entries\[k\]] and [entry_count++]. *)
Definition insert_row (k : Z) (nm pth : string) (s : State) : outcome State :=
  let* a := shift_loop (Z.to_nat (entry_count s - k)) (entry_count s)
              (entries s) in
  let* a' := write_cell k
               (mkEntry (strncpy_buf 512 pth) (strncpy_buf 256 nm) true) a in
  Ok (set_entry_count (int_add (entry_count s) 1) (set_entries a' s)).

Definition scan_directory (w : World) (pth : string) (s : State)
  : outcome State :=
  let s := reset_navigation_state (set_entry_count 0 s) in
  let is_root := strcmp_eq pth ROMS_PATH in
  let* s :=
    if negb is_root then
      let* s1 := ensure_entries_capacity w (int_add (entry_count s) 1) s in
      append_entry ".." pth true s1
    else Ok s in
  match opendir w pth with
  | None => Ok s
  | Some ents =>
      let* s := scan_loop w pth is_root ents s in
      let s := qsort_entries s in
      if is_root then
        let* s := ensure_entries_capacity w (int_add (entry_count s) 4) s in
        let* s := insert_row 0 "Recent games" "RECENT_GAMES" s in
        let* s := insert_row 1 "Favorites" "FAVORITES" s in
        let* s := insert_row 2 "Random game" "RANDOM_GAME" s in
        append_entry "Tools" "TOOLS" true s
      else Ok s
  end.

(** ** View populators *)

Definition back_row (target : string) (s : State) : outcome State :=
  append_entry ".." target true s.

(** The [for] loop shared by [show_recent_games] and [show_favorites]. *)
Fixpoint add_games (games : list RecentGame) (s : State) : outcome State :=
  match games with
  | [] => Ok s
  | g :: rest =>
      let* s1 := append_entry (display_name g)
                   (String.append (core_name g) (String ";" (game_name g)))
                   false s in
      add_games rest s1
  end.

Definition show_game_list (w : World) (tag : string) (games : list RecentGame)
  (s : State) : outcome State :=
  let s := reset_navigation_state (set_entry_count 0 s) in
  let s := set_current_path (strncpy_buf 512 tag) s in
  let count := Z.of_nat (length games) in
  if count =? 0 then
    let* s := ensure_entries_capacity w (int_add (entry_count s) 1) s in
    back_row ROMS_PATH s
  else
    let* s := ensure_entries_capacity w
                (int_add (int_add (entry_count s) count) 1) s in
    let* s := add_games games s in
    back_row ROMS_PATH s.

Definition show_recent_games (w : World) (s : State) : outcome State :=
  show_game_list w "RECENT_GAMES" (recent_games s) s.

Definition show_favorites (w : World) (s : State) : outcome State :=
  show_game_list w "FAVORITES" (favorites s) s.

Definition show_tools_menu (w : World) (s : State) : outcome State :=
  let s := reset_navigation_state (set_entry_count 0 s) in
  let s := set_current_path (strncpy_buf 512 "TOOLS") s in
  let* s := ensure_entries_capacity w 4 s in
  let* s := append_entry "Hotkeys" "HOTKEYS" true s in
  let* s := append_entry "Credits" "CREDITS" true s in
  let* s := append_entry "Utils" "UTILS" true s in
  back_row ROMS_PATH s.

(** The [readdir] loop of [show_utils_menu]. *)
Fixpoint utils_loop (w : World) (dir : string) (ents : list dirent) (s : State)
  : outcome State :=
  match ents with
  | [] => Ok s
  | ent :: rest =>
      if is_hidden (d_name ent) then utils_loop w dir rest s
      else
        let full_path := path_join dir (d_name ent) in
        match stat_is_dir w full_path with
        | Some b =>
            let* s1 := ensure_entries_capacity w (int_add (entry_count s) 1) s in
            let* s2 := append_entry (d_name ent) full_path b s1 in
            utils_loop w dir rest s2
        | None => utils_loop w dir rest s
        end
  end.

Definition show_utils_menu (w : World) (s : State) : outcome State :=
  let s := reset_navigation_state (set_entry_count 0 s) in
  let s := set_current_path (strncpy_buf 512 "UTILS") s in
  let js2000_path := path_join ROMS_PATH "js2000" in
  let* s :=
    match opendir w js2000_path with
    | Some ents => utils_loop w js2000_path ents s
    | None => Ok s
    end in
  let* s := ensure_entries_capacity w (int_add (entry_count s) 1) s in
  let* s := append_entry "Rebuild folder cache" "REBUILD_CACHE" false s in
  let* s := ensure_entries_capacity w (int_add (entry_count s) 1) s in
  back_row "TOOLS" s.

Definition show_hotkeys_screen (s : State) : State :=
  reset_navigation_state
    (set_entry_count 0 (set_current_path (strncpy_buf 512 "HOTKEYS") s)).

Definition show_credits_screen (s : State) : State :=
  reset_navigation_state
    (set_entry_count 0 (set_current_path (strncpy_buf 512 "CREDITS") s)).

(** ** Launching *)

(** [init_direct_loader]: the loader file name, the game name without
    its extension, the recents store, and [game_queued = true]. *)
Definition init_direct_loader (w : World) (core directory filename : string)
  (s : State) : State :=
  let file :=
    String.append core
      (String ";" (String.append directory
         (String ";" (String.append filename ".gba")))) in
  let gname :=
    match strrchr_split dot filename with
    | Some (stem, _) => stem
    | None => filename
    end in
  set_launch file gname
    (recent_games_add w core filename directory (recent_games s)) s.

Definition ROMS_PREFIX : string := "/mnt/sda1/ROMS/".

(** [path + strlen(prefix)] when [strncmp(path, prefix, strlen(prefix)) == 0]. *)
Fixpoint strip_prefix (prefix s : string) : option string :=
  match prefix, s with
  | EmptyString, _ => Some s
  | String a p, String b r =>
      if Ascii.eqb a b then strip_prefix p r else None
  | String _ _, EmptyString => None
  end.

Definition get_corename (pth : string) (size : nat) : string :=
  let start :=
    match strip_prefix ROMS_PREFIX pth with
    | Some rest => rest
    | None => pth
    end in
  match strchr_split "/" start with
  | None => str_take (size - 1) start
  | Some (dir, _) => str_take (size - 1) dir
  end.

Definition clean_path (pth : string) : string :=
  let p :=
    match strip_prefix ROMS_PREFIX pth with
    | Some rest => rest
    | None => pth
    end in
  match strrchr_split "/" p with
  | Some (dir, _) => dir
  | None => p
  end.

(** [strcpy] into a [char\[size\]]: writing past the buffer is undefined. *)
Definition strcpy_buf (size : nat) (src : string) : outcome string :=
  if (String.length src <? size)%nat then Ok src else Undefined OutOfBounds.

(** Core, directory and file name of a row of a real directory, as
    computed before [init_direct_loader] in [handle_input] and in
    [pick_random_game]. *)
Definition launch_real_file (w : World) (entry : MenuEntry) (s : State)
  : outcome State :=
  let core := get_corename (path entry) 256 in
  let* directory := strcpy_buf 256 (path entry) in
  let directory := clean_path directory in
  let filename :=
    match strrchr_split "/" (path entry) with
    | Some (_, f) => snprintf_buf 256 f
    | None => snprintf_buf 256 (name entry)
    end in
  Ok (init_direct_loader w core directory filename s).

(** [strchr(entry->path, ';')] and the two bounded copies that follow:
    [None] is the "Invalid format" return. *)
Definition split_composite_key (key : string) : option (string * string) :=
  match strchr_split ";" key with
  | None => None
  | Some (core, file) => Some (str_take 255 core, snprintf_buf 256 file)
  end.

(** The lookup loop over the recents or favorites list. *)
Fixpoint find_full_path (core file : string) (games : list RecentGame)
  : option string :=
  match games with
  | [] => None
  | g :: rest =>
      if strcmp_eq (core_name g) core && strcmp_eq (game_name g) file
      then Some (full_path g)
      else find_full_path core file rest
  end.

(** ** Navigation *)

(** [for (int i = 0; i < entry_count; i++) if (p(entries\[i\])) { ...; break; }]
    over the listing: the first index that satisfies [p]. *)
Fixpoint find_index (p : MenuEntry -> bool) (i : Z) (l : list MenuEntry)
  : option Z :=
  match l with
  | [] => None
  | e :: r => if p e then Some i else find_index p (int_add i 1) r
  end.

(** The loop reads the cells [0 .. entry_count - 1]; they lie inside the
    block in every state a populator returns. *)
Definition find_entry (p : MenuEntry -> bool) (s : State) : option Z :=
  find_index p 0 (listing s).

(** The same loop for a test that reads the row as C reads it. *)
Fixpoint find_index_read (p : MenuEntry -> outcome bool) (i : Z)
  (l : list MenuEntry) : outcome (option Z) :=
  match l with
  | [] => Ok None
  | e :: r =>
      let* hit := p e in
      if hit then Ok (Some i) else find_index_read p (int_add i 1) r
  end.

Inductive control : Type := Fallthrough | Return.

Section Navigation.

(** [VISIBLE_ENTRIES] of render.h. *)
Variable VISIBLE_ENTRIES : Z.

(** The scroll adjustment at the head of the list drawing in
    [render_menu]. *)
Definition render_menu_viewport (s : State) : State :=
  if selected_index s <? scroll_offset s
  then set_scroll_offset (selected_index s) s
  else if selected_index s >=? int_add (scroll_offset s) VISIBLE_ENTRIES
  then set_scroll_offset
         (int_add (int_sub (selected_index s) VISIBLE_ENTRIES) 1) s
  else s.

(** The views in which a file row can bear the mark of a favorite: the
    folders of the card below the root. *)
Definition in_rom_folder (s : State) : bool :=
  negb (strcmp_eq (current_path s) ROMS_PATH)
  && negb (strcmp_eq (current_path s) "RECENT_GAMES")
  && negb (strcmp_eq (current_path s) "FAVORITES")
  && negb (strcmp_eq (current_path s) "TOOLS")
  && negb (strcmp_eq (current_path s) "UTILS")
  && negb (strcmp_eq (current_path s) "HOTKEYS")
  && negb (strcmp_eq (current_path s) "CREDITS").

(** One round of the drawing loop of [render_menu], as far as it reads
    the store: the row [entries\[i\]] and, for a file row of a folder of
    the card, [strcpy(directory, entries\[i\].path)] into a
    [char directory\[256\]]. The pixels, the text of the row (that of
    [get_scrolling_text], below, with a scroll state of its own) and the
    mark of a favorite are left out. *)
Definition draw_row (s : State) (i : Z) : outcome unit :=
  let* e := read_cell i (entries s) in
  if negb (is_dir e) && in_rom_folder s then
    let* directory := strcpy_buf 256 (path e) in
    Ok tt
  else Ok tt.

(** [rounds] rounds of the drawing loop from row [i] on. *)
Fixpoint draw_rows (rounds : nat) (i : Z) (s : State) : outcome unit :=
  match rounds with
  | O => Ok tt
  | S n =>
      let* drawn := draw_row s i in
      draw_rows n (i + 1) s
  end.

(** The rounds of
    [for (i = scroll_offset; i < entry_count && i < scroll_offset + VISIBLE_ENTRIES; i++)];
    [i] stays below [entry_count], so [i++] does not overflow. *)
Definition rows_drawn (s : State) : nat :=
  Z.to_nat
    (Z.min (entry_count s) (int_add (scroll_offset s) VISIBLE_ENTRIES)
     - scroll_offset s).

(** [render_menu]: the loading, settings, hotkeys and credits screens
    return before the list is touched; otherwise the scroll offset is
    adjusted and the rows of the window are drawn. The thumbnail loaded
    when the selection has changed is that of the selected row, which
    the loop reads as well. *)
Definition render_menu (settings_active : bool) (s : State) : outcome State :=
  if game_queued s then Ok s
  else if settings_active then Ok s
  else if strcmp_eq (current_path s) "HOTKEYS" then Ok s
  else if strcmp_eq (current_path s) "CREDITS" then Ok s
  else
    let s := render_menu_viewport s in
    let* drawn := draw_rows (rows_drawn s) (scroll_offset s) s in
    Ok s.

Definition scroll_up_to_selection (s : State) : State :=
  if selected_index s <? scroll_offset s
  then set_scroll_offset (selected_index s) s
  else s.

Definition scroll_down_to_selection (s : State) : State :=
  if selected_index s >=? int_add (scroll_offset s) VISIBLE_ENTRIES
  then set_scroll_offset
         (int_add (int_sub (selected_index s) VISIBLE_ENTRIES) 1) s
  else s.

(** [if (prev_input\[0\] && !up) { ... }] *)
Definition handle_up (s : State) : State :=
  scroll_up_to_selection
    (if selected_index s >? 0
     then set_selected_index (int_sub (selected_index s) 1) s
     else set_selected_index (int_sub (entry_count s) 1) s).

(** [if (prev_input\[1\] && !down) { ... }] *)
Definition handle_down (s : State) : State :=
  scroll_down_to_selection
    (if selected_index s <? int_sub (entry_count s) 1
     then set_selected_index (int_add (selected_index s) 1) s
     else set_selected_index 0 s).

(** [if (prev_input\[4\] && !l) { ... }] *)
Definition handle_l (s : State) : State :=
  scroll_up_to_selection
    (if selected_index s >=? 7
     then set_selected_index (int_sub (selected_index s) 7) s
     else set_selected_index
            (int_sub (entry_count s) (int_sub 7 (selected_index s))) s).

(** [if (prev_input\[5\] && !r) { ... }] *)
Definition handle_r (s : State) : outcome State :=
  let* s1 :=
    if selected_index s <? int_sub (entry_count s) 7
    then Ok (set_selected_index (int_add (selected_index s) 7) s)
    else
      let* i := int_rem (int_add (selected_index s) 7) (entry_count s) in
      Ok (set_selected_index i s) in
  Ok (scroll_down_to_selection s1).



(** *** A-Z picker *)

Definition search_chars : list string :=
  ["A"; "B"; "C"; "D"; "E"; "F"; "G";
   "H"; "I"; "J"; "K"; "L"; "M"; "N";
   "O"; "P"; "Q"; "R"; "S"; "T"; "U";
   "V"; "W"; "X"; "Y"; "Z"; "0"; ""]%string.

Definition in_range (lo hi : ascii) (c : ascii) : bool :=
  (chr lo <=? chr c) && (chr c <=? chr hi).

(** [if (entry_first >= 'a' && entry_first <= 'z')
       entry_first = entry_first - 'a' + 'A';] *)
Definition to_upper_first (c : ascii) : ascii :=
  if in_range "a" "z" c then ascii_of_N (N_of_ascii c - 97 + 65) else c.

(** The three-way test in the body of the picker's search loop. *)
Definition az_hit (idx : Z) (first_ch : ascii) (e : MenuEntry) : bool :=
  let entry_first := to_upper_first (first_char (name e)) in
  if (idx =? 26) && in_range "0" "9" entry_first then true
  else if (idx =? 27)
          && negb (in_range "A" "Z" entry_first || in_range "0" "9" entry_first)
  then true
  else if (idx <? 26) && Ascii.eqb entry_first first_ch then true
  else false.

(** [if (prev_input\[2\] && !a) { ... az_picker_active = 0; }] *)
Definition az_confirm (s : State) : outcome State :=
  let idx := az_selected_index s in
  if (0 <=? idx) && (idx <? 28) then
    match search_chars !! Z.to_nat idx with
    | Some label =>
        let first_ch := first_char label in
        let s1 :=
          match find_entry (az_hit idx first_ch) s with
          | Some i => set_selected_index i s
          | None => s
          end in
        Ok (set_az_picker_active false s1)
    | None => Undefined OutOfBounds
    end
  else Undefined OutOfBounds.

(** [if (prev_input\[3\] && !b) az_picker_active = 0;] *)
Definition az_cancel (s : State) : State := set_az_picker_active false s.

Definition az_navigate (up down left right : bool) (s : State) : State :=
  let s := if up && (az_selected_index s >=? 7)
           then set_az_selected_index (int_sub (az_selected_index s) 7) s
           else s in
  let s := if down && (az_selected_index s <? 21)
           then set_az_selected_index (int_add (az_selected_index s) 7) s
           else s in
  let s := if left && (az_selected_index s >? 0)
           then set_az_selected_index (int_sub (az_selected_index s) 1) s
           else s in
  if right && (az_selected_index s <? 27)
  then set_az_selected_index (int_add (az_selected_index s) 1) s
  else s.

(** The [if (az_picker_active) { ... return; }] block: release edges of
    up, down, left, right, A and B. *)
Definition az_picker_input (up down left right a b : bool) (s : State)
  : outcome State :=
  let s := az_navigate up down left right s in
  let* s := if a then az_confirm s else Ok s in
  Ok (if b then az_cancel s else s).

(** *** Leaving a directory *)

Definition name_is (nm : string) (e : MenuEntry) : bool := strcmp_eq (name e) nm.
Definition path_is (p : string) (e : MenuEntry) : bool := strcmp_eq (path e) p.

(** [strcmp(entries\[i\].name, prev_dir) == 0]. Every copy into [name]
    is a [strncpy] of at most 255 bytes and nothing writes
    [name\[255\]], which [realloc] leaves unset: a stored name of 255
    bytes has no terminator, and the comparison reads the unset byte
    when these 255 bytes are those of [prev_dir]. *)
Definition name_equals (prev_dir : string) (e : MenuEntry) : outcome bool :=
  if (255 <=? String.length (name e))%nat
     && strcmp_eq (str_take 255 (name e)) prev_dir
  then Undefined Uninitialised
  else Ok (name_is prev_dir e).

(** The loop that puts the selection back on the row named [prev_dir]. *)
Definition restore_by_name (prev_dir : string) (s : State) : outcome State :=
  let* found := find_index_read (name_equals prev_dir) 0 (listing s) in
  match found with
  | Some i => Ok (render_menu_viewport (set_selected_index i s))
  | None => Ok s
  end.

(** The loops of the B button that look for a synthetic row by path. *)
Definition restore_by_path (tag : string) (s : State) : State :=
  match find_entry (path_is tag) s with
  | Some i => scroll_down_to_selection (set_selected_index i s)
  | None => s
  end.

(** The body under [strrchr(current_path, '/')], textually the same in
    the ".." branch of the A button and in the last branch of the B
    button. *)
Definition go_to_parent (w : World) (s : State) : outcome State :=
  match strrchr_split "/" (current_path s) with
  | Some (parent, leaf) =>
      if is_empty_string parent then Ok s
      else
        let prev_dir := strncpy_buf 256 leaf in
        let s := set_current_path parent s in
        let* s := scan_directory w (current_path s) s in
        restore_by_name prev_dir s
  | None => Ok s
  end.

Definition rescan_root (w : World) (s : State) : outcome State :=
  let s := set_current_path (strncpy_buf 512 ROMS_PATH) s in
  scan_directory w (current_path s) s.

(** *** Random game *)

Definition is_console (e : MenuEntry) : bool :=
  is_dir e && negb (path_is "RECENT_GAMES" e) && negb (path_is "FAVORITES" e)
  && negb (path_is "RANDOM_GAME" e) && negb (path_is "TOOLS" e).

Definition is_game_file (e : MenuEntry) : bool :=
  negb (is_dir e) && negb (name_is ".." e).

(** [k]-th row among those that satisfy [p]; [None] when the loop ends
    without reaching it. *)
Definition nth_matching (p : MenuEntry -> bool) (k : Z) (l : list MenuEntry)
  : option MenuEntry :=
  if 0 <=? k then filter (fun e => Is_true (p e)) l !! Z.to_nat k else None.

(** [pick_random_game]: [n] attempts left, [k] calls of [rand] so far. *)
Fixpoint pick_attempts (w : World) (n k : nat) (s : State) : outcome State :=
  match n with
  | O => rescan_root w s
  | S n' =>
      let* s := rescan_root w s in
      let valid_console_count :=
        Z.of_nat (length (filter (fun e => Is_true (is_console e)) (listing s))) in
      if valid_console_count =? 0 then rescan_root w s
      else
        let* random_console := int_rem (rand w k) valid_console_count in
        let s :=
          match nth_matching is_console random_console (listing s) with
          | Some e => set_current_path (strncpy_buf 512 (path e)) s
          | None => s
          end in
        let* s := scan_directory w (current_path s) s in
        let file_count :=
          Z.of_nat (length (filter (fun e => Is_true (is_game_file e)) (listing s))) in
        if file_count =? 0 then pick_attempts w n' (S k) s
        else
          let* random_file := int_rem (rand w (S k)) file_count in
          match nth_matching is_game_file random_file (listing s) with
          | Some e => launch_real_file w e s
          | None => pick_attempts w n' (S (S k)) s
          end
  end.

Definition pick_random_game (w : World) (s : State) : outcome State :=
  pick_attempts w 100 0 s.

(** *** A button *)

Definition pair_with (c : control) (m : outcome State) : outcome (control * State) :=
  let* s := m in Ok (c, s).

(** The directory-row branch of the A button. *)
Definition enter_directory (w : World) (settings_active : bool)
  (entry : MenuEntry) (s : State) : outcome (control * State) :=
  if path_is "RECENT_GAMES" entry then
    let* s := show_recent_games w s in
    Ok (Fallthrough, set_current_path (strncpy_buf 512 "RECENT_GAMES") s)
  else if path_is "FAVORITES" entry then
    let* s := show_favorites w s in
    Ok (Fallthrough, set_current_path (strncpy_buf 512 "FAVORITES") s)
  else if path_is "RANDOM_GAME" entry then
    let* s := pick_random_game w s in
    pair_with Return (render_menu settings_active s)
  else if path_is "TOOLS" entry then
    let* s := show_tools_menu w s in
    Ok (Fallthrough, set_current_path (strncpy_buf 512 "TOOLS") s)
  else if path_is "HOTKEYS" entry then
    Ok (Fallthrough,
        set_current_path (strncpy_buf 512 "HOTKEYS") (show_hotkeys_screen s))
  else if path_is "CREDITS" entry then
    Ok (Fallthrough,
        set_current_path (strncpy_buf 512 "CREDITS") (show_credits_screen s))
  else if path_is "UTILS" entry then
    let* s := show_utils_menu w s in
    Ok (Fallthrough, set_current_path (strncpy_buf 512 "UTILS") s)
  else
    let s := set_current_path (strncpy_buf 512 (path entry)) s in
    pair_with Fallthrough (scan_directory w (current_path s) s).

(** The recents and favorites branches of the file row: split the key,
    look the directory up, launch. *)
Definition launch_composite (w : World) (games : list RecentGame)
  (entry : MenuEntry) (s : State) : outcome (control * State) :=
  match split_composite_key (path entry) with
  | None => Ok (Return, s)
  | Some (core, filename) =>
      match find_full_path core filename games with
      | Some dir =>
          let* directory := strcpy_buf 256 dir in
          Ok (Fallthrough, init_direct_loader w core directory filename s)
      | None => Undefined Uninitialised
      end
  end.

(** The file-row branch of the A button. *)
Definition launch_file (w : World) (settings_active : bool)
  (entry : MenuEntry) (s : State) : outcome (control * State) :=
  if strcmp_eq (current_path s) "UTILS" then
    if path_is "REBUILD_CACHE" entry then
      pair_with Return (rescan_root w (rebuild_empty_dirs_cache w s))
    else
      pair_with Return
        (render_menu settings_active
           (init_direct_loader w "js2000" "js2000" (name entry) s))
  else if strcmp_eq (current_path s) "RECENT_GAMES" then
    launch_composite w (recent_games s) entry s
  else if strcmp_eq (current_path s) "FAVORITES" then
    launch_composite w (favorites s) entry s
  else pair_with Fallthrough (launch_real_file w entry s).

(** [if (prev_input\[2\] && !a && entry_count > 0) { ... }] *)
Definition handle_a (w : World) (settings_active : bool) (s : State)
  : outcome (control * State) :=
  if entry_count s >? 0 then
    let* entry := read_cell (selected_index s) (entries s) in
    if name_is ".." entry then pair_with Fallthrough (go_to_parent w s)
    else if is_dir entry then enter_directory w settings_active entry s
    else launch_file w settings_active entry s
  else Ok (Fallthrough, s).

(** *** B button: [if (prev_input\[3\] && !b) { ... }] *)
Definition handle_b (w : World) (s : State) : outcome State :=
  if strcmp_eq (current_path s) "RECENT_GAMES" then
    let* s := rescan_root w s in Ok (restore_by_path "RECENT_GAMES" s)
  else if strcmp_eq (current_path s) "FAVORITES" then
    let* s := rescan_root w s in Ok (restore_by_path "FAVORITES" s)
  else if strcmp_eq (current_path s) "TOOLS" then
    let* s := rescan_root w s in Ok (restore_by_path "TOOLS" s)
  else if strcmp_eq (current_path s) "HOTKEYS" then
    let* s := show_tools_menu w s in
    Ok (set_current_path (strncpy_buf 512 "TOOLS") s)
  else if strcmp_eq (current_path s) "CREDITS" then
    let* s := show_tools_menu w s in
    Ok (set_current_path (strncpy_buf 512 "TOOLS") s)
  else if strcmp_eq (current_path s) "UTILS" then
    let* s := show_tools_menu w s in
    Ok (set_current_path (strncpy_buf 512 "TOOLS") s)
  else if negb (strcmp_eq (current_path s) ROMS_PATH) then go_to_parent w s
  else Ok s.

(** *** Right button outside the picker:
    [if (prev_input\[8\] && !right) { ... }] *)
Definition open_az_picker (s : State) : State :=
  if negb (strcmp_eq (current_path s) "RECENT_GAMES")
     && negb (strcmp_eq (current_path s) "FAVORITES")
     && negb (strcmp_eq (current_path s) "TOOLS")
     && negb (strcmp_eq (current_path s) "UTILS")
     && negb (strcmp_eq (current_path s) "HOTKEYS")
     && negb (strcmp_eq (current_path s) "CREDITS")
     && (entry_count s >? 0)
  then set_az_selected_index 0 (set_az_picker_active true s)
  else s.

(** *** X button: [if (prev_input\[9\] && !x && entry_count > 0) { ... }] *)
Definition handle_x (w : World) (s : State) : outcome State :=
  if entry_count s >? 0 then
    let* entry := read_cell (selected_index s) (entries s) in
    if strcmp_eq (current_path s) "FAVORITES" then
      if negb (is_dir entry) && negb (name_is ".." entry) then
        let s :=
          set_favorites
            (favorites_remove_by_index w (selected_index s) (favorites s)) s in
        let* s := show_favorites w s in
        let new_count := Z.of_nat (length (favorites s)) in
        let s :=
          if new_count =? 0 then set_selected_index 0 s
          else if selected_index s >=? new_count
          then set_selected_index (int_sub new_count 1) s
          else s in
        Ok (scroll_up_to_selection s)
      else Ok s
    else if negb (is_dir entry)
            && negb (strcmp_eq (current_path s) "RECENT_GAMES")
            && negb (strcmp_eq (current_path s) "TOOLS")
            && negb (strcmp_eq (current_path s) "UTILS")
            && negb (strcmp_eq (current_path s) "HOTKEYS")
            && negb (strcmp_eq (current_path s) "CREDITS")
            && negb (strcmp_eq (current_path s) ROMS_PATH)
    then
      let core := get_corename (path entry) 256 in
      let* directory := strcpy_buf 256 (path entry) in
      let directory := clean_path directory in
      let filename :=
        match strrchr_split "/" (path entry) with
        | Some (_, f) => snprintf_buf 256 f
        | None => snprintf_buf 256 (name entry)
        end in
      Ok (set_favorites
            (favorites_toggle w core filename directory (favorites s)) s)
    else Ok s
  else Ok s.

(** *** One frame of the main navigation handler

    The part of [handle_input] that runs when neither the settings menu
    nor the picker took the frame: the release edges in source order,
    then [if (input_changed) render_menu();]. The A button can leave the
    function early. *)
Record Edges : Type := mkEdges {
  e_right : bool;
  e_up : bool;
  e_down : bool;
  e_l : bool;
  e_r : bool;
  e_x : bool;
  e_a : bool;
  e_b : bool
}.

Definition handle_navigation (w : World) (settings_active : bool)
  (ed : Edges) (input_changed : bool) (s : State) : outcome State :=
  let s := if e_right ed then open_az_picker s else s in
  let s := if e_up ed then handle_up s else s in
  let s := if e_down ed then handle_down s else s in
  let s := if e_l ed then handle_l s else s in
  let* s := if e_r ed then handle_r s else Ok s in
  let* s := if e_x ed then handle_x w s else Ok s in
  let* cs := if e_a ed then handle_a w settings_active s
             else Ok (Fallthrough, s) in
  match cs with
  | (Return, s) => Ok s
  | (Fallthrough, s) =>
      let* s := if e_b ed then handle_b w s else Ok s in
      if input_changed then render_menu settings_active s else Ok s
  end.

End Navigation.

(** ** Start-up *)

(** [auto_launch_recent_game]: the most recent game, if there is one. *)
Definition auto_launch_recent_game (w : World) (s : State) : State :=
  match recent_games s with
  | [] => s
  | game :: _ =>
      init_direct_loader w (core_name game) (full_path game) (game_name game) s
  end.

(** [retro_reset] *)
Definition retro_reset (w : World) (s : State) : outcome State :=
  rescan_root w s.

(** The part of [retro_init] that follows the initialisation of the
    other modules, the loading of the stores and [apply_settings]:
    resume, first scan, first render. [resume_on_boot] is the flag that
    [apply_settings] has just set. *)
Definition retro_init (visible_entries : Z) (w : World)
  (settings_active resume_on_boot : bool) (s : State) : outcome State :=
  let s := if resume_on_boot then auto_launch_recent_game w s else s in
  let* s := if negb (game_queued s) then rescan_root w s else Ok s in
  render_menu visible_entries settings_active s.

(** ** Header and legend of [render_menu] *)

Definition get_basename (pth : string) : string :=
  match strrchr_split "/" pth with
  | Some (_, base) => base
  | None => pth
  end.

(** The text passed to [render_header]. *)
Definition display_path (s : State) : string :=
  if strcmp_eq (current_path s) ROMS_PATH then "FROGUI: SYSTEMS"%string
  else get_basename (current_path s).

Inductive legend_x : Type :=
| LEGEND_X_NONE
| LEGEND_X_FAVOURITE
| LEGEND_X_REMOVE.

(** The mode passed to [render_legend]. *)
Definition x_button_mode (s : State) : legend_x :=
  if strcmp_eq (current_path s) "FAVORITES" then LEGEND_X_REMOVE
  else if negb (strcmp_eq (current_path s) ROMS_PATH)
          && negb (strcmp_eq (current_path s) "RECENT_GAMES")
          && negb (strcmp_eq (current_path s) "TOOLS")
          && negb (strcmp_eq (current_path s) "UTILS")
          && negb (strcmp_eq (current_path s) "HOTKEYS")
          && negb (strcmp_eq (current_path s) "CREDITS")
  then LEGEND_X_FAVOURITE
  else LEGEND_X_NONE.

(** ** Core settings of a console folder *)

(** [console_mappings] *)
Definition console_mappings : list (string * string) :=
  [("menu", "FrogUI"); ("gb", "Gambatte"); ("gbb", "TGBDual");
   ("gbgb", "Gearboy"); ("dblcherrygb", "DoubleCherry-GB"); ("gba", "gpSP");
   ("gbaf", "gpSP"); ("gbaff", "gpSP"); ("gbav", "VBA-Next");
   ("mgba", "mGBA"); ("nes", "FCEUmm"); ("nesq", "QuickNES");
   ("nest", "Nestopia"); ("snes", "Snes9x2005"); ("snes02", "Snes9x2002");
   ("sega", "PicoDrive"); ("gg", "Gearsystem"); ("gpgx", "Genesis-Plus-GX");
   ("pce", "Beetle-PCE-Fast"); ("pcesgx", "Beetle-SuperGrafx");
   ("pcfx", "Beetle-PCFX"); ("ngpc", "RACE"); ("lnx", "Handy");
   ("lnxb", "Beetle-Lynx"); ("wswan", "Beetle-WonderSwan"); ("wsv", "Potator");
   ("pokem", "PokeMini"); ("vb", "Beetle-VB"); ("a26", "Stella2014");
   ("a5200", "Atari5200"); ("a78", "ProSystem"); ("a800", "Atari800");
   ("int", "FreeIntv"); ("col", "Gearcoleco"); ("msx", "BlueMSX");
   ("spec", "Fuse"); ("zx81", "EightyOne"); ("thom", "Theodore");
   ("vec", "VecX"); ("c64", "VICE-x64"); ("c64sc", "VICE-x64sc");
   ("c64f", "Frodo"); ("c64fc", "Frodo"); ("vic20", "VICE-xvic");
   ("amstradb", "CAP32"); ("amstrad", "CrocoDS"); ("bk", "BK-Emulator");
   ("pc8800", "QUASI88"); ("xmil", "X-Millennium"); ("m2k", "MAME2000");
   ("chip8", "JAXE"); ("fcf", "FreeChaF"); ("retro8", "Retro8");
   ("vapor", "VaporSpec"); ("gong", "Gong"); ("outrun", "Cannonball");
   ("wolf3d", "ECWolf"); ("prboom", "PrBoom"); ("doom", "PrBoom");
   ("doom2", "PrBoom"); ("doom-plutonia", "PrBoom"); ("doom-tnt", "PrBoom");
   ("flashback", "REminiscence"); ("xrick", "XRick"); ("gw", "Game-and-Watch");
   ("cdg", "PocketCDG"); ("gme", "Game-Music-Emu"); ("fake08", "FAKE-08");
   ("lowres-nx", "LowRes-NX"); ("jnb", "Jump-n-Bump");
   ("cavestory", "NXEngine"); ("o2em", "O2EM"); ("quake", "TyrQuake");
   ("arduboy", "Arduous"); ("js2000", "js2000")]%string.

(** The loop of [get_core_name_for_console]: the core of the first row
    whose console name is [console_name]; [None] is [NULL]. *)
Fixpoint first_mapping (table : list (string * string)) (console_name : string)
  : option string :=
  match table with
  | [] => None
  | (console, core) :: rest =>
      if strcmp_eq console console_name then Some core
      else first_mapping rest console_name
  end.

Definition get_core_name_for_console (console_name : string) : option string :=
  first_mapping console_mappings console_name.

(** ** Sound: WAV files and voices *)

(** A file in memory is the list of its bytes, each in 0..255. *)
Definition byte_at (buf : list Z) (i : Z) : outcome Z :=
  if (0 <=? i) && (i <? Z.of_nat (length buf))
  then match buf !! Z.to_nat i with
       | Some v => Ok v
       | None => Undefined OutOfBounds
       end
  else Undefined OutOfBounds.

(** [read_le16(buf + i)] *)
Definition read_le16 (buf : list Z) (i : Z) : outcome Z :=
  let* p0 := byte_at buf i in
  let* p1 := byte_at buf (i + 1) in
  Ok (Z.lor p0 (Z.shiftl p1 8)).

(** [read_le32(buf + i)]; the shift by 24 reaches the sign bit. *)
Definition read_le32 (buf : list Z) (i : Z) : outcome Z :=
  let* p0 := byte_at buf i in
  let* p1 := byte_at buf (i + 1) in
  let* p2 := byte_at buf (i + 2) in
  let* p3 := byte_at buf (i + 3) in
  Ok (wrap (Z.lor (Z.lor (Z.lor p0 (Z.shiftl p1 8)) (Z.shiftl p2 16))
              (Z.shiftl p3 24))).

(** [!memcmp(buf + i, tag, 4)] for a tag of four characters. *)
Definition tag_at (buf : list Z) (i : Z) (tag : string) : outcome bool :=
  let* p0 := byte_at buf i in
  let* p1 := byte_at buf (i + 1) in
  let* p2 := byte_at buf (i + 2) in
  let* p3 := byte_at buf (i + 3) in
  Ok (match map chr (list_ascii_of_string tag) with
      | [t0; t1; t2; t3] =>
          (p0 =? t0) && (p1 =? t1) && (p2 =? t2) && (p3 =? t3)
      | _ => false
      end).

(** [a / b] of C: truncated quotient, undefined for a zero divisor. *)
Definition int_div (a b : Z) : outcome Z :=
  if b =? 0 then Undefined DivisionByZero else Ok (wrap (Z.quot a b)).

(** [data] is the offset in the file of the first sample; [None] is
    the null pointer of a [Wav] that was never filled. *)
Record Wav : Type := mkWav {
  sample_rate : Z;
  channels : Z;
  bits_per_sample : Z;
  num_samples : Z;
  data : option Z
}.

(** The [while (pos + 8 <= (int)size)] loop of [wav_load]: the result
    and what [*out] holds then. A round that ends without a read outside
    the file has [0 <= pos <= size - 8], and what a round does depends
    on the file and on [pos] only; so more rounds than the file has
    bytes means that a position came back and the loop never exits. *)
Fixpoint wav_chunks (fuel : nat) (buf : list Z) (pos : Z) (out : Wav)
  : outcome (bool * Wav) :=
  if int_add pos 8 <=? wrap (Z.of_nat (length buf)) then
    match fuel with
    | O => Undefined Diverges
    | S fuel' =>
        let* chunk_size := read_le32 buf (pos + 4) in
        let* is_fmt := tag_at buf pos "fmt " in
        if is_fmt then
          let* format := read_le16 buf (pos + 8) in
          let* ch := read_le16 buf (pos + 10) in
          let* rate := read_le32 buf (pos + 12) in
          let* bits := read_le16 buf (pos + 22) in
          let out := mkWav rate ch bits (num_samples out) (data out) in
          if negb (format =? 1) then Ok (false, out)
          else wav_chunks fuel' buf (int_add pos (int_add 8 chunk_size)) out
        else
          let* is_data := tag_at buf pos "data" in
          if is_data then
            let* bytes := int_div (bits_per_sample out) 8 in
            let* samples :=
              int_div chunk_size (int_mul (channels out) bytes) in
            Ok (true,
                mkWav (sample_rate out) (channels out) (bits_per_sample out)
                  samples (Some (pos + 8)))
          else wav_chunks fuel' buf (int_add pos (int_add 8 chunk_size)) out
    end
  else Ok (false, out).

Definition wav_load (buf : list Z) (out : Wav) : outcome (bool * Wav) :=
  if (length buf <? 44)%nat then Ok (false, out)
  else
    let* riff := tag_at buf 0 "RIFF" in
    let* wave := tag_at buf 8 "WAVE" in
    if negb riff || negb wave then Ok (false, out)
    else wav_chunks (S (length buf)) buf 12 out.

Record SfxVoice : Type := mkVoice {
  voice_wav : option Wav;
  voice_pos : Z;
  voice_volume : Z;
  voice_active : bool
}.

(** The background music and the array [sfx\[MAX_SFX\]]. *)
Record Audio : Type := mkAudio {
  bgm_wav : option Wav;
  bgm_pos : Z;
  bgm_volume : Z;
  bgm_playing : bool;
  sfx : list SfxVoice
}.

Definition MAX_SFX : nat := 8.

(** The loop of [sfx_play] from cell [i] on. *)
Fixpoint sfx_claim (wav : Wav) (volume : Z) (voices : list SfxVoice)
  : list SfxVoice :=
  match voices with
  | [] => []
  | v :: rest =>
      if voice_active v then v :: sfx_claim wav volume rest
      else mkVoice (Some wav) 0 volume true :: rest
  end.

Definition sfx_play (wav : Wav) (volume : Z) (a : Audio) : Audio :=
  mkAudio (bgm_wav a) (bgm_pos a) (bgm_volume a) (bgm_playing a)
    (sfx_claim wav volume (sfx a)).

(** [load_file]: [None] when the file cannot be opened. The result of
    [malloc] is not tested before [fread] writes through it. *)
Definition load_file (w : World) (pth : string) : outcome (option (list Z)) :=
  match read_file w pth with
  | None => Ok None
  | Some bytes =>
      if malloc_ok w (Z.of_nat (length bytes)) then Ok (Some bytes)
      else match bytes with
           | [] => Ok (Some [])
           | _ :: _ => Undefined OutOfBounds
           end
  end.

(** The statics [nav] and [nav_init_once] and the voices. *)
Record Sound : Type := mkSound {
  nav : Wav;
  nav_init_once : bool;
  audio : Audio
}.

(** The statics before the first call. *)
Definition sound_at_start : Sound :=
  mkSound (mkWav 0 0 0 0 None) false
    (mkAudio None 0 128 false (replicate MAX_SFX (mkVoice None 0 0 false))).

(** [navigation_sfx]: the file is loaded at the first call that finds
    and can read it; [wav_load] writes into [nav] also when it
    fails. *)
Definition navigation_sfx (w : World) (sd : Sound) : outcome Sound :=
  if nav_init_once sd
  then Ok (mkSound (nav sd) true (sfx_play (nav sd) 128 (audio sd)))
  else
    let* file := load_file w "/mnt/sda1/frogui/navigation.wav" in
    match file with
    | None => Ok sd
    | Some buf =>
        let* loaded := wav_load buf (nav sd) in
        if fst loaded
        then Ok (mkSound (snd loaded) true
                   (sfx_play (snd loaded) 128 (audio sd)))
        else Ok (mkSound (snd loaded) false (audio sd))
    end.

(** ** One frame of [handle_input] *)

(** What [input_state_cb] returns for the eleven buttons read. *)
Record Pad : Type := mkPad {
  pad_up : Z;
  pad_down : Z;
  pad_a : Z;
  pad_b : Z;
  pad_x : Z;
  pad_y : Z;
  pad_l : Z;
  pad_r : Z;
  pad_select : Z;
  pad_left : Z;
  pad_right : Z
}.

(** [prev_input\[i\]] of the array [int prev_input\[16\]]; the indices
    are constants below 16. *)
Definition prev_at (i : nat) (prev_input : list Z) : Z := nth i prev_input 0.

(** [prev_input\[i\] && !now]: the button was down and is up. *)
Definition released (before now : Z) : bool :=
  negb (before =? 0) && (now =? 0).

Definition input_changed (p : list Z) (pad : Pad) : bool :=
  negb (prev_at 0 p =? pad_up pad) || negb (prev_at 1 p =? pad_down pad)
  || negb (prev_at 2 p =? pad_a pad) || negb (prev_at 3 p =? pad_b pad)
  || negb (prev_at 4 p =? pad_l pad) || negb (prev_at 5 p =? pad_r pad)
  || negb (prev_at 6 p =? pad_select pad) || negb (prev_at 7 p =? pad_left pad)
  || negb (prev_at 8 p =? pad_right pad) || negb (prev_at 9 p =? pad_x pad)
  || negb (prev_at 10 p =? pad_y pad).

(** The stores into [prev_input] at the end of the main handler. *)
Definition store_main (pad : Pad) (p : list Z) : list Z :=
  <[9%nat := pad_x pad]>
    (<[8%nat := pad_right pad]>
       (<[7%nat := pad_left pad]>
          (<[6%nat := pad_select pad]>
             (<[5%nat := pad_r pad]>
                (<[4%nat := pad_l pad]>
                   (<[3%nat := pad_b pad]>
                      (<[2%nat := pad_a pad]>
                         (<[1%nat := pad_down pad]>
                            (<[0%nat := pad_up pad]> p))))))))).

(** The stores when the settings menu has consumed the input. *)
Definition store_all (pad : Pad) (p : list Z) : list Z :=
  <[10%nat := pad_y pad]> (store_main pad p).

(** The stores when the picker has consumed the input. *)
Definition store_picker (pad : Pad) (p : list Z) : list Z :=
  <[8%nat := pad_right pad]>
    (<[7%nat := pad_left pad]>
       (<[3%nat := pad_b pad]>
          (<[2%nat := pad_a pad]>
             (<[1%nat := pad_down pad]>
                (<[0%nat := pad_up pad]> p))))).

(** [handle_navigation] with the way it was left: [Return] when the A
    button left [handle_input] early. *)
Definition handle_buttons (visible_entries : Z) (w : World)
  (settings_active : bool) (ed : Edges) (changed : bool) (s : State)
  : outcome (control * State) :=
  let s := if e_right ed then open_az_picker s else s in
  let s := if e_up ed then handle_up s else s in
  let s := if e_down ed then handle_down visible_entries s else s in
  let s := if e_l ed then handle_l s else s in
  let* s := if e_r ed then handle_r visible_entries s else Ok s in
  let* s := if e_x ed then handle_x w s else Ok s in
  let* cs := if e_a ed then handle_a visible_entries w settings_active s
             else Ok (Fallthrough, s) in
  match cs with
  | (Return, s) => Ok (Return, s)
  | (Fallthrough, s) =>
      let* s := if e_b ed then handle_b visible_entries w s else Ok s in
      pair_with Fallthrough
        (if changed then render_menu visible_entries settings_active s
         else Ok s)
  end.

Section Frame.

(** [VISIBLE_ENTRIES] of render.h. *)
Variable VISIBLE_ENTRIES : Z.

(** The settings menu of settings.c: its state and the functions that
    [handle_input] calls. They are taken not to write the globals of
    frogos.c. *)
Variable Settings : Type.
Variable settings_is_active : Settings -> bool.
Variable settings_handle_input :
  bool -> bool -> bool -> bool -> bool -> bool -> bool ->
  Settings -> bool * Settings.
Variable settings_load : Settings -> Settings.
Variable settings_show_menu : Settings -> Settings.
Variable settings_load_core : string -> Settings -> bool * Settings.

(** The menu state together with what else [handle_input] reads and
    writes. *)
Record Frame : Type := mkFrame {
  menu : State;
  prev_input : list Z;
  show_multicore_opt : bool;
  settings : Settings;
  sound : Sound
}.

Definition show_core_settings (core : string) (st : Settings) : Settings :=
  let (found, st) := settings_load_core core st in
  if found then settings_show_menu st else st.

(** [if (prev_input\[6\] && !select) { ... return; }] *)
Definition select_released (pad : Pad) (f : Frame) : outcome Frame :=
  let multicore :=
    if settings_is_active (settings f) then negb (show_multicore_opt f)
    else show_multicore_opt f in
  let* st :=
    if multicore then Ok (settings_show_menu (settings_load (settings f)))
    else if strcmp_eq (current_path (menu f)) ROMS_PATH
    then Ok (show_core_settings "FrogUI" (settings f))
    else
      match strrchr_split "/" (current_path (menu f)) with
      | Some (parent, leaf) =>
          if is_empty_string parent then Ok (settings f)
          else
            let* console_folder := strcpy_buf 256 leaf in
            match get_core_name_for_console console_folder with
            | Some core => Ok (show_core_settings core (settings f))
            | None => Ok (settings f)
            end
      | None => Ok (settings f)
      end in
  let* s := render_menu VISIBLE_ENTRIES (settings_is_active st) (menu f) in
  Ok (mkFrame s (<[6%nat := pad_select pad]> (prev_input f)) multicore st
        (sound f)).

(** [handle_input], the callbacks being set. *)
Definition handle_input (w : World) (pad : Pad) (f : Frame) : outcome Frame :=
  if game_queued (menu f) then Ok f
  else
    let p := prev_input f in
    let up := released (prev_at 0 p) (pad_up pad) in
    let down := released (prev_at 1 p) (pad_down pad) in
    let left := released (prev_at 7 p) (pad_left pad) in
    let right := released (prev_at 8 p) (pad_right pad) in
    let* sd :=
      if up || down || left || right then navigation_sfx w (sound f)
      else Ok (sound f) in
    let changed := input_changed p pad in
    if released (prev_at 6 p) (pad_select pad)
    then
      select_released pad
        (mkFrame (menu f) p (show_multicore_opt f) (settings f) sd)
    else
      let a := released (prev_at 2 p) (pad_a pad) in
      let b := released (prev_at 3 p) (pad_b pad) in
      let y := released (prev_at 10 p) (pad_y pad) in
      let (consumed, st) :=
        settings_handle_input up down left right a b y (settings f) in
      let active := settings_is_active st in
      if consumed then
        let* s :=
          if changed then render_menu VISIBLE_ENTRIES active (menu f)
          else Ok (menu f) in
        Ok (mkFrame s (store_all pad p) (show_multicore_opt f) st sd)
      else if az_picker_active (menu f) then
        let* s := az_picker_input up down left right a b (menu f) in
        let* s :=
          if changed then render_menu VISIBLE_ENTRIES active s else Ok s in
        Ok (mkFrame s (store_picker pad p) (show_multicore_opt f) st sd)
      else
        let ed :=
          mkEdges right up down
            (released (prev_at 4 p) (pad_l pad))
            (released (prev_at 5 p) (pad_r pad))
            (released (prev_at 9 p) (pad_x pad)) a b in
        let* cs := handle_buttons VISIBLE_ENTRIES w active ed changed (menu f) in
        match cs with
        | (Return, s) => Ok (mkFrame s p (show_multicore_opt f) st sd)
        | (Fallthrough, s) =>
            Ok (mkFrame s (store_main pad p) (show_multicore_opt f) st sd)
        end.

End Frame.

Arguments mkFrame {Settings} menu prev_input show_multicore_opt settings sound.
Arguments menu {Settings} f.
Arguments prev_input {Settings} f.
Arguments show_multicore_opt {Settings} f.
Arguments settings {Settings} f.
Arguments sound {Settings} f.
Arguments show_core_settings {Settings} settings_show_menu settings_load_core
  core st.
Arguments select_released VISIBLE_ENTRIES {Settings} settings_is_active
  settings_load settings_show_menu settings_load_core pad f.
Arguments handle_input VISIBLE_ENTRIES {Settings} settings_is_active
  settings_handle_input settings_load settings_show_menu settings_load_core
  w pad f.

(** ** The name of a row as it is drawn *)

(** [text_scroll_frame_counter], [text_scroll_offset] and
    [text_scroll_direction]. *)
Record Scroll : Type := mkScroll {
  text_scroll_frame_counter : Z;
  text_scroll_offset : Z;
  text_scroll_direction : Z
}.

(** [s + n] for a string of at least [n] characters. *)
Fixpoint str_drop (n : nat) (s : string) : string :=
  match n, s with
  | O, _ => s
  | _, EmptyString => EmptyString
  | S n', String _ r => str_drop n' r
  end.

Section Scrolling.

(** The constants of render.h. *)
Variables (MAX_FILENAME_DISPLAY_LEN MAX_UNSELECTED_DISPLAY_LEN : Z).
Variables (SCROLL_DELAY_FRAMES SCROLL_SPEED_FRAMES : Z).

Definition in_main_menu (path : string) : bool :=
  strcmp_eq path ROMS_PATH
  || strcmp_eq path "RECENT_GAMES"
  || strcmp_eq path "FAVORITES"
  || strcmp_eq path "TOOLS"
  || strcmp_eq path "UTILS"
  || strcmp_eq path "HOTKEYS"
  || strcmp_eq path "CREDITS".

(** [get_scrolling_text] for non-null arguments: the text left in
    [display_name], a buffer of [display_size] bytes, and the scroll
    state. A [strncpy] of [n] characters followed by
    [display_name\[n\] = '\0'] leaves the [n] characters when the source
    has them; a negative [n] is a size beyond every buffer. The length
    of a name is below the size of its array, so [strlen] fits an
    [int]. *)
Definition get_scrolling_text (path full_name : string) (is_selected : bool)
  (display_size : nat) (sc : Scroll) : outcome (string * Scroll) :=
  let name_len := Z.of_nat (String.length full_name) in
  let max_len :=
    if is_selected then MAX_FILENAME_DISPLAY_LEN
    else if in_main_menu path then MAX_FILENAME_DISPLAY_LEN
         else MAX_UNSELECTED_DISPLAY_LEN in
  if (name_len <=? max_len) || negb is_selected then
    if name_len <=? max_len then
      let* text := strcpy_buf display_size full_name in
      Ok (text, sc)
    else if max_len <? 0 then Undefined OutOfBounds
    else
      let* text :=
        strcpy_buf display_size
          (String.append (str_take (Z.to_nat max_len) full_name) "...") in
      Ok (text, sc)
  else
    let counter := int_add (text_scroll_frame_counter sc) 1 in
    if counter <? SCROLL_DELAY_FRAMES then
      if MAX_FILENAME_DISPLAY_LEN <? 0 then Undefined OutOfBounds
      else
        let* text :=
          strcpy_buf display_size
            (str_take (Z.to_nat MAX_FILENAME_DISPLAY_LEN) full_name) in
        Ok (text,
            mkScroll counter (text_scroll_offset sc)
              (text_scroll_direction sc))
    else
      let* r := int_rem counter SCROLL_SPEED_FRAMES in
      let sc1 :=
        if r =? 0 then
          let offset :=
            int_add (text_scroll_offset sc) (text_scroll_direction sc) in
          let max_scroll := int_sub name_len MAX_FILENAME_DISPLAY_LEN in
          if offset >=? max_scroll then mkScroll counter max_scroll (-1)
          else if offset <=? 0 then mkScroll counter 0 1
          else mkScroll counter offset (text_scroll_direction sc)
        else
          mkScroll counter (text_scroll_offset sc)
            (text_scroll_direction sc) in
      let copy_len :=
        Z.min MAX_FILENAME_DISPLAY_LEN
          (int_sub name_len (text_scroll_offset sc1)) in
      if (text_scroll_offset sc1 <? 0)
         || (name_len <? text_scroll_offset sc1)
         || (copy_len <? 0)
      then Undefined OutOfBounds
      else
        let* text :=
          strcpy_buf display_size
            (str_take (Z.to_nat copy_len)
               (str_drop (Z.to_nat (text_scroll_offset sc1)) full_name)) in
        Ok (text, sc1).

End Scrolling.

(** * Specification-side definitions *)

(** ** Viewport and stepping *)

(** The viewport invariant of the navigation context. *)
Definition viewport_ok (visible_rows : Z) (s : State) : Prop :=
  scroll_offset s <= selected_index s <= scroll_offset s + visible_rows - 1.


(** One round of the doubling loop. *)
Definition twice (x : Z) : Z := int_mul x 2.

(** ** What a redraw needs *)

(** The state that [render_menu] leaves when it returns. *)
Definition rendered (visible_rows : Z) (settings_active : bool) (s : State)
  : State :=
  if game_queued s || settings_active
     || strcmp_eq (current_path s) "HOTKEYS"
     || strcmp_eq (current_path s) "CREDITS"
  then s
  else render_menu_viewport visible_rows s.



(** ** The store and what populators change *)

(** The store replaced, everything else kept. *)
Definition with_store (a : list MenuEntry) (n : Z) (s : State) : State :=
  set_entry_count n (set_entries a s).

(** The array holds the listing [l] followed by the spare cells. *)
Definition holds (s : State) (l spare : list MenuEntry) : Prop :=
  entries s = l ++ spare /\ entry_count s = Z.of_nat (length l).

(** Every [realloc] succeeds. *)
Definition alloc_ok (w : World) : Prop := forall n, realloc_ok w n = true.

(** The cache that [is_in_empty_cache] consults once it is loaded. *)
Definition effective_cache (w : World) (s : State) : list string :=
  empty_dirs (load_empty_dirs_cache w s).

(** The fields that no populator touches. *)
Definition same_session (s s' : State) : Prop :=
  selected_index s' = selected_index s
  /\ scroll_offset s' = scroll_offset s
  /\ current_path s' = current_path s
  /\ az_picker_active s' = az_picker_active s
  /\ az_selected_index s' = az_selected_index s
  /\ hide_empty_folders s' = hide_empty_folders s
  /\ game_queued s' = game_queued s
  /\ run_game_file s' = run_game_file s
  /\ run_game_name s' = run_game_name s
  /\ recent_games s' = recent_games s
  /\ favorites s' = favorites s.

(** What a populator may change: the store and the loading of the
    cache, but neither the session fields nor the cache's answers. *)
Definition populates (w : World) (s s' : State) : Prop :=
  same_session s s' /\ effective_cache w s' = effective_cache w s.

(** The doubling in [ensure_entries_capacity] stays inside an [int] up
    to a capacity of 2^30 cells; a directory of at most [DIRECTORY_LIMIT]
    entries, with its synthetic rows, asks for at most 2^29. *)
Definition CAPACITY_LIMIT : Z := 1073741824.
Definition DIRECTORY_LIMIT : Z := 536870000.

Definition directory_fits (w : World) (pth : string) : Prop :=
  forall ents, opendir w pth = Some ents ->
               Z.of_nat (length ents) <= DIRECTORY_LIMIT.

(** ** The listing of a scan *)

(** The row, if any, that one directory entry contributes to a scan. *)
Definition scan_row (w : World) (pth : string) (is_root hide : bool)
  (cache : list string) (ent : dirent) : option MenuEntry :=
  if is_hidden (d_name ent) then None
  else if is_reserved (d_name ent) then None
  else
    let entry_name := strncpy_buf 256 (d_name ent) in
    let full_path := path_join pth entry_name in
    let dir := is_directory_fast w full_path (d_type ent) in
    if is_root && negb dir then None
    else if is_root && dir && hide
            && existsb (fun d => strcasecmp_eq d entry_name) cache
    then None
    else Some (mkEntry (strncpy_buf 512 full_path)
                 (strncpy_buf 256 entry_name) dir).

Definition scan_rows (w : World) (pth : string) (is_root hide : bool)
  (cache : list string) (ents : list dirent) : list MenuEntry :=
  omap (scan_row w pth is_root hide cache) ents.

Definition synthetic_row (nm tag : string) : MenuEntry :=
  mkEntry (strncpy_buf 512 tag) (strncpy_buf 256 nm) true.

Definition recent_row : MenuEntry := synthetic_row "Recent games" "RECENT_GAMES".
Definition favorites_row : MenuEntry := synthetic_row "Favorites" "FAVORITES".
Definition random_row : MenuEntry := synthetic_row "Random game" "RANDOM_GAME".
Definition tools_row : MenuEntry := synthetic_row "Tools" "TOOLS".
Definition parent_row (pth : string) : MenuEntry := synthetic_row ".." pth.

(** The listing that a scan of [pth] produces, written as a composition:
    real rows sorted, synthetic rows around them. *)
Definition scan_listing (w : World) (pth : string) (hide : bool)
  (cache : list string) : list MenuEntry :=
  let is_root := strcmp_eq pth ROMS_PATH in
  match opendir w pth with
  | None => if is_root then [] else [parent_row pth]
  | Some ents =>
      let rows := scan_rows w pth is_root hide cache ents in
      if is_root
      then [recent_row; favorites_row; random_row]
             ++ sort_entries rows ++ [tools_row]
      else sort_entries (parent_row pth :: rows)
  end.

(** [a] is not after [b] in the order of [compare_entries]. *)
Definition name_le (a b : MenuEntry) : Prop := compare_entries a b <> Gt.

(** ** Picker buckets, search results and keys *)

(** A file row whose path is its name. *)
Definition row (nm : string) : MenuEntry := mkEntry nm nm false.

(** The character [c] occurs in [s]. *)
Definition contains (c : ascii) (s : string) : Prop :=
  In c (list_ascii_of_string s).

(** The bucket a name falls in, by its first character with lower-case
    letters counted as their capitals: 0..25 for A..Z, 26 for a digit,
    27 for anything else. *)
Definition bucket_of (nm : string) : Z :=
  let c := chr (first_char nm) in
  if (65 <=? c) && (c <=? 90) then c - 65
  else if (97 <=? c) && (c <=? 122) then c - 97
  else if (48 <=? c) && (c <=? 57) then 26
  else 27.

Definition in_bucket (idx : Z) (e : MenuEntry) : bool :=
  bucket_of (name e) =? idx.

(** [i] is the index of the first row of [l] that satisfies [p]. *)
Definition first_match (p : MenuEntry -> bool) (l : list MenuEntry) (i : Z)
  : Prop :=
  0 <= i
  /\ (exists e, l !! Z.to_nat i = Some e /\ p e = true)
  /\ forall j e, (j < Z.to_nat i)%nat -> l !! j = Some e -> p e = false.

(** The picker's test and [in_bucket], compared on every bucket and
    every first character. *)
Definition az_table_agrees : bool :=
  forallb
    (fun k =>
       forallb
         (fun n =>
            Bool.eqb
              (az_hit (Z.of_nat k) (first_char (nth k search_chars EmptyString))
                 (row (String (ascii_of_nat n) EmptyString)))
              (in_bucket (Z.of_nat k)
                 (row (String (ascii_of_nat n) EmptyString))))
         (seq 0 256))
    (seq 0 28).

(** * Example states and worlds *)

Definition selected_of (o : outcome State) : option Z :=
  match o with
  | Ok s => Some (selected_index s)
  | Undefined _ => None
  end.

(** What a user sees of an outcome: the names listed, the selection and
    the view. *)
Definition screen_of (o : outcome State) : option (list string * Z * string) :=
  match o with
  | Ok s => Some (map name (listing s), selected_index s, current_path s)
  | Undefined _ => None
  end.

Definition after (o : outcome (control * State)) : outcome State :=
  let* cs := o in Ok (snd cs).

(** An empty store with nothing selected, no cache and no launch. *)
Definition blank_state : State :=
  mkState [] 0 0 0 ROMS_PATH 0 0 false 0 [] false true None false
    EmptyString EmptyString [] [].

(** A store of [n] rows with the given selection and scroll offset. *)
Definition store_of (n : nat) (sel scroll : Z) : State :=
  set_scroll_offset scroll
    (set_selected_index sel
       (set_entry_count (Z.of_nat n)
          (set_entries (replicate n (row "rom")) blank_state))).

(** The listing Banana, apple, Cherry with the picker open on bucket A. *)
Definition fruit_state : State :=
  set_az_picker_active true
    (set_entry_count 3
       (set_entries [row "Banana"; row "apple"; row "Cherry"] blank_state)).

(** The recents view with a row whose key has no separator. *)
Definition broken_recents_state : State :=
  set_current_path "RECENT_GAMES"
    (set_entry_count 2
       (set_entries
          [mkEntry "GambatteSuperMario" "Super Mario" false;
           mkEntry ROMS_PATH ".." true]
          blank_state)).

Definition d_dir (nm : string) : dirent := mkDirent nm DT_DIR.
Definition d_file (nm : string) : dirent := mkDirent nm DT_OTHER.

Definition demo_opendir (p : string) : option (list dirent) :=
  if String.eqb p "/mnt/sda1/ROMS" then
    Some [d_dir "."; d_dir ".."; d_dir "snes"; d_dir "gb"; d_dir "saves";
          d_dir "empty"; d_file "notes.txt"]
  else if String.eqb p "/mnt/sda1/ROMS/gb" then
    Some [d_dir "."; d_dir ".."; d_file "Zelda.gb"; d_dir "hacks";
          d_file "Tetris.gb"]
  else if String.eqb p "/mnt/sda1/ROMS/gb/hacks" then
    Some [d_dir "."; d_dir ".."; d_file "Kaizo.gb"]
  else if String.eqb p "/mnt/sda1/ROMS/snes" then
    Some [d_dir "."; d_dir ".."; d_file "Mario.sfc"]
  else if String.eqb p "/mnt/sda1/ROMS/empty" then
    Some [d_dir "."; d_dir ".."]
  else None.

Definition demo_recent_add (core file dir : string) (l : list RecentGame)
  : list RecentGame := mkGame core file dir file :: l.

Definition same_game (core file : string) (g : RecentGame) : bool :=
  strcmp_eq (core_name g) core && strcmp_eq (game_name g) file.

Definition demo_favorites_toggle (core file dir : string)
  (l : list RecentGame) : list RecentGame :=
  if existsb (same_game core file) l
  then List.filter (fun g => negb (same_game core file g)) l
  else l ++ [mkGame core file dir file].

Definition demo_favorites_remove (i : Z) (l : list RecentGame)
  : list RecentGame :=
  if 0 <=? i then delete (Z.to_nat i) l else l.

(** A card with a few systems on it; every allocation succeeds. *)
Definition demo_world : World :=
  mkWorld demo_opendir (fun _ => None) (fun _ => true) true
    demo_recent_add demo_favorites_toggle demo_favorites_remove (fun _ => 0)
    (fun _ => None) (fun _ => true).

(** No directory can be opened; every allocation succeeds. *)
Definition offline_world : World :=
  mkWorld (fun _ => None) (fun _ => None) (fun _ => true) true
    demo_recent_add demo_favorites_toggle demo_favorites_remove (fun _ => 0)
    (fun _ => None) (fun _ => true).

(** The card of [demo_world], and no allocation succeeds. *)
Definition no_memory_world : World :=
  mkWorld demo_opendir (fun _ => None) (fun _ => false) true
    demo_recent_add demo_favorites_toggle demo_favorites_remove (fun _ => 0)
    (fun _ => None) (fun _ => true).

(** [n] files [rom0.gb], [rom1.gb], ... *)
Definition numbered_files (n : nat) : list dirent :=
  map (fun i =>
         d_file (String.append "rom"
                   (String.append (NilEmpty.string_of_uint (Nat.to_uint i))
                      ".gb")))
      (seq 0 n).

Definition crowded_opendir (p : string) : option (list dirent) :=
  if String.eqb p "/mnt/sda1/ROMS" then Some [d_dir "big"]
  else if String.eqb p "/mnt/sda1/ROMS/big" then Some (numbered_files 70)
  else None.

(** One system folder with seventy games; the first block of 64 cells
    can be allocated, a larger one cannot. *)
Definition low_memory_world : World :=
  mkWorld crowded_opendir (fun _ => None) (fun n => n <=? 64) true
    demo_recent_add demo_favorites_toggle demo_favorites_remove (fun _ => 0)
    (fun _ => None) (fun _ => true).

(** The root listing of [demo_world] with the row "gb" selected. *)
Definition demo_root_state : State :=
  match scan_directory demo_world ROMS_PATH blank_state with
  | Ok s => set_selected_index 3 s
  | Undefined _ => blank_state
  end.

(** [demo_root_state] after the A button: inside "gb". *)
Definition demo_gb_state : State :=
  match handle_a 8 demo_world false demo_root_state with
  | Ok (_, s) => s
  | Undefined _ => blank_state
  end.

(** ** The cache file and the folders it names *)

(** A name that a line of the cache file can carry: not empty and
    without a line break. *)
Definition line_safe (nm : string) : Prop :=
  nm <> EmptyString /\ ~ contains newline nm.

(** The cache fits the array [empty_dirs\[MAX_EMPTY_DIRS\]\[64\]]. *)
Definition cache_bounded (s : State) : Prop :=
  (length (empty_dirs s) <= MAX_EMPTY_DIRS)%nat
  /\ Forall (fun d => (String.length d <= 63)%nat) (empty_dirs s).

(** What [rebuild_empty_dirs_cache] finds out about a folder of the
    root: it can be opened and every entry in it is hidden. *)
Definition looks_empty (w : World) (nm : string) : bool :=
  match opendir w (path_join ROMS_PATH (strncpy_buf 64 nm)) with
  | Some subs => negb (existsb (fun sub => negb (is_hidden (d_name sub))) subs)
  | None => false
  end.

(** A state that has not consulted the cache yet and finds no cache
    file, with the hiding of empty folders switched on. *)
Definition first_run (s : State) : Prop :=
  hide_empty_folders s = true
  /\ empty_dirs_loaded s = false
  /\ cache_file s = None.

(** ** The listings of the special views *)

(** The row that [show_recent_games] and [show_favorites] build for a
    stored game. *)
Definition game_row (g : RecentGame) : MenuEntry :=
  mkEntry
    (strncpy_buf 512 (String.append (core_name g) (String ";" (game_name g))))
    (strncpy_buf 256 (display_name g)) false.

Definition game_listing (games : list RecentGame) : list MenuEntry :=
  map game_row games ++ [parent_row ROMS_PATH].

Definition tools_listing : list MenuEntry :=
  [synthetic_row "Hotkeys" "HOTKEYS"; synthetic_row "Credits" "CREDITS";
   synthetic_row "Utils" "UTILS"; parent_row ROMS_PATH].

(** The row, if any, that an entry of the js2000 folder contributes to
    the utilities view. *)
Definition utils_row (w : World) (dir : string) (ent : dirent)
  : option MenuEntry :=
  if is_hidden (d_name ent) then None
  else
    match stat_is_dir w (path_join dir (d_name ent)) with
    | Some b =>
        Some (mkEntry (strncpy_buf 512 (path_join dir (d_name ent)))
                (strncpy_buf 256 (d_name ent)) b)
    | None => None
    end.

Definition rebuild_row : MenuEntry :=
  mkEntry (strncpy_buf 512 "REBUILD_CACHE")
    (strncpy_buf 256 "Rebuild folder cache") false.

Definition utils_listing (w : World) : list MenuEntry :=
  let dir := path_join ROMS_PATH "js2000" in
  match opendir w dir with
  | Some ents => omap (utils_row w dir) ents
  | None => []
  end ++ [rebuild_row; parent_row "TOOLS"].

(** The state a view populator starts from: navigation reset, view tag
    stored. *)
Definition view_of (tag : string) (s : State) : State :=
  set_current_path (strncpy_buf 512 tag) (reset_navigation_state s).

(** [s1] shows the view [tag] with the listing [l]: navigation reset,
    tag stored, and nothing else of [s] changed but the store. *)
Definition shows_view (tag : string) (l : list MenuEntry) (s s1 : State)
  : Prop :=
  listing s1 = l
  /\ s1 = with_store (entries s1) (Z.of_nat (length l)) (view_of tag s).

(** What a launch leaves behind for [retro_run] and the recents store. *)
Definition launched (s : State) : bool * string * string * list RecentGame :=
  (game_queued s, run_game_file s, run_game_name s, recent_games s).

Definition tetris : RecentGame := mkGame "gb" "Tetris.gb" "gb" "Tetris.gb".
Definition mario : RecentGame := mkGame "snes" "Mario.sfc" "snes" "Mario.sfc".

(** [blank_state] with two games played and one of them a favorite. *)
Definition played_state : State :=
  mkState [] 0 0 0 ROMS_PATH 0 0 false 0 [] false true None false
    EmptyString EmptyString [tetris; mario] [mario].

(** A stored game whose row can be confirmed: the key splits back into
    core and name, the row is not taken for a ".." row, and the
    directory fits the [char directory\[256\]] of the A button. *)
Definition key_ok (g : RecentGame) : Prop :=
  ~ contains ";" (core_name g)
  /\ (String.length (core_name g) <= 255)%nat
  /\ (String.length (game_name g) <= 255)%nat
  /\ strncpy_buf 256 (display_name g) <> ".."%string
  /\ (String.length (full_path g) <= 255)%nat.

(** Games of [games] stored under the key of [g] have its directory. *)
Definition key_unambiguous (g : RecentGame) (games : list RecentGame) : Prop :=
  forall g', In g' games ->
    core_name g' = core_name g -> game_name g' = game_name g ->
    full_path g' = full_path g.

(** The Favorites view of [played_state]. *)
Definition favorites_view_state : State :=
  match show_favorites demo_world played_state with
  | Ok s => s
  | Undefined _ => blank_state
  end.

(** ** Frames *)

(** No button goes from down to up in this frame. *)
Definition nothing_released (p : list Z) (pad : Pad) : Prop :=
  released (prev_at 0 p) (pad_up pad) = false
  /\ released (prev_at 1 p) (pad_down pad) = false
  /\ released (prev_at 2 p) (pad_a pad) = false
  /\ released (prev_at 3 p) (pad_b pad) = false
  /\ released (prev_at 4 p) (pad_l pad) = false
  /\ released (prev_at 5 p) (pad_r pad) = false
  /\ released (prev_at 6 p) (pad_select pad) = false
  /\ released (prev_at 7 p) (pad_left pad) = false
  /\ released (prev_at 8 p) (pad_right pad) = false
  /\ released (prev_at 9 p) (pad_x pad) = false
  /\ released (prev_at 10 p) (pad_y pad) = false.

(** [s'] is [s] but for the scroll offset. *)
Definition scrolled (s s' : State) : Prop :=
  s' = set_scroll_offset (scroll_offset s') s.

(** [s'] has the store, the view, the stores of games and the launch
    state of [s]. *)
Definition same_content (s s' : State) : Prop :=
  entries s' = entries s
  /\ entry_count s' = entry_count s
  /\ current_path s' = current_path s
  /\ game_queued s' = game_queued s
  /\ recent_games s' = recent_games s
  /\ favorites s' = favorites s.

(** A settings menu that is closed and takes no input. *)
Definition closed_menu_input
  (up down left right a b y : bool) (st : unit) : bool * unit := (false, st).

Definition closed_menu_core (core : string) (st : unit) : bool * unit :=
  (false, st).

(** [handle_input] with that settings menu and eight visible rows. *)
Definition demo_frame_step (w : World) (pad : Pad) (f : Frame unit)
  : outcome (Frame unit) :=
  handle_input 8 (fun _ => false) closed_menu_input (fun st => st)
    (fun st => st) closed_menu_core w pad f.

(** The frame that [demo_frame_step] returns. *)
Definition frame_after (w : World) (pad : Pad) (f : Frame unit)
  : Frame unit :=
  match demo_frame_step w pad f with
  | Ok f' => f'
  | Undefined _ => f
  end.

Definition pad_at_rest : Pad := mkPad 0 0 0 0 0 0 0 0 0 0 0.

(** The A button held, everything else up. *)
Definition pad_a_down : Pad := mkPad 0 0 1 0 0 0 0 0 0 0 0.

Definition prev_of (pad : Pad) : list Z :=
  store_all pad (replicate 16 0).

(** In [demo_gb_state], with the pad at rest in the last frame. *)
Definition demo_gb_frame : Frame unit :=
  mkFrame demo_gb_state (prev_of pad_at_rest) false tt sound_at_start.

(** What SELECT finds for a row of [console_mappings] in the folder
    [/mnt/sda1/ROMS/console]: the folder is not the root, its last
    component is the console name, which fits [console_folder\[256\]],
    and the table gives the row's core for it. *)
Definition mapping_reached (row : string * string) : bool :=
  let pth := String.append ROMS_PREFIX (fst row) in
  negb (strcmp_eq pth ROMS_PATH)
  && match strrchr_split "/" pth with
     | Some (parent, leaf) =>
         negb (is_empty_string parent)
         && (String.length leaf <? 256)%nat
         && String.eqb leaf (fst row)
         && match get_core_name_for_console leaf with
            | Some core => String.eqb core (snd row)
            | None => false
            end
     | None => false
     end.

(** The settings menu takes no input. *)
Definition menu_closed {Settings : Type}
  (on_input : bool -> bool -> bool -> bool -> bool -> bool -> bool ->
              Settings -> bool * Settings) : Prop :=
  forall up down left right a b y st,
    fst (on_input up down left right a b y st) = false.



(** [fruit_state] one frame after L, R and X went down. *)
Definition pad_lrx_down : Pad := mkPad 0 0 0 0 1 0 1 1 0 0 0.

Definition fruit_frame : Frame unit :=
  mkFrame fruit_state (prev_of pad_lrx_down) false tt sound_at_start.

(** In the folder of the Game Boy, one frame after SELECT went down. *)
Definition pad_select_down : Pad := mkPad 0 0 0 0 0 0 0 0 1 0 0.

Definition demo_select_frame : Frame unit :=
  mkFrame demo_gb_state (prev_of pad_select_down) false tt sound_at_start.

(** ** Random game *)

(** Every path that a scan builds fits the [char directory\[256\]] of
    the launch code. *)
Definition short_paths (w : World) : Prop :=
  forall p ents ent,
    opendir w p = Some ents -> In ent ents ->
    (String.length (path_join p (strncpy_buf 256 (d_name ent))) <= 255)%nat.

(** ** WAV files as they are written *)

Definition le16 (v : Z) : list Z := [v mod 256; (v / 256) mod 256].

(** The four bytes of a 32-bit value, two's complement. *)
Definition le32 (v : Z) : list Z :=
  [v mod 256; (v / 256) mod 256; (v / 65536) mod 256;
   (v / 16777216) mod 256].

Definition tag_bytes (tag : string) : list Z :=
  map chr (list_ascii_of_string tag).

(** The canonical 44-byte header of a PCM file followed by its
    samples. *)
Definition canonical_wav (ch rate bits byte_rate block_align : Z)
  (samples : list Z) : list Z :=
  tag_bytes "RIFF" ++ le32 (36 + Z.of_nat (length samples))
    ++ tag_bytes "WAVE"
    ++ tag_bytes "fmt " ++ le32 16 ++ le16 1 ++ le16 ch ++ le32 rate
    ++ le32 byte_rate ++ le16 block_align ++ le16 bits
    ++ tag_bytes "data" ++ le32 (Z.of_nat (length samples)) ++ samples.

(** A file that starts with a chunk [tag] whose size field is
    [chunk_size]. *)
Definition wav_with_chunk (tag : string) (chunk_size : Z) (rest : list Z)
  : list Z :=
  tag_bytes "RIFF" ++ le32 0 ++ tag_bytes "WAVE"
    ++ tag_bytes tag ++ le32 chunk_size ++ rest.

(** The [static Wav] before anything is loaded into it. *)
Definition zero_wav : Wav := mkWav 0 0 0 0 None.

Definition all_active (voices : list SfxVoice) : Prop :=
  Forall (fun v => voice_active v = true) voices.

(** Two sounds playing and six free voices. *)
Definition demo_audio : Audio :=
  mkAudio None 0 128 false
    (replicate 2 (mkVoice (Some zero_wav) 3 256 true)
     ++ replicate (MAX_SFX - 2) (mkVoice None 0 0 false)).

(** ** The scrolling window *)

(** What [render_menu] sets when the selection moved to another row. *)
Definition scroll_reset : Scroll := mkScroll 0 0 1.

(** The offset shows a full window of [width] characters of [name], the
    direction is one step, and the offset is still zero while the scroll
    waits for [delay] frames. *)
Definition scroll_in_range (width delay : Z) (name : string) (sc : Scroll)
  : Prop :=
  0 <= text_scroll_offset sc <= Z.of_nat (String.length name) - width
  /\ (text_scroll_direction sc = 1 \/ text_scroll_direction sc = -1)
  /\ (text_scroll_frame_counter sc < delay -> text_scroll_offset sc = 0).

(** The [width] characters of [name] from [offset] on. *)
Definition name_window (width offset : Z) (name : string) : string :=
  str_take (Z.to_nat width) (str_drop (Z.to_nat offset) name).

(** * Properties *)

(** ** Machine integers: facts *)

Lemma wrap_small (z : Z) : INT_MIN <= z <= INT_MAX -> wrap z = z.
Proof.
  unfold wrap, INT_MIN, INT_MAX. intros Hz.
  rewrite Z.mod_small by lia. lia.
Qed.

Ltac unwrap :=
  unfold int_add, int_sub, int_mul in *;
  repeat match goal with
    | |- context [wrap ?z] =>
        rewrite (wrap_small z) by (unfold INT_MIN, INT_MAX in *; lia)
    | H : context [wrap ?z] |- _ =>
        rewrite (wrap_small z) in H by (unfold INT_MIN, INT_MAX in *; lia)
    end.

(** ** Loops with a round budget: the budget is never what stops them *)

Lemma wrap_range (a : Z) : INT_MIN <= wrap a <= INT_MAX.
Proof.
  unfold wrap, INT_MIN, INT_MAX.
  pose proof (Z.mod_pos_bound (a + 2147483648) 4294967296). lia.
Qed.

Lemma wrap_absorbs (a b : Z) : wrap (wrap a * b) = wrap (a * b).
Proof.
  unfold wrap. f_equal.
  replace (((a + 2147483648) mod 4294967296 - 2147483648) * b + 2147483648)
    with ((a * b + 2147483648)
          + (- ((a + 2147483648) / 4294967296) * b) * 4294967296).
  - apply Z.mod_add. lia.
  - pose proof (Z.div_mod (a + 2147483648) 4294967296). lia.
Qed.

Lemma doublings (n : nat) (c : Z) :
  wrap (Nat.iter n twice c) = wrap (c * 2 ^ Z.of_nat n).
Proof.
  induction n as [|n IH].
  - simpl. rewrite Z.mul_1_r. reflexivity.
  - rewrite Nat2Z.inj_succ, Z.pow_succ_r by lia.
    rewrite Nat.iter_succ. unfold twice at 1, int_mul.
    rewrite (wrap_small (wrap _)) by apply wrap_range.
    rewrite <- wrap_absorbs, IH, wrap_absorbs. f_equal. lia.
Qed.

Lemma doublings_32 (c : Z) : Nat.iter 32 twice c = 0.
Proof.
  rewrite <- (wrap_small (Nat.iter 32 twice c)).
  - rewrite doublings. unfold wrap.
    change (2 ^ Z.of_nat 32) with 4294967296.
    replace (c * 4294967296 + 2147483648) with (2147483648 + c * 4294967296)
      by lia.
    rewrite Z.mod_add by lia. reflexivity.
  - rewrite Nat.iter_succ. unfold twice at 1, int_mul. apply wrap_range.
Qed.

Lemma grow_capacity_zero (fuel : nat) (req : Z) :
  0 < req -> grow_capacity fuel 0 req = Undefined Diverges.
Proof.
  intros Hreq. induction fuel as [|fuel IH]; simpl.
  - replace (0 <? req) with true by lia. reflexivity.
  - replace (0 <? req) with true by lia. exact IH.
Qed.

Lemma grow_capacity_stays_below (n : nat) (c req : Z) :
  grow_capacity n c req = Undefined Diverges ->
  forall i, (i <= n)%nat -> Nat.iter i twice c < req.
Proof.
  revert c. induction n as [|n IH]; intros c Hrun i Hi.
  - replace i with 0%nat by lia. simpl in *.
    destruct (Z.ltb_spec c req); [assumption | discriminate].
  - simpl in Hrun. destruct (Z.ltb_spec c req) as [Hlt|]; [|discriminate].
    destruct i as [|i]; [exact Hlt|].
    rewrite Nat.iter_succ_r. apply IH; [exact Hrun | lia].
Qed.

Lemma grow_capacity_never_exits (k fuel : nat) (c req : Z) :
  (forall i, (i <= k)%nat -> Nat.iter i twice c < req) ->
  Nat.iter k twice c = 0 ->
  grow_capacity fuel c req = Undefined Diverges.
Proof.
  revert fuel c. induction k as [|k IH]; intros fuel c Hbelow Hzero.
  - simpl in Hzero. subst c. apply grow_capacity_zero.
    apply (Hbelow 0%nat). lia.
  - assert (Hc : c < req) by (apply (Hbelow 0%nat); lia).
    destruct fuel as [|fuel]; simpl; replace (c <? req) with true by lia;
      [reflexivity|].
    change (int_mul c 2) with (twice c). apply IH.
    + intros i Hi. rewrite <- Nat.iter_succ_r. apply Hbelow. lia.
    + rewrite <- Nat.iter_succ_r. exact Hzero.
Qed.

(** Running out of the 64 rounds of [grow_capacity] means that the C
    loop does not exit with any number of rounds. *)
Lemma grow_capacity_diverges (c req : Z) :
  grow_capacity 64 c req = Undefined Diverges ->
  forall fuel, grow_capacity fuel c req = Undefined Diverges.
Proof.
  intros Hrun fuel.
  apply (grow_capacity_never_exits 32).
  - intros i Hi. apply (grow_capacity_stays_below 64 c req Hrun). lia.
  - apply doublings_32.
Qed.

Lemma fgets_consumes (n : nat) (rest : string) :
  (String.length (snd (fgets n rest)) <= String.length rest)%nat.
Proof.
  revert rest. induction n as [|n IH]; intros rest; [simpl; lia|].
  destruct rest as [|c r]; simpl; [lia|].
  destruct (Ascii.eqb c newline); simpl; [lia|].
  specialize (IH r). destruct (fgets n r) as [l r']. simpl in *. lia.
Qed.

Lemma fgets_progress (n : nat) (c : ascii) (r : string) :
  (String.length (snd (fgets (S n) (String c r))) <= String.length r)%nat.
Proof.
  simpl. destruct (Ascii.eqb c newline); simpl; [lia|].
  pose proof (fgets_consumes n r) as H.
  destruct (fgets n r) as [l r']. simpl in *. exact H.
Qed.

(** The rounds given to [read_cache_lines] suffice: more rounds read the
    same cache. *)
Lemma read_cache_lines_fuel (f1 f2 : nat) (rest : string) (acc : list string) :
  (String.length rest < f1)%nat -> (String.length rest < f2)%nat ->
  read_cache_lines f1 rest acc = read_cache_lines f2 rest acc.
Proof.
  revert f2 rest acc. induction f1 as [|f1 IH]; intros f2 rest acc H1 H2; [lia|].
  destruct f2 as [|f2]; [lia|].
  cbn [read_cache_lines].
  destruct rest as [|c r]; [reflexivity|]. cbn [is_empty_string].
  pose proof (fgets_progress 62 c r) as Hp.
  destruct (fgets 63 (String c r)) as [line rest'].
  cbn [snd] in Hp. simpl String.length in H1, H2.
  destruct (length acc <? MAX_EMPTY_DIRS)%nat; [|reflexivity].
  apply IH; lia.
Qed.

(** ** Stepping *)

Section StepFacts.

Variable V : Z.

Lemma render_menu_viewport_ok (s : State) :
  1 <= V ->
  INT_MIN <= selected_index s <= INT_MAX ->
  INT_MIN <= scroll_offset s -> scroll_offset s + V <= INT_MAX ->
  viewport_ok V (render_menu_viewport V s).
Proof.
  intros HV Hsel Hlo Hhi.
  unfold render_menu_viewport.
  destruct (Z.ltb_spec (selected_index s) (scroll_offset s)).
  - unfold viewport_ok. simpl. lia.
  - unfold int_add at 1.
    rewrite (wrap_small (scroll_offset s + V))
      by (unfold INT_MIN, INT_MAX in *; lia).
    rewrite Z.geb_leb.
    destruct (Z.leb_spec (scroll_offset s + V) (selected_index s)).
    + unfold viewport_ok. simpl. unwrap. lia.
    + unfold viewport_ok. lia.
Qed.


(** A render that returns leaves the state [rendered]. *)
Lemma render_menu_returns (sa : bool) (s s_r : State) :
  render_menu V sa s = Ok s_r -> s_r = rendered V sa s.
Proof.
  unfold render_menu, rendered.
  destruct (game_queued s); [intros [= <-]; reflexivity|].
  destruct sa; [intros [= <-]; reflexivity|].
  destruct (strcmp_eq (current_path s) "HOTKEYS");
    [intros [= <-]; reflexivity|].
  destruct (strcmp_eq (current_path s) "CREDITS");
    [intros [= <-]; reflexivity|].
  cbn [orb].
  destruct (draw_rows _ _ _); cbn [bind]; [intros [= <-]; reflexivity|].
  discriminate.
Qed.




End StepFacts.

Ltac break_if :=
  match goal with
  | |- context [if ?c then _ else _] =>
      lazymatch c with
      | context [if _ then _ else _] => fail
      | _ => destruct c eqn:?
      end
  end.

Section StepProofs.

Variable V : Z.

Lemma render_menu_viewport_keeps (s : State) :
  selected_index (render_menu_viewport V s) = selected_index s
  /\ current_path (render_menu_viewport V s) = current_path s
  /\ listing (render_menu_viewport V s) = listing s
  /\ entries (render_menu_viewport V s) = entries s.
Proof.
  unfold render_menu_viewport. repeat break_if; repeat split.
Qed.



End StepProofs.

(** ** Claims about stepping *)

(** C1 (the code steps on an empty store). The hotkeys screen has
    [entry_count = 0] and [selected_index = 0]; there the page-down
    block evaluates [(selected_index + 7) % entry_count] with a zero
    divisor, in the block alone and in a whole frame of the handler; the
    up block sets [selected_index] to -1 and the page-up block to -7. *)
Theorem C1_steps_on_empty_store (V : Z) (w : World) (sa : bool) (s : State) :
  entry_count (show_hotkeys_screen s) = 0
  /\ selected_index (show_hotkeys_screen s) = 0
  /\ handle_r V (show_hotkeys_screen s) = Undefined DivisionByZero
  /\ handle_navigation V w sa
       (mkEdges false false false false true false false false) true
       (show_hotkeys_screen s) = Undefined DivisionByZero
  /\ selected_index (handle_up (show_hotkeys_screen s)) = -1
  /\ selected_index (handle_l (show_hotkeys_screen s)) = -7.
Proof.
  repeat split; reflexivity.
Qed.

(** C2, as stated, fails: with ten rows and row 7 selected, one
    page-down step selects row 4, not row 3. *)
Lemma C2_counterexample :
  7 < entry_count (store_of 10 7 0)
  /\ selected_index (store_of 10 7 0) = entry_count (store_of 10 7 0) - 3
  /\ selected_of (handle_r 8 (store_of 10 7 0)) = Some 4
  /\ selected_of (handle_r 8 (store_of 10 7 0)) <> Some 3.
Proof.
  repeat split; try reflexivity; try (simpl; lia).
  vm_compute. discriminate.
Qed.

(** C2, amended. For every [entry_count > 7] that leaves room for the
    addition, a page-down step from [entry_count - 3] returns and
    selects row 4, which is [(selected_index + 7) mod entry_count]. *)
Theorem C2_page_down_wraps_to_4 (V : Z) (s : State) :
  7 < entry_count s ->
  entry_count s + 4 <= INT_MAX ->
  selected_index s = entry_count s - 3 ->
  exists s', handle_r V s = Ok s' /\ selected_index s' = 4.
Proof.
  intros Hn Hmax Hsel.
  assert (Hrem : Z.rem (selected_index s + 7) (entry_count s) = 4).
  { rewrite Hsel.
    replace (entry_count s - 3 + 7) with (4 + 1 * entry_count s) by lia.
    rewrite Z.rem_add by lia. apply Z.rem_small. lia. }
  unfold handle_r, int_rem, scroll_down_to_selection.
  repeat (break_if; simpl in *; unwrap); try (exfalso; lia);
    (eexists; split; [reflexivity|]; simpl; lia).
Qed.

Lemma C2_page_down_wraps_to_4_witness :
  exists s', handle_r 8 (store_of 10 7 0) = Ok s' /\ selected_index s' = 4.
Proof.
  apply (C2_page_down_wraps_to_4 8 (store_of 10 7 0));
    [ simpl; lia | unfold INT_MAX; simpl; lia | reflexivity ].
Defined.





(** The render after the wrap-around step of the counterexample draws
    rows 12 to 19; the render after a page up in three rows does not
    return. *)
Lemma render_after_a_step :
  (exists s_r,
     render_menu 8 false (handle_up (store_of 20 0 0)) = Ok s_r
     /\ selected_index s_r = 19 /\ scroll_offset s_r = 12)
  /\ render_menu 8 false (handle_l (store_of 3 0 0))
     = Undefined OutOfBounds.
Proof.
  split; [eexists; split; [vm_compute; reflexivity | split; reflexivity]|].
  vm_compute. reflexivity.
Qed.

(** ** The entry array: facts *)

Lemma listing_holds (s : State) (l spare : list MenuEntry) :
  holds s l spare -> listing s = l.
Proof.
  intros [He Hn]. unfold listing. rewrite He, Hn, Nat2Z.id.
  apply take_app_length.
Qed.

Lemma holds_with_store (s : State) (l spare : list MenuEntry) :
  holds (with_store (l ++ spare) (Z.of_nat (length l)) s) l spare.
Proof. split; reflexivity. Qed.

Lemma with_store_same (s : State) :
  with_store (entries s) (entry_count s) s = s.
Proof. destruct s; reflexivity. Qed.

Lemma same_session_refl (s : State) : same_session s s.
Proof. repeat split. Qed.

Lemma same_session_trans (s1 s2 s3 : State) :
  same_session s1 s2 -> same_session s2 s3 -> same_session s1 s3.
Proof.
  unfold same_session. intros H1 H2.
  decompose [and] H1. decompose [and] H2. repeat split; congruence.
Qed.

Lemma same_session_with_store (a : list MenuEntry) (n : Z) (s : State) :
  same_session s (with_store a n s).
Proof. repeat split. Qed.

Lemma write_cell_app (l spare : list MenuEntry) (c e : MenuEntry) :
  write_cell (Z.of_nat (length l)) e (l ++ c :: spare)
  = Ok (l ++ e :: spare).
Proof.
  unfold write_cell, in_block. rewrite length_app. simpl.
  replace ((0 <=? Z.of_nat (length l))
           && (Z.of_nat (length l) <? Z.of_nat (length l + S (length spare))))
    with true by lia.
  rewrite Nat2Z.id.
  rewrite insert_app_r_alt by lia.
  replace (length l - length l)%nat with 0%nat by lia. reflexivity.
Qed.

Lemma read_cell_app (l spare : list MenuEntry) (c : MenuEntry) :
  read_cell (Z.of_nat (length l)) (l ++ c :: spare) = Ok c.
Proof.
  unfold read_cell, in_block. rewrite length_app. simpl.
  replace ((0 <=? Z.of_nat (length l))
           && (Z.of_nat (length l) <? Z.of_nat (length l + S (length spare))))
    with true by lia.
  rewrite Nat2Z.id.
  rewrite lookup_app_r by lia.
  replace (length l - length l)%nat with 0%nat by lia. reflexivity.
Qed.

Lemma append_entry_holds (nm pth : string) (dir : bool) (s : State)
  (l spare : list MenuEntry) (c : MenuEntry) :
  holds s l (c :: spare) ->
  Z.of_nat (length l) + 1 <= INT_MAX ->
  append_entry nm pth dir s
  = Ok (with_store
          ((l ++ [mkEntry (strncpy_buf 512 pth) (strncpy_buf 256 nm) dir])
             ++ spare)
          (Z.of_nat (length (l ++ [mkEntry (strncpy_buf 512 pth)
                                     (strncpy_buf 256 nm) dir])))
          s).
Proof.
  intros [He Hn] Hmax. unfold append_entry.
  rewrite He, Hn, write_cell_app. simpl.
  unwrap. rewrite length_app. simpl.
  rewrite <- app_assoc. simpl.
  replace (Z.of_nat (length l + 1)) with (Z.of_nat (length l) + 1) by lia.
  reflexivity.
Qed.

Lemma grow_capacity_ok (fuel : nat) (c req : Z) :
  1 <= c <= CAPACITY_LIMIT ->
  req <= 536870912 ->
  req <= c * 2 ^ Z.of_nat fuel ->
  exists c', grow_capacity fuel c req = Ok c'
             /\ req <= c' /\ c <= c' <= CAPACITY_LIMIT.
Proof.
  unfold CAPACITY_LIMIT. revert c.
  induction fuel as [|fuel IH]; intros c Hc Hreq Hfuel.
  - simpl in *. replace (c <? req) with false by lia.
    exists c. repeat split; lia.
  - simpl. destruct (Z.ltb_spec c req).
    + assert (Hd : int_mul c 2 = c * 2)
        by (unfold int_mul; apply wrap_small; unfold INT_MIN, INT_MAX; lia).
      rewrite Hd.
      destruct (IH (c * 2)) as (c' & Hg & H1 & H2).
      * lia.
      * exact Hreq.
      * rewrite Nat2Z.inj_succ, Z.pow_succ_r in Hfuel by lia. lia.
      * exists c'. repeat split; try assumption; lia.
    + exists c. repeat split; lia.
Qed.

Lemma ensure_entries_capacity_holds (w : World) (req : Z) (s : State)
  (l spare : list MenuEntry) :
  alloc_ok w ->
  holds s l spare ->
  entries_capacity s <= CAPACITY_LIMIT ->
  req <= 536870912 ->
  exists spare',
    ensure_entries_capacity w req s
    = Ok (with_store (l ++ spare') (entry_count s) s)
    /\ req <= Z.of_nat (length (l ++ spare')) <= CAPACITY_LIMIT.
Proof.
  intros Halloc Hh Hcap Hreq. pose proof Hh as [He Hn].
  unfold ensure_entries_capacity.
  rewrite Z.geb_leb. destruct (Z.leb_spec req (entries_capacity s)) as [Hle|Hlt].
  - exists spare. rewrite <- He, with_store_same. split; [reflexivity|].
    fold (entries_capacity s). lia.
  - set (c0 := if entries_capacity s =? 0 then INITIAL_ENTRIES_CAPACITY
               else entries_capacity s).
    assert (Hc0 : 1 <= c0 <= CAPACITY_LIMIT /\ entries_capacity s <= c0).
    { unfold c0, INITIAL_ENTRIES_CAPACITY, CAPACITY_LIMIT, entries_capacity in *.
      destruct (Z.eqb_spec (Z.of_nat (length (entries s))) 0); lia. }
    destruct (grow_capacity_ok 64 c0 req) as (c' & Hg & H1 & H2);
      [ tauto | exact Hreq | | ].
    { unfold CAPACITY_LIMIT in *.
      change (2 ^ Z.of_nat 64) with 18446744073709551616. lia. }
    rewrite Hg. simpl. rewrite Halloc.
    exists (spare ++ replicate (Z.to_nat c' - length (entries s)) stale_cell).
    assert (Hlen : (length (entries s) <= Z.to_nat c')%nat)
      by (unfold entries_capacity in *; lia).
    rewrite resize_ge by exact Hlen.
    rewrite He at 1. rewrite <- app_assoc. split; [reflexivity|].
    rewrite app_assoc, <- He, length_app, length_replicate.
    unfold entries_capacity in *. lia.
Qed.

Lemma hd_snoc (x y : MenuEntry) (l : list MenuEntry) :
  hd x (l ++ [y]) = hd y l.
Proof. destruct l; reflexivity. Qed.

(** The shift loop moves the block [mid] one cell up, over [x]. *)
Lemma shift_loop_app (mid pre post : list MenuEntry) (x : MenuEntry) :
  Z.of_nat (length pre + length mid) + 1 <= INT_MAX ->
  shift_loop (length mid) (Z.of_nat (length pre + length mid))
    (pre ++ mid ++ x :: post)
  = Ok (pre ++ hd x mid :: mid ++ post).
Proof.
  revert x post. induction mid as [|y mid IH] using rev_ind; intros x post Hmax.
  - reflexivity.
  - rewrite length_app in *. simpl length in *.
    replace (length mid + 1)%nat with (S (length mid)) by lia.
    cbn [shift_loop].
    assert (Hi : int_sub (Z.of_nat (length pre + S (length mid))) 1
                 = Z.of_nat (length (pre ++ mid))).
    { rewrite length_app. unwrap. lia. }
    rewrite Hi.
    replace (pre ++ (mid ++ [y]) ++ x :: post)
      with ((pre ++ mid) ++ y :: x :: post)
      by (rewrite <- !app_assoc; reflexivity).
    rewrite read_cell_app. cbn [bind].
    replace ((pre ++ mid) ++ y :: x :: post)
      with ((pre ++ mid ++ [y]) ++ x :: post)
      by (rewrite <- !app_assoc; reflexivity).
    replace (Z.of_nat (length pre + S (length mid)))
      with (Z.of_nat (length (pre ++ mid ++ [y])))
      by (rewrite !length_app; simpl; lia).
    rewrite write_cell_app. cbn [bind].
    replace ((pre ++ mid ++ [y]) ++ y :: post)
      with (pre ++ mid ++ y :: y :: post)
      by (rewrite <- !app_assoc; reflexivity).
    rewrite length_app.
    rewrite IH by lia.
    rewrite hd_snoc, <- !app_assoc. reflexivity.
Qed.

Lemma insert_row_holds (k : nat) (nm pth : string) (s : State)
  (l spare : list MenuEntry) (c : MenuEntry) :
  holds s l (c :: spare) ->
  (k <= length l)%nat ->
  Z.of_nat (length l) + 1 <= INT_MAX ->
  insert_row (Z.of_nat k) nm pth s
  = Ok (with_store
          ((take k l ++ synthetic_row nm pth :: drop k l) ++ spare)
          (Z.of_nat (length (take k l ++ synthetic_row nm pth :: drop k l)))
          s).
Proof.
  intros [He Hn] Hk Hmax. unfold insert_row.
  assert (Hpre : length (take k l) = k) by (rewrite length_take; lia).
  assert (Hmid : length (drop k l) = (length l - k)%nat)
    by apply length_drop.
  assert (Hl : l = take k l ++ drop k l) by (symmetry; apply take_drop).
  remember (take k l) as pre eqn:Epre.
  remember (drop k l) as mid eqn:Emid.
  rewrite He, Hn.
  replace (l ++ c :: spare) with (pre ++ mid ++ c :: spare)
    by (rewrite Hl, <- app_assoc; reflexivity).
  replace (Z.to_nat (Z.of_nat (length l) - Z.of_nat k))
    with (length mid) by lia.
  replace (Z.of_nat (length l))
    with (Z.of_nat (length pre + length mid)) by lia.
  rewrite shift_loop_app by lia. cbn [bind].
  rewrite <- Hpre at 1.
  rewrite write_cell_app. cbn [bind].
  unwrap. unfold with_store, synthetic_row.
  rewrite <- app_assoc. simpl.
  rewrite length_app. simpl.
  replace (Z.of_nat (length pre + S (length mid)))
    with (Z.of_nat (length pre + length mid) + 1) by lia.
  reflexivity.
Qed.

(** [sort_entries] is a sort: same rows, in the order of
    [compare_entries]. *)
Lemma insert_sorted_perm (e : MenuEntry) (l : list MenuEntry) :
  insert_sorted e l ≡ₚ e :: l.
Proof.
  induction l as [|x l IH]; simpl; [reflexivity|].
  destruct (compare_entries e x); try reflexivity.
  rewrite IH. apply Permutation_swap.
Qed.

Lemma sort_entries_perm (l : list MenuEntry) : sort_entries l ≡ₚ l.
Proof.
  induction l as [|x l IH]; simpl; [reflexivity|].
  rewrite insert_sorted_perm, IH. reflexivity.
Qed.

Lemma insert_sorted_hd (e x : MenuEntry) (l : list MenuEntry) :
  name_le x e -> HdRel name_le x l -> HdRel name_le x (insert_sorted e l).
Proof.
  intros Hxe Hhd. destruct l as [|y l]; simpl.
  - constructor. exact Hxe.
  - destruct (compare_entries e y); constructor;
      try exact Hxe; inversion Hhd; assumption.
Qed.

Lemma insert_sorted_sorted (e : MenuEntry) (l : list MenuEntry) :
  Sorted name_le l -> Sorted name_le (insert_sorted e l).
Proof.
  induction l as [|x l IH]; intros Hs; simpl.
  - repeat constructor.
  - inversion Hs as [|? ? Hs' Hhd]; subst.
    destruct (compare_entries e x) eqn:Hc.
    + constructor; [exact Hs|]. constructor. unfold name_le. congruence.
    + constructor; [exact Hs|]. constructor. unfold name_le. congruence.
    + constructor; [apply IH; exact Hs'|].
      apply insert_sorted_hd; [|exact Hhd].
      unfold name_le, compare_entries in *.
      rewrite String.compare_antisym, Hc. discriminate.
Qed.

Lemma sort_entries_sorted (l : list MenuEntry) : Sorted name_le (sort_entries l).
Proof.
  induction l as [|x l IH]; simpl; [constructor|].
  apply insert_sorted_sorted, IH.
Qed.

Lemma insert_sorted_length (e : MenuEntry) (l : list MenuEntry) :
  length (insert_sorted e l) = S (length l).
Proof.
  induction l as [|x l IH]; simpl; [reflexivity|].
  destruct (compare_entries e x); simpl; congruence.
Qed.

Lemma sort_entries_length (l : list MenuEntry) :
  length (sort_entries l) = length l.
Proof.
  induction l as [|x l IH]; simpl; [reflexivity|].
  rewrite insert_sorted_length. congruence.
Qed.

Lemma qsort_entries_holds (s : State) (l spare : list MenuEntry) :
  holds s l spare ->
  qsort_entries s
  = with_store (sort_entries l ++ spare)
      (Z.of_nat (length (sort_entries l))) s.
Proof.
  intros Hh. pose proof (listing_holds _ _ _ Hh) as Hl.
  destruct Hh as [He Hn]. unfold qsort_entries, with_store.
  rewrite Hl, He, Hn, Nat2Z.id, drop_app_length, sort_entries_length.
  destruct s; simpl in *. subst. reflexivity.
Qed.

(** ** The empty-directory cache: facts *)

Lemma load_with_store (w : World) (a : list MenuEntry) (n : Z) (s : State) :
  load_empty_dirs_cache w (with_store a n s)
  = with_store a n (load_empty_dirs_cache w s).
Proof.
  destruct s as [? ? ? ? ? ? ? ? ? ? loaded ? file ? ? ? ? ?].
  unfold load_empty_dirs_cache, rebuild_empty_dirs_cache, with_store. simpl.
  destruct loaded; [reflexivity|].
  destruct file; [reflexivity|]. simpl.
  destruct (opendir w ROMS_PATH); [|reflexivity].
  destruct (cache_file_writable w); reflexivity.
Qed.

Lemma load_store (w : World) (s : State) :
  entries (load_empty_dirs_cache w s) = entries s
  /\ entry_count (load_empty_dirs_cache w s) = entry_count s
  /\ same_session s (load_empty_dirs_cache w s).
Proof.
  destruct s as [? ? ? ? ? ? ? ? ? ? loaded ? file ? ? ? ? ?].
  unfold load_empty_dirs_cache, rebuild_empty_dirs_cache, same_session. simpl.
  destruct loaded; [repeat split|].
  destruct file; [repeat split|]. simpl.
  destruct (opendir w ROMS_PATH); [|repeat split].
  destruct (cache_file_writable w); repeat split.
Qed.

Lemma load_loaded (w : World) (s : State) :
  empty_dirs_loaded (load_empty_dirs_cache w s) = true.
Proof.
  destruct s as [? ? ? ? ? ? ? ? ? ? loaded ? file ? ? ? ? ?].
  unfold load_empty_dirs_cache, rebuild_empty_dirs_cache. simpl.
  destruct loaded; [reflexivity|].
  destruct file; [reflexivity|]. simpl.
  destruct (opendir w ROMS_PATH); [|reflexivity].
  destruct (cache_file_writable w); reflexivity.
Qed.

Lemma load_idempotent (w : World) (s : State) :
  load_empty_dirs_cache w (load_empty_dirs_cache w s)
  = load_empty_dirs_cache w s.
Proof.
  unfold load_empty_dirs_cache at 1. rewrite load_loaded. reflexivity.
Qed.

Lemma effective_cache_load (w : World) (s : State) :
  effective_cache w (load_empty_dirs_cache w s) = effective_cache w s.
Proof. unfold effective_cache. rewrite load_idempotent. reflexivity. Qed.

Lemma effective_cache_with_store (w : World) (a : list MenuEntry) (n : Z)
  (s : State) :
  effective_cache w (with_store a n s) = effective_cache w s.
Proof. unfold effective_cache. rewrite load_with_store. reflexivity. Qed.

Lemma holds_load (w : World) (s : State) (l spare : list MenuEntry) :
  holds s l spare -> holds (load_empty_dirs_cache w s) l spare.
Proof.
  intros [He Hn]. destruct (load_store w s) as (He' & Hn' & _).
  split; congruence.
Qed.

(** ** The directory scanner: facts *)

Lemma capacity_with_store (a : list MenuEntry) (n : Z) (s : State) :
  entries_capacity (with_store a n s) = Z.of_nat (length a).
Proof. reflexivity. Qed.

(** The [readdir] loop appends exactly the rows of [scan_rows], in the
    order of the directory, and does not change what the cache will
    answer. *)
Lemma scan_loop_holds (w : World) (pth : string) (is_root : bool)
  (ents : list dirent) :
  alloc_ok w ->
  forall (s : State) (l spare : list MenuEntry),
    holds s l spare ->
    entries_capacity s <= CAPACITY_LIMIT ->
    Z.of_nat (length l) + Z.of_nat (length ents) <= 536870911 ->
    exists s' spare',
      scan_loop w pth is_root ents s = Ok s'
      /\ holds s' (l ++ scan_rows w pth is_root (hide_empty_folders s)
                          (effective_cache w s) ents) spare'
      /\ entries_capacity s' <= CAPACITY_LIMIT
      /\ same_session s s'
      /\ effective_cache w s' = effective_cache w s.
Proof.
  intros Halloc. unfold scan_rows.
  induction ents as [|ent rest IH]; intros s l spare Hh Hcap Hlen.
  - exists s, spare. simpl. rewrite app_nil_r.
    split; [reflexivity|]. split; [exact Hh|]. split; [exact Hcap|].
    split; [apply same_session_refl | reflexivity].
  - simpl length in Hlen. cbn [scan_loop omap list_omap].
    unfold scan_row at 1.
    destruct (is_hidden (d_name ent)).
    { apply (IH s l spare); try assumption; lia. }
    destruct (is_reserved (d_name ent)).
    { apply (IH s l spare); try assumption; lia. }
    cbv zeta.
    set (entry_name := strncpy_buf 256 (d_name ent)).
    set (full_path := path_join pth entry_name).
    set (dir := is_directory_fast w full_path (d_type ent)).
    destruct (is_root && negb dir).
    { apply (IH s l spare); try assumption; lia. }
    set (s1 := if is_root && dir && hide_empty_folders s
               then load_empty_dirs_cache w s else s).
    assert (Hs1 : holds s1 l spare /\ same_session s s1
                  /\ effective_cache w s1 = effective_cache w s
                  /\ entries_capacity s1 = entries_capacity s).
    { unfold s1. destruct (is_root && dir && hide_empty_folders s).
      - destruct (load_store w s) as (He & Hn & Hss).
        split; [apply holds_load, Hh|]. split; [exact Hss|].
        split; [apply effective_cache_load|].
        unfold entries_capacity. rewrite He. reflexivity.
      - split; [exact Hh|]. split; [apply same_session_refl|].
        split; reflexivity. }
    destruct Hs1 as (Hh1 & Hss1 & Hec1 & Hcap1).
    assert (Hhide1 : hide_empty_folders s1 = hide_empty_folders s) by apply Hss1.
    assert (Hin : is_root && dir && hide_empty_folders s
                  && is_in_empty_cache s1 entry_name
                  = is_root && dir && hide_empty_folders s
                    && existsb (fun d => strcasecmp_eq d entry_name)
                         (effective_cache w s)).
    { unfold s1, is_in_empty_cache.
      destruct (is_root && dir && hide_empty_folders s); reflexivity. }
    rewrite Hin.
    destruct (is_root && dir && hide_empty_folders s
              && existsb (fun d => strcasecmp_eq d entry_name)
                   (effective_cache w s)).
    { destruct (IH s1 l spare) as (s' & spare' & Hrun & Hh' & Hcap' & Hss' & Hec');
        try assumption; try lia.
      exists s', spare'. rewrite Hhide1, Hec1 in Hh'.
      split; [exact Hrun|]. split; [exact Hh'|]. split; [exact Hcap'|].
      split; [eapply same_session_trans; eassumption | congruence]. }
    destruct (ensure_entries_capacity_holds w
                (int_add (entry_count s1) 1) s1 l spare)
      as (spare2 & Hens & Hreq & Hcap2); try assumption; try lia.
    { destruct Hh1 as [_ Hn1]. rewrite Hn1. unwrap. lia. }
    rewrite Hens. cbn [bind].
    destruct spare2 as [|c spare2].
    { exfalso. destruct Hh1 as [_ Hn1]. rewrite Hn1 in Hreq.
      rewrite app_nil_r in Hreq. revert Hreq. unwrap. lia. }
    set (s2 := with_store (l ++ c :: spare2) (entry_count s1) s1).
    assert (Hh2 : holds s2 l (c :: spare2)).
    { split; [reflexivity|]. apply Hh1. }
    rewrite (append_entry_holds entry_name full_path dir s2 l spare2 c Hh2)
      by (unfold INT_MAX; lia).
    cbn [bind].
    set (e := mkEntry (strncpy_buf 512 full_path)
                (strncpy_buf 256 entry_name) dir).
    set (s3 := with_store ((l ++ [e]) ++ spare2)
                 (Z.of_nat (length (l ++ [e]))) s2).
    destruct (IH s3 (l ++ [e]) spare2)
      as (s' & spare' & Hrun & Hh' & Hcap' & Hss' & Hec').
    { apply holds_with_store. }
    { unfold s3. rewrite capacity_with_store.
      rewrite !length_app in *. simpl in *. lia. }
    { rewrite length_app. simpl. lia. }
    exists s', spare'.
    assert (Hec3 : effective_cache w s3 = effective_cache w s).
    { unfold s3, s2. rewrite !effective_cache_with_store. exact Hec1. }
    assert (Hss3 : same_session s s3).
    { eapply same_session_trans; [exact Hss1|].
      unfold s3, s2.
      eapply same_session_trans; apply same_session_with_store. }
    assert (Hhide3 : hide_empty_folders s3 = hide_empty_folders s) by apply Hss3.
    rewrite Hhide3, Hec3, <- app_assoc in Hh'.
    split; [exact Hrun|]. split; [exact Hh'|]. split; [exact Hcap'|].
    split; [eapply same_session_trans; eassumption | congruence].
Qed.

Lemma populates_refl (w : World) (s : State) : populates w s s.
Proof. split; [apply same_session_refl | reflexivity]. Qed.

Lemma populates_trans (w : World) (s1 s2 s3 : State) :
  populates w s1 s2 -> populates w s2 s3 -> populates w s1 s3.
Proof.
  intros [H1 E1] [H2 E2]. split; [|congruence].
  eapply same_session_trans; eassumption.
Qed.

Lemma populates_with_store (w : World) (a : list MenuEntry) (n : Z) (s : State) :
  populates w s (with_store a n s).
Proof.
  split; [apply same_session_with_store | apply effective_cache_with_store].
Qed.

Lemma effective_cache_ext (w : World) (s s' : State) :
  empty_dirs_loaded s = empty_dirs_loaded s' ->
  cache_file s = cache_file s' ->
  empty_dirs s = empty_dirs s' ->
  effective_cache w s = effective_cache w s'.
Proof.
  destruct s as [? ? ? ? ? ? ? ? ? ? loaded ? file ? ? ? ? ?], s'.
  unfold effective_cache, load_empty_dirs_cache, rebuild_empty_dirs_cache.
  cbn [empty_dirs_loaded cache_file empty_dirs]. intros <- <- <-.
  destruct loaded; [reflexivity|].
  destruct file; [reflexivity|]. cbn [set_empty_dirs_loaded set_empty_dirs cache_file].
  destruct (opendir w ROMS_PATH); [|reflexivity].
  destruct (cache_file_writable w); reflexivity.
Qed.

Lemma length_scan_rows (w : World) (pth : string) (is_root hide : bool)
  (cache : list string) (ents : list dirent) :
  (length (scan_rows w pth is_root hide cache ents) <= length ents)%nat.
Proof.
  unfold scan_rows. induction ents as [|e r IH]; [simpl; lia|].
  cbn [omap list_omap].
  destruct (scan_row w pth is_root hide cache e); cbn [length]; lia.
Qed.

(** One more cell than the listing needs is a spare cell. *)
Lemma spare_cell (l spare : list MenuEntry) (n : Z) :
  Z.of_nat (length l) + 1 <= n ->
  n <= Z.of_nat (length (l ++ spare)) ->
  exists c spare', spare = c :: spare'.
Proof.
  rewrite length_app. destruct spare as [|c spare']; simpl; [lia|].
  intros _ _. exists c, spare'. reflexivity.
Qed.

(** [ensure_entries_capacity] followed by the append it makes room for. *)
Lemma ensure_then_append (w : World) (nm pth : string) (dir : bool)
  (s : State) (l spare : list MenuEntry) :
  alloc_ok w ->
  holds s l spare ->
  entries_capacity s <= CAPACITY_LIMIT ->
  Z.of_nat (length l) + 1 <= 536870912 ->
  exists s' spare',
    (let* s1 := ensure_entries_capacity w (int_add (entry_count s) 1) s in
     append_entry nm pth dir s1) = Ok s'
    /\ holds s' (l ++ [mkEntry (strncpy_buf 512 pth) (strncpy_buf 256 nm) dir])
         spare'
    /\ entries_capacity s' <= CAPACITY_LIMIT
    /\ populates w s s'.
Proof.
  intros Halloc Hh Hcap Hlen. pose proof Hh as [He Hn].
  assert (Hreq : int_add (entry_count s) 1 = Z.of_nat (length l) + 1)
    by (rewrite Hn; unwrap; lia).
  destruct (ensure_entries_capacity_holds w (int_add (entry_count s) 1) s l spare)
    as (spare2 & Hens & Hlo & Hhi); try assumption; try lia.
  rewrite Hens. cbn [bind].
  destruct (spare_cell l spare2 (int_add (entry_count s) 1))
    as (c & spare3 & ->); try lia.
  set (s2 := with_store (l ++ c :: spare3) (entry_count s) s).
  assert (Hh2 : holds s2 l (c :: spare3)) by (split; [reflexivity | exact Hn]).
  rewrite (append_entry_holds nm pth dir s2 l spare3 c Hh2)
    by (unfold INT_MAX; lia).
  eexists _, spare3. split; [reflexivity|].
  split; [apply holds_with_store|]. split.
  - rewrite capacity_with_store. rewrite !length_app in *. simpl in *. lia.
  - unfold s2. eapply populates_trans; apply populates_with_store.
Qed.

Lemma populates_reset (w : World) (s : State) :
  populates w (reset_navigation_state s)
    (reset_navigation_state (set_entry_count 0 s)).
Proof.
  split; [repeat split|]. apply effective_cache_ext; reflexivity.
Qed.

Lemma effective_cache_reset (w : World) (s : State) :
  effective_cache w (reset_navigation_state s) = effective_cache w s.
Proof. apply effective_cache_ext; reflexivity. Qed.

(** The root branch after the sort: three inserted rows and Tools. *)
Lemma root_rows_hold (w : World) (s : State) (l spare : list MenuEntry) :
  alloc_ok w ->
  holds s l spare ->
  entries_capacity s <= CAPACITY_LIMIT ->
  Z.of_nat (length l) + 4 <= 536870912 ->
  exists s' spare',
    (let* s := ensure_entries_capacity w (int_add (entry_count s) 4) s in
     let* s := insert_row 0 "Recent games" "RECENT_GAMES" s in
     let* s := insert_row 1 "Favorites" "FAVORITES" s in
     let* s := insert_row 2 "Random game" "RANDOM_GAME" s in
     append_entry "Tools" "TOOLS" true s) = Ok s'
    /\ holds s' ([recent_row; favorites_row; random_row] ++ l ++ [tools_row])
         spare'
    /\ entries_capacity s' <= CAPACITY_LIMIT
    /\ populates w s s'.
Proof.
  intros Halloc Hh Hcap Hlen. pose proof Hh as [He Hn].
  assert (Hreq : int_add (entry_count s) 4 = Z.of_nat (length l) + 4)
    by (rewrite Hn; unwrap; lia).
  destruct (ensure_entries_capacity_holds w (int_add (entry_count s) 4) s l spare)
    as (spare2 & Hens & Hlo & Hhi); try assumption; try lia.
  rewrite Hens. cbn [bind]. rewrite Hreq, length_app in Hlo.
  destruct spare2 as [|c1 [|c2 [|c3 [|c4 spare3]]]]; simpl in Hlo; try lia.
  set (s1 := with_store (l ++ c1 :: c2 :: c3 :: c4 :: spare3) (entry_count s) s).
  assert (Hh1 : holds s1 l (c1 :: c2 :: c3 :: c4 :: spare3))
    by (split; [reflexivity | exact Hn]).
  change (insert_row 0) with (insert_row (Z.of_nat 0)).
  rewrite (insert_row_holds 0 _ _ s1 l _ c1 Hh1) by (unfold INT_MAX; lia).
  cbn [bind take drop app]. rewrite ?take_0, ?drop_0. cbn [app length].
  set (l2 := synthetic_row "Recent games" "RECENT_GAMES" :: l).
  set (s2 := with_store _ _ s1).
  assert (Hh2 : holds s2 l2 (c2 :: c3 :: c4 :: spare3))
    by (split; reflexivity).
  change (insert_row 1) with (insert_row (Z.of_nat 1)).
  rewrite (insert_row_holds 1 _ _ s2 l2 _ c2 Hh2)
    by (unfold l2, INT_MAX; simpl; lia).
  unfold l2 at 1 2 3 4. cbn [bind take drop app]. rewrite ?take_0, ?drop_0. cbn [app length].
  set (l3 := synthetic_row "Recent games" "RECENT_GAMES"
             :: synthetic_row "Favorites" "FAVORITES" :: l).
  set (s3 := with_store _ _ s2).
  assert (Hh3 : holds s3 l3 (c3 :: c4 :: spare3))
    by (split; reflexivity).
  change (insert_row 2) with (insert_row (Z.of_nat 2)).
  rewrite (insert_row_holds 2 _ _ s3 l3 _ c3 Hh3)
    by (unfold l3, INT_MAX; simpl; lia).
  unfold l3 at 1 2 3 4. cbn [bind take drop app]. rewrite ?take_0, ?drop_0. cbn [app length].
  set (l4 := synthetic_row "Recent games" "RECENT_GAMES"
             :: synthetic_row "Favorites" "FAVORITES"
             :: synthetic_row "Random game" "RANDOM_GAME" :: l).
  set (s4 := with_store _ _ s3).
  assert (Hh4 : holds s4 l4 (c4 :: spare3)) by (split; reflexivity).
  rewrite (append_entry_holds _ _ _ s4 l4 spare3 c4 Hh4)
    by (unfold l4, INT_MAX; simpl; lia).
  eexists _, spare3. split; [reflexivity|].
  split; [apply holds_with_store|]. split.
  - rewrite capacity_with_store. rewrite !length_app in *.
    unfold l4. simpl in *. lia.
  - unfold s4, s3, s2, s1.
    repeat (eapply populates_trans; [|apply populates_with_store]).
    apply populates_refl.
Qed.

(** [scan_directory] returns, and its listing is [scan_listing]. *)
Lemma scan_directory_holds (w : World) (pth : string) (s : State) :
  alloc_ok w ->
  entries_capacity s <= CAPACITY_LIMIT ->
  directory_fits w pth ->
  exists s' spare,
    scan_directory w pth s = Ok s'
    /\ holds s' (scan_listing w pth (hide_empty_folders s)
                   (effective_cache w s)) spare
    /\ entries_capacity s' <= CAPACITY_LIMIT
    /\ populates w (reset_navigation_state s) s'.
Proof.
  intros Halloc Hcap Hfit.
  unfold scan_directory, scan_listing.
  set (s0 := reset_navigation_state (set_entry_count 0 s)).
  assert (Hh0 : holds s0 [] (entries s)) by (split; reflexivity).
  assert (Hp0 : populates w (reset_navigation_state s) s0)
    by apply populates_reset.
  assert (Hcap0 : entries_capacity s0 <= CAPACITY_LIMIT) by exact Hcap.
  assert (Hhide0 : hide_empty_folders s0 = hide_empty_folders s) by reflexivity.
  assert (Hec0 : effective_cache w s0 = effective_cache w s)
    by (apply effective_cache_ext; reflexivity).
  unfold directory_fits, DIRECTORY_LIMIT in Hfit.
  destruct (strcmp_eq pth ROMS_PATH) eqn:Hroot; cbn [negb bind].
  - (* the root collection *)
    destruct (opendir w pth) as [ents|] eqn:Hopen.
    + specialize (Hfit ents eq_refl).
      destruct (scan_loop_holds w pth true ents Halloc s0 [] (entries s))
        as (s1 & spare1 & Hrun & Hh1 & Hcap1 & Hss1 & Hec1);
        try assumption; [simpl; lia|].
      rewrite Hrun. cbn [bind app] in *.
      rewrite Hhide0, Hec0 in Hh1.
      set (rows := scan_rows w pth true (hide_empty_folders s)
                     (effective_cache w s) ents) in *.
      pose proof (length_scan_rows w pth true (hide_empty_folders s)
                    (effective_cache w s) ents) as Hrows. fold rows in Hrows.
      rewrite (qsort_entries_holds s1 rows spare1 Hh1).
      set (s2 := with_store _ _ s1).
      assert (Hh2 : holds s2 (sort_entries rows) spare1)
        by apply holds_with_store.
      destruct (root_rows_hold w s2 (sort_entries rows) spare1)
        as (s3 & spare3 & Hrun3 & Hh3 & Hcap3 & Hp3); try assumption.
      { unfold s2. rewrite capacity_with_store, length_app, sort_entries_length.
        destruct Hh1 as [He1 _]. unfold entries_capacity in Hcap1.
        rewrite He1, length_app in Hcap1. exact Hcap1. }
      { rewrite sort_entries_length. lia. }
      exists s3, spare3. split; [exact Hrun3|]. split; [exact Hh3|].
      split; [exact Hcap3|].
      eapply populates_trans; [exact Hp0|].
      eapply populates_trans; [split; [exact Hss1 | exact Hec1]|].
      eapply populates_trans; [apply populates_with_store | exact Hp3].
    + exists s0, (entries s). repeat split; try assumption; apply Hp0.
  - (* a real directory: the parent marker first *)
    destruct (ensure_then_append w ".." pth true s0 [] (entries s))
      as (s1 & spare1 & Hrun1 & Hh1 & Hcap1 & Hp1); try assumption;
      [simpl; lia|].
    rewrite Hrun1. cbn [bind app] in *.
    fold (synthetic_row ".." pth) in Hh1. fold (parent_row pth) in Hh1.
    assert (Hhide1 : hide_empty_folders s1 = hide_empty_folders s)
      by (rewrite <- Hhide0; apply Hp1).
    assert (Hec1 : effective_cache w s1 = effective_cache w s)
      by (rewrite <- Hec0; apply Hp1).
    destruct (opendir w pth) as [ents|] eqn:Hopen.
    + specialize (Hfit ents eq_refl).
      destruct (scan_loop_holds w pth false ents Halloc s1 [parent_row pth] spare1)
        as (s2 & spare2 & Hrun2 & Hh2 & Hcap2 & Hss2 & Hec2);
        try assumption; [simpl; lia|].
      rewrite Hrun2. cbn [bind app] in *.
      rewrite Hhide1, Hec1 in Hh2.
      rewrite (qsort_entries_holds s2 _ spare2 Hh2).
      eexists _, spare2. split; [reflexivity|].
      split; [apply holds_with_store|]. split.
      * rewrite capacity_with_store, length_app, sort_entries_length.
        destruct Hh2 as [He2 _]. unfold entries_capacity in Hcap2.
        rewrite He2, length_app in Hcap2. exact Hcap2.
      * eapply populates_trans; [exact Hp0|].
        eapply populates_trans; [exact Hp1|].
        eapply populates_trans; [split; [exact Hss2 | exact Hec2]|].
        apply populates_with_store.
    + exists s1, spare1. split; [reflexivity|]. split; [exact Hh1|].
      split; [exact Hcap1|]. eapply populates_trans; eassumption.
Qed.

(** ** Claims about the directory scanner *)

Lemma strcmp_eq_refl (a : string) : strcmp_eq a a = true.
Proof. apply String.eqb_refl. Qed.

(** C4, as stated, fails: when the root cannot be opened the root
    listing is empty, so it does not begin with Recent games and does not
    end with Tools. *)
Lemma C4_counterexample :
  exists s1,
    scan_directory offline_world ROMS_PATH blank_state = Ok s1
    /\ listing s1 !! 0%nat <> Some recent_row
    /\ last (listing s1) <> Some tools_row.
Proof.
  eexists. split; [reflexivity|]. split; discriminate.
Qed.

(** C4, amended. With no change to the file system, to the setting and
    to the allocator's good will, two root scans in a row return the same
    listing; when the root can be opened that listing begins with Recent
    games, Favorites, Random game at indices 0, 1, 2 and ends with Tools,
    the sorted real rows in between. *)
Theorem C4_root_scan_repeatable (w : World) (s : State) :
  alloc_ok w ->
  entries_capacity s <= CAPACITY_LIMIT ->
  directory_fits w ROMS_PATH ->
  exists s1 s2,
    scan_directory w ROMS_PATH s = Ok s1
    /\ scan_directory w ROMS_PATH s1 = Ok s2
    /\ listing s2 = listing s1
    /\ forall ents, opendir w ROMS_PATH = Some ents ->
         exists real,
           listing s1
           = [recent_row; favorites_row; random_row] ++ real ++ [tools_row]
           /\ real = sort_entries
                       (scan_rows w ROMS_PATH true (hide_empty_folders s)
                          (effective_cache w s) ents)
           /\ Sorted name_le real
           /\ listing s1 !! 0%nat = Some recent_row
           /\ listing s1 !! 1%nat = Some favorites_row
           /\ listing s1 !! 2%nat = Some random_row
           /\ last (listing s1) = Some tools_row.
Proof.
  intros Halloc Hcap Hfit.
  destruct (scan_directory_holds w ROMS_PATH s Halloc Hcap Hfit)
    as (s1 & spare1 & Hrun1 & Hh1 & Hcap1 & Hp1).
  destruct (scan_directory_holds w ROMS_PATH s1 Halloc Hcap1 Hfit)
    as (s2 & spare2 & Hrun2 & Hh2 & Hcap2 & Hp2).
  exists s1, s2. split; [exact Hrun1|]. split; [exact Hrun2|].
  assert (Hhide : hide_empty_folders s1 = hide_empty_folders s) by apply Hp1.
  assert (Hec : effective_cache w s1 = effective_cache w s).
  { destruct Hp1 as [_ ->]. apply effective_cache_reset. }
  rewrite Hhide, Hec in Hh2.
  rewrite (listing_holds _ _ _ Hh1), (listing_holds _ _ _ Hh2).
  split; [reflexivity|].
  intros ents Hopen. unfold scan_listing. rewrite Hopen, strcmp_eq_refl.
  eexists. split; [reflexivity|]. split; [reflexivity|].
  split; [apply sort_entries_sorted|].
  repeat split; try reflexivity.
  rewrite !app_assoc. apply last_snoc.
Qed.

Lemma demo_world_fits (p : string) : directory_fits demo_world p.
Proof.
  intros ents H. simpl in H. unfold demo_opendir in H.
  unfold DIRECTORY_LIMIT.
  repeat (destruct (String.eqb p _);
          [injection H as <-; simpl; lia|]).
  discriminate.
Qed.

Lemma C4_root_scan_repeatable_witness :
  exists s1 s2,
    scan_directory demo_world ROMS_PATH blank_state = Ok s1
    /\ scan_directory demo_world ROMS_PATH s1 = Ok s2
    /\ listing s2 = listing s1
    /\ forall ents, opendir demo_world ROMS_PATH = Some ents ->
         exists real,
           listing s1
           = [recent_row; favorites_row; random_row] ++ real ++ [tools_row]
           /\ real = sort_entries
                       (scan_rows demo_world ROMS_PATH true
                          (hide_empty_folders blank_state)
                          (effective_cache demo_world blank_state) ents)
           /\ Sorted name_le real
           /\ listing s1 !! 0%nat = Some recent_row
           /\ listing s1 !! 1%nat = Some favorites_row
           /\ listing s1 !! 2%nat = Some random_row
           /\ last (listing s1) = Some tools_row.
Proof.
  apply (C4_root_scan_repeatable demo_world blank_state).
  - intros n. reflexivity.
  - unfold entries_capacity, CAPACITY_LIMIT. simpl. lia.
  - apply demo_world_fits.
Defined.

(** C10. When the root collection cannot be opened, the scan returns
    with [entry_count = 0]: the listing is empty, none of the four
    synthetic rows is in it, and the array itself is not touched. *)
Theorem C10_unopenable_root_is_empty (w : World) (s : State) :
  opendir w ROMS_PATH = None ->
  exists s',
    scan_directory w ROMS_PATH s = Ok s'
    /\ entry_count s' = 0
    /\ listing s' = []
    /\ entries s' = entries s
    /\ (forall e, e ∈ [recent_row; favorites_row; random_row; tools_row] ->
                  e ∉ listing s').
Proof.
  intros Hopen. unfold scan_directory.
  rewrite strcmp_eq_refl, Hopen. cbn [negb bind].
  eexists. split; [reflexivity|].
  split; [reflexivity|]. split; [reflexivity|]. split; [reflexivity|].
  intros e _ Hin. unfold listing in Hin. simpl in Hin.
  rewrite take_0 in Hin. inversion Hin.
Qed.

Lemma C10_unopenable_root_is_empty_witness :
  exists s',
    scan_directory offline_world ROMS_PATH blank_state = Ok s'
    /\ entry_count s' = 0
    /\ listing s' = []
    /\ entries s' = entries blank_state
    /\ (forall e, e ∈ [recent_row; favorites_row; random_row; tools_row] ->
                  e ∉ listing s').
Proof.
  apply (C10_unopenable_root_is_empty offline_world blank_state).
  reflexivity.
Defined.

(** C8. A scan of a directory that cannot be opened returns normally
    with no real row: the listing is empty for the root and is the single
    ".." row otherwise; selection and scroll offset are reset and nothing
    else of the session changes. The one cell for ".." must exist or be
    obtainable. *)
Theorem C8_unopenable_directory (w : World) (pth : string) (s : State) :
  opendir w pth = None ->
  1 <= entries_capacity s \/ realloc_ok w INITIAL_ENTRIES_CAPACITY = true ->
  exists s',
    scan_directory w pth s = Ok s'
    /\ listing s' = (if strcmp_eq pth ROMS_PATH then [] else [parent_row pth])
    /\ name (parent_row pth) = ".."%string
    /\ same_session (reset_navigation_state s) s'
    /\ selected_index s' = 0 /\ scroll_offset s' = 0.
Proof.
  intros Hopen Hroom. unfold scan_directory. rewrite Hopen.
  set (s0 := reset_navigation_state (set_entry_count 0 s)).
  destruct (strcmp_eq pth ROMS_PATH); cbn [negb bind].
  - exists s0. split; [reflexivity|]. unfold listing. simpl.
    rewrite take_0. repeat split.
  - assert (Hens : exists c spare,
               ensure_entries_capacity w (int_add (entry_count s0) 1) s0
               = Ok (with_store ([] ++ c :: spare) (entry_count s0) s0)).
    { unfold ensure_entries_capacity.
      change (int_add (entry_count s0) 1) with 1.
      change (entries_capacity s0) with (entries_capacity s).
      rewrite Z.geb_leb. destruct (Z.leb_spec 1 (entries_capacity s)) as [Hle|Hlt].
      - unfold entries_capacity in Hle.
        destruct (entries s) as [|c spare] eqn:He; simpl in Hle; [lia|].
        exists c, spare. rewrite <- (with_store_same s0) at 1.
        change (entries s0) with (entries s). rewrite He. reflexivity.
      - destruct Hroom as [Hroom|Hroom]; [lia|].
        assert (Hz : entries_capacity s = 0)
          by (unfold entries_capacity in *; lia).
        rewrite Hz. simpl. rewrite Hroom.
        exists stale_cell, (replicate 63 stale_cell).
        change (entries s0) with (entries s).
        assert (He : entries s = [])
          by (unfold entries_capacity in Hz; destruct (entries s);
              [reflexivity | simpl in Hz; lia]).
        rewrite He. reflexivity. }
    destruct Hens as (c & spare & ->). cbn [bind].
    set (s1 := with_store ([] ++ c :: spare) (entry_count s0) s0).
    assert (Hh1 : holds s1 [] (c :: spare)) by (split; reflexivity).
    rewrite (append_entry_holds ".." pth true s1 [] spare c Hh1)
      by (unfold INT_MAX; simpl; lia).
    eexists. split; [reflexivity|].
    split; [apply (listing_holds _ _ spare); apply holds_with_store|].
    repeat split.
Qed.

Lemma C8_unopenable_directory_witness :
  exists s',
    scan_directory offline_world "/mnt/sda1/ROMS/gb" blank_state = Ok s'
    /\ listing s' = (if strcmp_eq "/mnt/sda1/ROMS/gb" ROMS_PATH then []
                     else [parent_row "/mnt/sda1/ROMS/gb"])
    /\ name (parent_row "/mnt/sda1/ROMS/gb") = ".."%string
    /\ same_session (reset_navigation_state blank_state) s'
    /\ selected_index s' = 0 /\ scroll_offset s' = 0.
Proof.
  apply (C8_unopenable_directory offline_world "/mnt/sda1/ROMS/gb" blank_state).
  - reflexivity.
  - right. reflexivity.
Defined.

(** With a full block and an allocator that fails,
    [ensure_entries_capacity] returns the state as it is and the append
    that follows stores past the block. *)
Lemma failed_growth_then_append (w : World) (nm pth : string) (dir : bool)
  (s : State) :
  (forall n, realloc_ok w n = false) ->
  entry_count s = entries_capacity s ->
  entries_capacity s < 536870912 ->
  ensure_entries_capacity w (int_add (entry_count s) 1) s = Ok s
  /\ append_entry nm pth dir s = Undefined OutOfBounds.
Proof.
  intros Hfail Hfull Hcap.
  assert (Hpos : 0 <= entries_capacity s) by (unfold entries_capacity; lia).
  split.
  - unfold ensure_entries_capacity. rewrite Hfull.
    assert (Hreq : int_add (entries_capacity s) 1 = entries_capacity s + 1)
      by (unwrap; lia).
    rewrite Hreq. replace (entries_capacity s >=? entries_capacity s + 1)
      with false by lia.
    set (c0 := if entries_capacity s =? 0 then INITIAL_ENTRIES_CAPACITY
               else entries_capacity s).
    destruct (grow_capacity_ok 64 c0 (entries_capacity s + 1))
      as (c' & Hg & _).
    + unfold c0, INITIAL_ENTRIES_CAPACITY, CAPACITY_LIMIT.
      destruct (Z.eqb_spec (entries_capacity s) 0); lia.
    + lia.
    + unfold c0, INITIAL_ENTRIES_CAPACITY.
      change (2 ^ Z.of_nat 64) with 18446744073709551616.
      destruct (Z.eqb_spec (entries_capacity s) 0); lia.
    + rewrite Hg. cbn [bind]. rewrite Hfail. reflexivity.
  - unfold append_entry, write_cell, in_block. rewrite Hfull.
    unfold entries_capacity.
    replace ((0 <=? Z.of_nat (length (entries s)))
             && (Z.of_nat (length (entries s)) <? Z.of_nat (length (entries s))))
      with false by lia.
    reflexivity.
Qed.

(** C9 (a failed growth is not survived). The first block of 64 cells
    holds the root listing. Scanning the folder of seventy games then
    asks for a 65th cell; [ensure_entries_capacity] keeps the old block,
    as its comment says, and [scan_directory] stores into
    [entries\[64\]] all the same, past the end of the block. When not
    even the first block can be had, the ".." row of a folder is stored
    through the null pointer. *)
Theorem C9_growth_failure_writes_past_the_block :
  (exists s_root,
     scan_directory low_memory_world ROMS_PATH blank_state = Ok s_root
     /\ entries_capacity s_root = 64
     /\ ensure_entries_capacity low_memory_world 65 s_root = Ok s_root
     /\ scan_directory low_memory_world "/mnt/sda1/ROMS/big" s_root
        = Undefined OutOfBounds)
  /\ ensure_entries_capacity no_memory_world 1 blank_state = Ok blank_state
  /\ scan_directory no_memory_world "/mnt/sda1/ROMS/gb" blank_state
     = Undefined OutOfBounds.
Proof.
  split; [|split; reflexivity].
  eexists. split; [vm_compute; reflexivity|].
  split; [vm_compute; reflexivity|].
  split; vm_compute; reflexivity.
Qed.

(** ** C strings: facts *)

Lemma str_take_all (n : nat) (s : string) :
  (String.length s <= n)%nat -> str_take n s = s.
Proof.
  revert n. induction s as [|c r IH]; intros n Hn.
  - destruct n; reflexivity.
  - destruct n; simpl in *; [lia|]. rewrite IH by lia. reflexivity.
Qed.

Lemma str_take_length_exact (n : nat) (s : string) :
  (n <= String.length s)%nat -> String.length (str_take n s) = n.
Proof.
  revert s. induction n as [|n IH]; intros [|c r] Hn; simpl in *; try lia.
  rewrite IH by lia. reflexivity.
Qed.

Lemma strrchr_split_absent (c : ascii) (s : string) :
  ~ contains c s -> strrchr_split c s = None.
Proof.
  unfold contains. induction s as [|a r IH]; simpl; intros Hc; [reflexivity|].
  rewrite IH by tauto.
  destruct (Ascii.eqb_spec a c); [|reflexivity]. exfalso. tauto.
Qed.

Lemma strrchr_split_app (c : ascii) (p q : string) :
  ~ contains c q -> strrchr_split c (String.append p (String c q)) = Some (p, q).
Proof.
  intros Hq. induction p as [|a p IH]; simpl.
  - rewrite (strrchr_split_absent c q Hq), Ascii.eqb_refl. reflexivity.
  - rewrite IH. reflexivity.
Qed.

Lemma strchr_split_absent (c : ascii) (s : string) :
  ~ contains c s <-> strchr_split c s = None.
Proof.
  unfold contains. induction s as [|a r IH]; simpl.
  - tauto.
  - destruct (Ascii.eqb_spec a c) as [->|Hne].
    + split; [tauto | discriminate].
    + destruct (strchr_split c r) as [[p q]|].
      * split; [|discriminate]. intros H. exfalso.
        assert (Hr : ~ In c (list_ascii_of_string r)) by tauto.
        apply IH in Hr. discriminate.
      * split; [reflexivity|]. intros _ [H|H]; [congruence|].
        destruct IH as [_ IH]. apply (IH eq_refl H).
Qed.

Lemma strchr_split_app (c : ascii) (p q : string) :
  ~ contains c p -> strchr_split c (String.append p (String c q)) = Some (p, q).
Proof.
  unfold contains. induction p as [|a p IH]; simpl; intros Hp.
  - rewrite Ascii.eqb_refl. reflexivity.
  - destruct (Ascii.eqb_spec a c); [exfalso; tauto|].
    rewrite IH by tauto. reflexivity.
Qed.

(** ** Search loops: facts *)

Lemma find_index_first (p : MenuEntry -> bool) (l : list MenuEntry) (i0 : Z) :
  0 <= i0 -> i0 + Z.of_nat (length l) <= INT_MAX ->
  match find_index p i0 l with
  | Some i =>
      i0 <= i /\ first_match p l (i - i0)
  | None => forall e, e ∈ l -> p e = false
  end.
Proof.
  revert i0. induction l as [|x l IH]; intros i0 Hlo Hhi; simpl.
  - intros e He. inversion He.
  - destruct (p x) eqn:Hpx.
    + split; [lia|]. replace (i0 - i0) with 0 by lia.
      split; [lia|]. split.
      * exists x. split; [reflexivity | exact Hpx].
      * intros j e Hj. simpl in Hj. lia.
    + simpl in Hhi. assert (Hn : int_add i0 1 = i0 + 1) by (unwrap; lia).
      rewrite Hn. specialize (IH (i0 + 1)).
      destruct (find_index p (i0 + 1) l) as [i|].
      * destruct IH as (Hle & Hge & (e & He & Hpe) & Hfirst); try lia.
        split; [lia|]. split; [lia|].
        replace (Z.to_nat (i - i0)) with (S (Z.to_nat (i - (i0 + 1)))) by lia.
        split.
        -- exists e. split; [exact He | exact Hpe].
        -- intros [|j] e' Hj Hl; simpl in Hl.
           ++ injection Hl as <-. exact Hpx.
           ++ apply (Hfirst j e'); [lia | exact Hl].
      * intros e He. apply list_elem_of_In in He. destruct He as [<-|He].
        -- exact Hpx.
        -- apply IH; [lia | lia | apply list_elem_of_In; exact He].
Qed.

Lemma listing_length_le (s : State) :
  Z.of_nat (length (listing s)) <= entries_capacity s.
Proof.
  unfold listing, entries_capacity. rewrite length_take. lia.
Qed.

(** ** Claims about the A-Z picker *)

Lemma az_hit_first_char (idx : Z) (fc : ascii) (e : MenuEntry) :
  az_hit idx fc e
  = az_hit idx fc (row (String (first_char (name e)) EmptyString)).
Proof. reflexivity. Qed.

Lemma in_bucket_first_char (idx : Z) (e : MenuEntry) :
  in_bucket idx e
  = in_bucket idx (row (String (first_char (name e)) EmptyString)).
Proof. reflexivity. Qed.

(** The three-way test of the search loop decides membership in the
    chosen bucket. *)
Lemma az_hit_in_bucket (idx : Z) (label : string) (e : MenuEntry) :
  0 <= idx <= 27 ->
  search_chars !! Z.to_nat idx = Some label ->
  az_hit idx (first_char label) e = in_bucket idx e.
Proof.
  intros Hidx Hlabel.
  assert (Htab : az_table_agrees = true) by (vm_compute; reflexivity).
  unfold az_table_agrees in Htab. rewrite forallb_forall in Htab.
  assert (Hk : In (Z.to_nat idx) (seq 0 28)) by (apply in_seq; lia).
  specialize (Htab (Z.to_nat idx) Hk).
  rewrite forallb_forall in Htab.
  assert (Hc : In (nat_of_ascii (first_char (name e))) (seq 0 256)).
  { apply in_seq. pose proof (nat_ascii_bounded (first_char (name e))). lia. }
  specialize (Htab (nat_of_ascii (first_char (name e))) Hc).
  rewrite ascii_nat_embedding, Z2Nat.id in Htab by lia.
  rewrite az_hit_first_char, in_bucket_first_char.
  assert (Hn : nth (Z.to_nat idx) search_chars EmptyString = label)
    by (apply nth_lookup_Some with (d := EmptyString) in Hlabel; exact Hlabel).
  rewrite Hn in Htab. apply eqb_prop, Htab.
Qed.

Lemma find_index_ext (p q : MenuEntry -> bool) (l : list MenuEntry) (i : Z) :
  (forall e, p e = q e) -> find_index p i l = find_index q i l.
Proof.
  intros Hpq. revert i. induction l as [|x l IH]; intros i; simpl.
  - reflexivity.
  - rewrite Hpq, IH. reflexivity.
Qed.

Lemma az_navigate_in_grid (up down left right : bool) (s : State) :
  0 <= az_selected_index s <= 27 ->
  0 <= az_selected_index (az_navigate up down left right s) <= 27
  /\ selected_index (az_navigate up down left right s) = selected_index s
  /\ listing (az_navigate up down left right s) = listing s.
Proof.
  intros Hidx. unfold az_navigate.
  repeat (break_if; simpl in *; unwrap); repeat split; lia.
Qed.

Lemma az_confirm_returns (s : State) :
  0 <= az_selected_index s <= 27 ->
  exists s',
    az_confirm s = Ok s'
    /\ az_picker_active s' = false
    /\ az_selected_index s' = az_selected_index s.
Proof.
  intros Hidx. unfold az_confirm.
  replace ((0 <=? az_selected_index s) && (az_selected_index s <? 28))
    with true by lia.
  destruct (search_chars !! Z.to_nat (az_selected_index s)) as [label|] eqn:Hl.
  2:{ exfalso. apply lookup_ge_None in Hl. simpl in Hl. lia. }
  eexists. split; [reflexivity|].
  destruct (find_entry _ s); split; reflexivity.
Qed.

(** C6. Confirming the picker returns with the overlay closed and the
    listing unchanged; if some row falls in the chosen bucket the
    selection is the first such row, otherwise it is unchanged. The
    picker block closes the overlay on confirm and on cancel, whatever
    else was released in the frame, and cancel leaves the selection
    alone. With Banana, apple, Cherry and bucket A the selection
    becomes 1. *)
Theorem C6_az_confirm_selects_first_in_bucket (s : State)
  (up down left right : bool) :
  0 <= az_selected_index s <= 27 ->
  entry_count s <= INT_MAX ->
  (exists s',
     az_confirm s = Ok s'
     /\ az_picker_active s' = false
     /\ listing s' = listing s
     /\ (forall e, e ∈ listing s -> in_bucket (az_selected_index s) e = true ->
           first_match (in_bucket (az_selected_index s)) (listing s)
             (selected_index s'))
     /\ ((forall e, e ∈ listing s -> in_bucket (az_selected_index s) e = false) ->
           selected_index s' = selected_index s))
  /\ (exists s_a,
        az_picker_input up down left right true false s = Ok s_a
        /\ az_picker_active s_a = false)
  /\ (exists s_b,
        az_picker_input up down left right false true s = Ok s_b
        /\ az_picker_active s_b = false
        /\ selected_index s_b = selected_index s)
  /\ selected_of (az_confirm fruit_state) = Some 1.
Proof.
  intros Hidx Hcount.
  split; [|split; [|split; [|reflexivity]]].
  - unfold az_confirm.
    replace ((0 <=? az_selected_index s) && (az_selected_index s <? 28))
      with true by lia.
    destruct (search_chars !! Z.to_nat (az_selected_index s)) as [label|] eqn:Hl.
    2:{ exfalso. apply lookup_ge_None in Hl. simpl in Hl. lia. }
    unfold find_entry.
    rewrite (find_index_ext _ (in_bucket (az_selected_index s)))
      by (intros e; apply az_hit_in_bucket; assumption).
    pose proof (find_index_first (in_bucket (az_selected_index s)) (listing s) 0)
      as Hfirst.
    assert (Hlen : 0 + Z.of_nat (length (listing s)) <= INT_MAX).
    { unfold listing. rewrite length_take. unfold INT_MAX in *. lia. }
    specialize (Hfirst (Z.le_refl 0) Hlen).
    destruct (find_index (in_bucket (az_selected_index s)) 0 (listing s))
      as [i|] eqn:Hfind.
    + eexists. split; [reflexivity|]. simpl.
      split; [reflexivity|]. split; [reflexivity|].
      destruct Hfirst as [_ Hfirst]. rewrite Z.sub_0_r in Hfirst.
      split; [intros; exact Hfirst|].
      intros Hnone. destruct Hfirst as (_ & (e & He & Hpe) & _).
      rewrite Hnone in Hpe; [discriminate|].
      eapply list_elem_of_lookup_2. exact He.
    + eexists. split; [reflexivity|]. simpl.
      split; [reflexivity|]. split; [reflexivity|].
      split; [|reflexivity].
      intros e He Hpe. rewrite Hfirst in Hpe by exact He. discriminate.
  - destruct (az_navigate_in_grid up down left right s Hidx) as (Hgrid & _).
    destruct (az_confirm_returns _ Hgrid) as (s_a & Hrun & Hoff & _).
    exists s_a. unfold az_picker_input. rewrite Hrun. split; [reflexivity|].
    exact Hoff.
  - destruct (az_navigate_in_grid up down left right s Hidx) as (_ & Hsel & _).
    eexists. unfold az_picker_input. split; [reflexivity|].
    split; [reflexivity | exact Hsel].
Qed.

Lemma C6_az_confirm_selects_first_in_bucket_witness :
  (exists s',
     az_confirm fruit_state = Ok s'
     /\ az_picker_active s' = false
     /\ listing s' = listing fruit_state
     /\ (forall e, e ∈ listing fruit_state ->
           in_bucket (az_selected_index fruit_state) e = true ->
           first_match (in_bucket (az_selected_index fruit_state))
             (listing fruit_state) (selected_index s'))
     /\ ((forall e, e ∈ listing fruit_state ->
            in_bucket (az_selected_index fruit_state) e = false) ->
           selected_index s' = selected_index fruit_state))
  /\ (exists s_a,
        az_picker_input false false false false true false fruit_state = Ok s_a
        /\ az_picker_active s_a = false)
  /\ (exists s_b,
        az_picker_input false false false false false true fruit_state = Ok s_b
        /\ az_picker_active s_b = false
        /\ selected_index s_b = selected_index fruit_state)
  /\ selected_of (az_confirm fruit_state) = Some 1.
Proof.
  apply (C6_az_confirm_selects_first_in_bucket fruit_state
           false false false false).
  - simpl. lia.
  - unfold INT_MAX. simpl. lia.
Defined.

(** ** Claims about launching *)

(** C7. The key "Gambatte;SuperMario" splits into "Gambatte" and
    "SuperMario", and so does every key [core;file] whose parts fit the
    two 256-byte buffers. On a file row of the recents or favorites view:
    a key without [;] makes the A-button block return at once with the
    state as it was (nothing launched, nothing read past the row); a key
    with [;] whose game is in the list passes the two parts to the
    loader. *)
Theorem C7_composite_key (V : Z) (w : World) (sa : bool) (s : State)
  (e : MenuEntry) (core file : string) :
  0 < entry_count s ->
  read_cell (selected_index s) (entries s) = Ok e ->
  name e <> ".."%string ->
  is_dir e = false ->
  current_path s = "RECENT_GAMES"%string \/ current_path s = "FAVORITES"%string ->
  ~ contains ";" core ->
  (String.length core <= 255)%nat ->
  (String.length file <= 255)%nat ->
  split_composite_key "Gambatte;SuperMario"
  = Some ("Gambatte"%string, "SuperMario"%string)
  /\ split_composite_key (String.append core (String ";" file))
     = Some (core, file)
  /\ (~ contains ";" (path e) ->
      handle_a V w sa s = Ok (Return, s)
      /\ forall b_too changed,
           handle_navigation V w sa
             (mkEdges false false false false false false true b_too)
             changed s = Ok s)
  /\ (forall dir,
        path e = String.append core (String ";" file) ->
        find_full_path core file
          (if strcmp_eq (current_path s) "RECENT_GAMES"
           then recent_games s else favorites s) = Some dir ->
        (String.length dir < 256)%nat ->
        handle_a V w sa s
        = Ok (Fallthrough, init_direct_loader w core dir file s)).
Proof.
  intros Hcount Hread Hname Hfile Hview Hcore Hlc Hlf.
  assert (Hsplit : split_composite_key (String.append core (String ";" file))
                   = Some (core, file)).
  { unfold split_composite_key, snprintf_buf.
    rewrite strchr_split_app by exact Hcore.
    rewrite !str_take_all by (simpl; lia). reflexivity. }
  split; [reflexivity|]. split; [exact Hsplit|].
  assert (Hnotparent : name_is ".." e = false)
    by (apply String.eqb_neq; exact Hname).
  assert (Hhead : handle_a V w sa s
                  = launch_composite w
                      (if strcmp_eq (current_path s) "RECENT_GAMES"
                       then recent_games s else favorites s) e s).
  { unfold handle_a. replace (entry_count s >? 0) with true by lia.
    rewrite Hread. cbn [bind]. rewrite Hnotparent, Hfile.
    unfold launch_file. destruct Hview as [-> | ->]; reflexivity. }
  split.
  - intros Hnone.
    assert (Hret : handle_a V w sa s = Ok (Return, s)).
    { rewrite Hhead. unfold launch_composite, split_composite_key.
      apply strchr_split_absent in Hnone. rewrite Hnone. reflexivity. }
    split; [exact Hret|]. intros b_too changed.
    unfold handle_navigation. cbn [e_right e_up e_down e_l e_r e_x e_a e_b bind].
    rewrite Hret. reflexivity.
  - rewrite Hhead. unfold launch_composite.
    intros dir Hpath Hfind Hlen. rewrite Hpath, Hsplit, Hfind.
    unfold strcpy_buf. replace (String.length dir <? 256)%nat with true by lia.
    reflexivity.
Qed.

Lemma C7_composite_key_witness :
  split_composite_key "Gambatte;SuperMario"
  = Some ("Gambatte"%string, "SuperMario"%string)
  /\ split_composite_key (String.append "Gambatte" (String ";" "SuperMario"))
     = Some ("Gambatte"%string, "SuperMario"%string)
  /\ (~ contains ";" (path (mkEntry "GambatteSuperMario" "Super Mario" false)) ->
      handle_a 8 demo_world false broken_recents_state
      = Ok (Return, broken_recents_state)
      /\ forall b_too changed,
           handle_navigation 8 demo_world false
             (mkEdges false false false false false false true b_too)
             changed broken_recents_state = Ok broken_recents_state)
  /\ (forall dir,
        path (mkEntry "GambatteSuperMario" "Super Mario" false)
        = String.append "Gambatte" (String ";" "SuperMario") ->
        find_full_path "Gambatte" "SuperMario"
          (if strcmp_eq (current_path broken_recents_state) "RECENT_GAMES"
           then recent_games broken_recents_state
           else favorites broken_recents_state) = Some dir ->
        (String.length dir < 256)%nat ->
        handle_a 8 demo_world false broken_recents_state
        = Ok (Fallthrough,
              init_direct_loader demo_world "Gambatte" dir "SuperMario"
                broken_recents_state)).
Proof.
  apply (C7_composite_key 8 demo_world false broken_recents_state
           (mkEntry "GambatteSuperMario" "Super Mario" false)
           "Gambatte" "SuperMario").
  - simpl. lia.
  - reflexivity.
  - discriminate.
  - reflexivity.
  - left. reflexivity.
  - unfold contains. simpl. intros H.
    repeat (destruct H as [H|H]; [discriminate H|]). exact H.
  - simpl. lia.
  - simpl. lia.
Defined.

(** ** Claims about leaving a directory *)

Lemma string_length_append (a b : string) :
  String.length (String.append a b) = (String.length a + String.length b)%nat.
Proof. induction a as [|c a IH]; simpl; [reflexivity | rewrite IH; reflexivity]. Qed.

Lemma path_join_fits (dir nm : string) :
  (String.length dir + 1 + String.length nm <= 511)%nat ->
  path_join dir nm = String.append dir (String "/" nm).
Proof.
  intros Hlen. unfold path_join, snprintf_buf, MAX_PATH_LEN.
  apply str_take_all. rewrite string_length_append. simpl. lia.
Qed.

Section ViewportFacts.

Variable V : Z.

(** Rendering twice is rendering once. *)
Lemma render_menu_viewport_idempotent (s : State) :
  1 <= V ->
  INT_MIN <= selected_index s < INT_MAX ->
  INT_MIN <= scroll_offset s -> scroll_offset s + V <= INT_MAX ->
  render_menu_viewport V (render_menu_viewport V s) = render_menu_viewport V s.
Proof.
  intros HV Hsel Hlo Hhi. unfold render_menu_viewport.
  repeat (break_if; simpl in *; unwrap); try reflexivity; exfalso; lia.
Qed.

(** Against a name of fewer than 255 bytes the comparison ends before
    [name\[255\]]. *)
Lemma name_equals_terminated (X : string) (e : MenuEntry) :
  (String.length X < 255)%nat -> name_equals X e = Ok (name_is X e).
Proof.
  intros HX. unfold name_equals.
  destruct (255 <=? String.length (name e))%nat eqn:Hlong; [|reflexivity].
  replace (strcmp_eq (str_take 255 (name e)) X) with false; [reflexivity|].
  symmetry. apply String.eqb_neq. intros Heq.
  pose proof (str_take_length_exact 255 (name e) ltac:(lia)) as Hlen.
  rewrite Heq in Hlen. lia.
Qed.

Lemma find_index_read_terminated (X : string) (i : Z) (l : list MenuEntry) :
  (String.length X < 255)%nat ->
  find_index_read (name_equals X) i l = Ok (find_index (name_is X) i l).
Proof.
  intros HX. revert i. induction l as [|e r IH]; intros i; [reflexivity|].
  cbn [find_index_read find_index].
  rewrite name_equals_terminated by exact HX. cbn [bind].
  destruct (name_is X e); [reflexivity | apply IH].
Qed.

(** A listed name of 255 bytes has no terminator: the loop that looks
    for it reads [name\[255\]], which nothing has written. *)
Lemma find_index_read_unterminated (X : string) (i : Z) (l : list MenuEntry) :
  String.length X = 255%nat ->
  (exists e, e ∈ l /\ name e = X) ->
  find_index_read (name_equals X) i l = Undefined Uninitialised.
Proof.
  intros HX. revert i. induction l as [|e r IH]; intros i [e0 [Hin Hname]].
  - apply elem_of_nil in Hin. destruct Hin.
  - cbn [find_index_read]. unfold name_equals at 1.
    destruct ((255 <=? String.length (name e))%nat
              && strcmp_eq (str_take 255 (name e)) X) eqn:Hunset;
      [reflexivity|].
    cbn [bind].
    assert (Hmiss : name_is X e = false).
    { apply not_true_is_false. intros Hhit.
      apply String.eqb_eq in Hhit.
      rewrite Hhit, str_take_all, HX in Hunset by lia.
      unfold strcmp_eq in Hunset. rewrite String.eqb_refl in Hunset.
      discriminate. }
    rewrite Hmiss. apply IH.
    apply elem_of_cons in Hin. destruct Hin as [-> | Hin].
    + unfold name_is, strcmp_eq in Hmiss. rewrite Hname, String.eqb_refl in Hmiss.
      discriminate.
    + exists e0. split; assumption.
Qed.

(** Ascending from [parent/X]: the parent is scanned again and, if a
    row named [X] is in its listing, the first such row is selected and
    inside the window. *)
Lemma go_to_parent_restores (w : World) (parent X : string) (s : State) :
  alloc_ok w ->
  1 <= V <= INT_MAX ->
  directory_fits w parent ->
  entries_capacity s <= CAPACITY_LIMIT ->
  parent <> EmptyString ->
  ~ contains "/" X ->
  (String.length X < 255)%nat ->
  (String.length parent + 1 + String.length X <= 511)%nat ->
  current_path s = path_join parent X ->
  exists s',
    go_to_parent V w s = Ok s'
    /\ current_path s' = parent
    /\ listing s'
       = scan_listing w parent (hide_empty_folders s) (effective_cache w s)
    /\ entries_capacity s' <= CAPACITY_LIMIT
    /\ forall e, e ∈ listing s' -> name e = X ->
         first_match (name_is X) (listing s') (selected_index s')
         /\ viewport_ok V s'.
Proof.
  intros Halloc HV Hfit Hcap Hparent HX HlenX Hlen Hpath.
  unfold go_to_parent.
  rewrite Hpath, path_join_fits, strrchr_split_app by assumption.
  destruct parent as [|p0 parent']; [congruence|].
  cbn [is_empty_string].
  set (parent := String p0 parent') in *.
  assert (Hprev : strncpy_buf 256 X = X)
    by (apply str_take_all; simpl; lia).
  rewrite Hprev.
  destruct (scan_directory_holds w parent (set_current_path parent s))
    as (s0 & spare & Hrun & Hh & Hcap0 & Hss & Hec); try assumption.
  change (current_path (set_current_path parent s)) with parent.
  rewrite Hrun. cbn [bind].
  pose proof (listing_holds _ _ _ Hh) as Hl.
  change (hide_empty_folders (set_current_path parent s))
    with (hide_empty_folders s) in Hl.
  rewrite (effective_cache_ext w (set_current_path parent s) s) in Hl
    by reflexivity.
  destruct Hss as (Hsel & Hscr & Hcur & _).
  cbn in Hsel, Hscr, Hcur.
  pose proof (listing_length_le s0) as Hll.
  unfold restore_by_name.
  rewrite find_index_read_terminated by exact HlenX. cbn [bind].
  pose proof (find_index_first (name_is X) (listing s0) 0 (Z.le_refl 0)) as Hfirst.
  assert (Hbound : 0 + Z.of_nat (length (listing s0)) <= INT_MAX)
    by (unfold CAPACITY_LIMIT, INT_MAX in *; lia).
  specialize (Hfirst Hbound).
  destruct (find_index (name_is X) 0 (listing s0)) as [i|] eqn:Hfind.
  - destruct Hfirst as [Hi Hfirst]. rewrite Z.sub_0_r in Hfirst.
    set (s1 := set_selected_index i s0).
    destruct (render_menu_viewport_keeps V s1) as (Ksel & Kcur & Klist & Kent).
    exists (render_menu_viewport V s1).
    split; [reflexivity|]. split; [rewrite Kcur; exact Hcur|].
    split; [rewrite Klist; exact Hl|].
    split; [unfold entries_capacity; rewrite Kent; exact Hcap0|].
    intros e He Hname. rewrite Klist, Ksel. split; [exact Hfirst|].
    assert (Hi_hi : i < Z.of_nat (length (listing s0))).
    { destruct Hfirst as (_ & (e' & He' & _) & _).
      apply lookup_lt_Some in He'. change (listing s1) with (listing s0) in He'.
      lia. }
    apply render_menu_viewport_ok; unfold s1; cbn;
      rewrite ?Hscr; unfold CAPACITY_LIMIT, INT_MIN, INT_MAX in *; lia.
  - exists s0. split; [reflexivity|]. split; [exact Hcur|].
    split; [exact Hl|]. split; [exact Hcap0|].
    intros e He Hname. exfalso.
    specialize (Hfirst e He). unfold name_is, strcmp_eq in Hfirst.
    rewrite Hname, String.eqb_refl in Hfirst. discriminate.
Qed.

(** The restore loop on a name of 255 bytes that is listed: the
    comparison reads the byte that nothing has written. *)
Lemma restore_by_name_unterminated (X : string) (s : State) :
  String.length X = 255%nat ->
  (exists e, e ∈ listing s /\ name e = X) ->
  restore_by_name V X s = Undefined Uninitialised.
Proof.
  intros HX Hlisted. unfold restore_by_name.
  rewrite find_index_read_unterminated by assumption. reflexivity.
Qed.

End ViewportFacts.

Lemma slash_path_is_no_tag (p tag parent X : string) :
  strrchr_split "/" p = Some (parent, X) ->
  strrchr_split "/" tag = None ->
  strcmp_eq p tag = false.
Proof.
  intros Hp Htag. apply String.eqb_neq. intros ->. congruence.
Qed.

(** A directory entry [X] that passes the filters is listed under its
    own name with the path [parent/X]. *)
Lemma scan_row_shape (w : World) (parent X : string) (is_root hide : bool)
  (cache : list string) (t : d_type_t) (e : MenuEntry) :
  (String.length X <= 255)%nat ->
  (String.length parent + 1 + String.length X <= 511)%nat ->
  scan_row w parent is_root hide cache (mkDirent X t) = Some e ->
  name e = X /\ path e = path_join parent X.
Proof.
  intros HlenX Hlen. unfold scan_row. cbn [d_name d_type].
  assert (HX : strncpy_buf 256 X = X) by (apply str_take_all; simpl; lia).
  rewrite !HX.
  assert (Hp : strncpy_buf 512 (path_join parent X) = path_join parent X).
  { apply str_take_all. rewrite path_join_fits by assumption.
    rewrite string_length_append. simpl. lia. }
  rewrite Hp.
  repeat break_if; intros [= <-]; split; reflexivity.
Qed.

(** C5. Confirming the directory row [X] of the listing of [parent]
    enters [parent/X]. From any state of that view, confirming the ".."
    row, or pressing back when the view is not the root collection,
    returns to [parent], whose listing is scanned again; if a row named
    [X] is in that listing, the first such row is selected and lies
    inside the window. The name [X] has fewer than 255 bytes, so that
    the row that bears it is terminated in the store. *)
Theorem C5_ascend_restores_selection (V : Z) (w w' : World) (sa sa' : bool)
  (parent X : string) (s_parent : State) (row_X : MenuEntry) :
  alloc_ok w -> alloc_ok w' ->
  1 <= V <= INT_MAX ->
  directory_fits w (path_join parent X) ->
  directory_fits w' parent ->
  parent <> EmptyString ->
  ~ contains "/" X ->
  X <> ".."%string ->
  (String.length X < 255)%nat ->
  (String.length parent + 1 + String.length X <= 511)%nat ->
  entries_capacity s_parent <= CAPACITY_LIMIT ->
  0 < entry_count s_parent ->
  read_cell (selected_index s_parent) (entries s_parent) = Ok row_X ->
  name row_X = X ->
  is_dir row_X = true ->
  path row_X = path_join parent X ->
  exists s_child,
    handle_a V w sa s_parent = Ok (Fallthrough, s_child)
    /\ current_path s_child = path_join parent X
    /\ forall s,
         current_path s = current_path s_child ->
         entries_capacity s <= CAPACITY_LIMIT ->
         exists s',
           (forall e,
              0 < entry_count s ->
              read_cell (selected_index s) (entries s) = Ok e ->
              name e = ".."%string ->
              handle_a V w' sa' s = Ok (Fallthrough, s'))
           /\ (path_join parent X <> ROMS_PATH -> handle_b V w' s = Ok s')
           /\ current_path s' = parent
           /\ listing s'
              = scan_listing w' parent (hide_empty_folders s)
                  (effective_cache w' s)
           /\ forall e, e ∈ listing s' -> name e = X ->
                first_match (name_is X) (listing s') (selected_index s')
                /\ viewport_ok V s'.
Proof.
  intros Halloc Halloc' HV Hfit Hfit' Hparent HX Hdots HlenX Hlen
    Hcap Hcount Hread Hname Hdir Hpath.
  assert (Hsplit : strrchr_split "/" (path_join parent X) = Some (parent, X))
    by (rewrite path_join_fits by assumption; apply strrchr_split_app, HX).
  assert (Hfits : strncpy_buf 512 (path_join parent X) = path_join parent X).
  { apply str_take_all. rewrite path_join_fits by assumption.
    rewrite string_length_append. simpl. lia. }
  assert (Htag : forall tag, strrchr_split "/" tag = None ->
                             strcmp_eq (path_join parent X) tag = false)
    by (intros tag; apply slash_path_is_no_tag with (1 := Hsplit)).
  (* entering X *)
  destruct (scan_directory_holds w (path_join parent X)
              (set_current_path (path_join parent X) s_parent))
    as (s_child & spare & Hrun & Hh & Hcapc & Hss & _); try assumption.
  assert (Hcur : current_path s_child = path_join parent X) by apply Hss.
  exists s_child. split; [|split; [exact Hcur|]].
  { unfold handle_a. replace (entry_count s_parent >? 0) with true by lia.
    rewrite Hread. cbn [bind].
    unfold name_is, strcmp_eq. rewrite Hname.
    replace (String.eqb X "..") with false
      by (symmetry; apply String.eqb_neq; exact Hdots).
    rewrite Hdir. unfold enter_directory, path_is. rewrite Hpath.
    rewrite !Htag by reflexivity. rewrite Hfits.
    change (current_path (set_current_path (path_join parent X) s_parent))
      with (path_join parent X).
    unfold pair_with. rewrite Hrun. reflexivity. }
  (* leaving X *)
  intros s Hs Hcaps. rewrite Hcur in Hs.
  destruct (go_to_parent_restores V w' parent X s)
    as (s' & Hgo & Hcur' & Hl' & _ & Hrestore); try assumption.
  exists s'. split; [|split; [|split; [exact Hcur'|split; [exact Hl'|exact Hrestore]]]].
  - intros e Hn Hr He. unfold handle_a.
    replace (entry_count s >? 0) with true by lia.
    rewrite Hr. cbn [bind]. unfold name_is, strcmp_eq. rewrite He.
    cbn [String.eqb Ascii.eqb Bool.eqb]. unfold pair_with. rewrite Hgo.
    reflexivity.
  - intros Hroot. unfold handle_b. rewrite Hs.
    rewrite !Htag by reflexivity.
    replace (strcmp_eq (path_join parent X) ROMS_PATH) with false
      by (symmetry; apply String.eqb_neq; exact Hroot).
    cbn [negb]. exact Hgo.
Qed.

Lemma C5_ascend_restores_selection_witness :
  exists s_child,
    handle_a 8 demo_world false demo_root_state = Ok (Fallthrough, s_child)
    /\ current_path s_child = path_join ROMS_PATH "gb"
    /\ forall s,
         current_path s = current_path s_child ->
         entries_capacity s <= CAPACITY_LIMIT ->
         exists s',
           (forall e,
              0 < entry_count s ->
              read_cell (selected_index s) (entries s) = Ok e ->
              name e = ".."%string ->
              handle_a 8 demo_world false s = Ok (Fallthrough, s'))
           /\ (path_join ROMS_PATH "gb" <> ROMS_PATH ->
               handle_b 8 demo_world s = Ok s')
           /\ current_path s' = ROMS_PATH
           /\ listing s'
              = scan_listing demo_world ROMS_PATH (hide_empty_folders s)
                  (effective_cache demo_world s)
           /\ forall e, e ∈ listing s' -> name e = "gb"%string ->
                first_match (name_is "gb") (listing s') (selected_index s')
                /\ viewport_ok 8 s'.
Proof.
  apply (C5_ascend_restores_selection 8 demo_world demo_world false false
           ROMS_PATH "gb" demo_root_state
           (mkEntry "/mnt/sda1/ROMS/gb" "gb" true)).
  - intros n. reflexivity.
  - intros n. reflexivity.
  - unfold INT_MAX. lia.
  - apply demo_world_fits.
  - apply demo_world_fits.
  - discriminate.
  - unfold contains. simpl. intros H.
    repeat (destruct H as [H|H]; [discriminate H|]). exact H.
  - discriminate.
  - simpl. lia.
  - simpl. lia.
  - unfold entries_capacity, CAPACITY_LIMIT. vm_compute. discriminate.
  - vm_compute. reflexivity.
  - vm_compute. reflexivity.
  - reflexivity.
  - reflexivity.
  - reflexivity.
Defined.

(** ** Worked examples on [demo_world] *)

(** The root collection: synthetic rows around the sorted folders, the
    reserved and the empty folder left out. *)
Example demo_root_screen :
  screen_of (scan_directory demo_world ROMS_PATH blank_state)
  = Some (["Recent games"; "Favorites"; "Random game"; "gb"; "snes"; "Tools"]%string,
          0, ROMS_PATH).
Proof. vm_compute. reflexivity. Qed.

(** Inside "gb": the parent marker sorts first. *)
Example demo_gb_screen :
  screen_of (Ok demo_gb_state)
  = Some ([".."; "Tetris.gb"; "Zelda.gb"; "hacks"]%string, 0,
          "/mnt/sda1/ROMS/gb"%string).
Proof. vm_compute. reflexivity. Qed.

(** Back from "gb" by either button: the row "gb" is selected again. *)
Example demo_back_to_root :
  screen_of (handle_b 8 demo_world demo_gb_state)
  = Some (["Recent games"; "Favorites"; "Random game"; "gb"; "snes"; "Tools"]%string,
          3, ROMS_PATH)
  /\ screen_of (after (handle_a 8 demo_world false demo_gb_state))
     = screen_of (handle_b 8 demo_world demo_gb_state).
Proof. split; vm_compute; reflexivity. Qed.

(** Confirming a game queues it for the loader. *)
Example demo_launch_tetris :
  match handle_a 8 demo_world false (set_selected_index 1 demo_gb_state) with
  | Ok (Fallthrough, s) =>
      game_queued s = true
      /\ run_game_file s = "gb;gb;Tetris.gb.gba"%string
      /\ run_game_name s = "Tetris"%string
  | _ => False
  end.
Proof. vm_compute. repeat split. Qed.

(** With fewer than seven rows the page-up block leaves the list. *)
Example page_up_on_three_rows :
  selected_index (handle_l (store_of 3 0 0)) = -4.
Proof. reflexivity. Qed.

(** ** The cache file: facts *)

Lemma not_contains_cons (c a : ascii) (s : string) :
  ~ contains c (String a s) -> a <> c /\ ~ contains c s.
Proof.
  unfold contains. simpl. intros H. split; intros H'; apply H; auto.
Qed.

Lemma fgets_line (n : nat) (d rest : string) :
  ~ contains newline d -> (String.length d < n)%nat ->
  fgets n (String.append d (String newline rest))
  = (String.append d (String newline EmptyString), rest).
Proof.
  revert n. induction d as [|c d IH]; intros n Hd Hn.
  - destruct n as [|n]; [simpl in Hn; lia|]. reflexivity.
  - destruct n as [|n]; [simpl in Hn; lia|].
    apply not_contains_cons in Hd. destruct Hd as [Hc Hd].
    simpl. destruct (Ascii.eqb_spec c newline) as [E|_]; [contradiction|].
    rewrite IH; [reflexivity | exact Hd | simpl in Hn; lia].
Qed.

Lemma fgets_full (d rest : string) :
  ~ contains newline d ->
  fgets (String.length d) (String.append d rest) = (d, rest).
Proof.
  induction d as [|c d IH]; intros Hd.
  - reflexivity.
  - apply not_contains_cons in Hd. destruct Hd as [Hc Hd].
    simpl. destruct (Ascii.eqb_spec c newline) as [E|_]; [contradiction|].
    rewrite IH by exact Hd. reflexivity.
Qed.

Lemma chomp_line (d : string) :
  chomp (String.append d (String newline EmptyString)) = d.
Proof.
  induction d as [|c d IH]; [reflexivity|].
  simpl. rewrite IH. destruct d; reflexivity.
Qed.

Lemma chomp_clean (d : string) : ~ contains newline d -> chomp d = d.
Proof.
  induction d as [|c d IH]; intros Hd; [reflexivity|].
  apply not_contains_cons in Hd. destruct Hd as [Hc Hd].
  simpl. rewrite IH by exact Hd.
  destruct d; [|reflexivity].
  destruct (Ascii.eqb_spec c newline); [contradiction | reflexivity].
Qed.

Lemma str_take_length (n : nat) (s : string) :
  (String.length (str_take n s) <= n)%nat.
Proof.
  revert s. induction n as [|n IH]; intros [|c r]; simpl; try lia.
  specialize (IH r). lia.
Qed.

Lemma str_take_contains (c : ascii) (n : nat) (s : string) :
  contains c (str_take n s) -> contains c s.
Proof.
  unfold contains.
  revert s. induction n as [|n IH]; intros [|a r]; simpl; try tauto.
  intros [H|H]; [left; exact H|]. right. apply (IH r). exact H.
Qed.

Lemma str_take_idem (n : nat) (s : string) :
  str_take n (str_take n s) = str_take n s.
Proof. apply str_take_all, str_take_length. Qed.

Lemma str_take_nonempty (n : nat) (s : string) :
  s <> EmptyString -> str_take (S n) s <> EmptyString.
Proof. destruct s; [congruence | discriminate]. Qed.

Lemma is_empty_string_false (s : string) :
  s <> EmptyString -> is_empty_string s = false.
Proof. destruct s; [congruence | reflexivity]. Qed.

(** Reading back the text that [rebuild_empty_dirs_cache] prints. *)
Lemma read_cache_text (dirs : list string) :
  Forall (fun d => line_safe d /\ (String.length d <= 63)%nat) dirs ->
  forall (fuel : nat) (acc : list string),
    (length acc + length dirs <= MAX_EMPTY_DIRS)%nat ->
    (String.length (cache_text dirs) < fuel)%nat ->
    read_cache_lines fuel (cache_text dirs) acc = acc ++ dirs.
Proof.
  induction 1 as [|d dirs [[Hne Hnl] Hlen] _ IH]; intros fuel acc Hcount Hfuel.
  - destruct fuel as [|fuel]; [simpl in Hfuel; lia|].
    simpl. rewrite app_nil_r. reflexivity.
  - destruct fuel as [|fuel]; [simpl in Hfuel; lia|].
    cbn [cache_text] in *. rewrite string_length_append in Hfuel.
    simpl String.length in Hfuel. simpl length in Hcount.
    cbn [read_cache_lines].
    assert (Hnonempty : is_empty_string
              (String.append d (String newline (cache_text dirs))) = false).
    { destruct d; [congruence | reflexivity]. }
    rewrite Hnonempty.
    assert (Hkeep : strncpy_buf 64 d = d)
      by (apply str_take_all; simpl; lia).
    destruct (Nat.eq_dec (String.length d) 63%nat) as [E|E].
    + (* the line fills the buffer: its line break is read on its own *)
      replace 63%nat with (String.length d) at 1.
      rewrite fgets_full by exact Hnl.
      replace (length acc <? MAX_EMPTY_DIRS)%nat with true
        by (unfold MAX_EMPTY_DIRS in *; lia).
      rewrite chomp_clean by exact Hnl.
      rewrite is_empty_string_false by exact Hne. rewrite Hkeep.
      destruct fuel as [|fuel]; [lia|].
      cbn [read_cache_lines is_empty_string].
      change (fgets 63 (String newline (cache_text dirs)))
        with (String newline EmptyString, cache_text dirs).
      destruct (Nat.ltb_spec (length (acc ++ [d])) MAX_EMPTY_DIRS) as [Hlt|Hge].
      * cbn [chomp]. rewrite Ascii.eqb_refl. cbn [is_empty_string].
        rewrite IH; [rewrite <- app_assoc; reflexivity | |lia].
        rewrite length_app. simpl. lia.
      * rewrite length_app in Hge. simpl in Hge.
        destruct dirs; [reflexivity|].
        simpl in Hcount. unfold MAX_EMPTY_DIRS in *. lia.
    + rewrite fgets_line by (try exact Hnl; lia).
      replace (length acc <? MAX_EMPTY_DIRS)%nat with true
        by (unfold MAX_EMPTY_DIRS in *; lia).
      rewrite chomp_line, is_empty_string_false by exact Hne. rewrite Hkeep.
      rewrite IH; [rewrite <- app_assoc; reflexivity | |lia].
      rewrite length_app. simpl. lia.
Qed.

Lemma rebuild_loop_bounded (w : World) (ents : list dirent) (acc : list string) :
  (length acc <= MAX_EMPTY_DIRS)%nat ->
  Forall (fun d => (String.length d <= 63)%nat) acc ->
  (length (rebuild_loop w ents acc) <= MAX_EMPTY_DIRS)%nat
  /\ Forall (fun d => (String.length d <= 63)%nat) (rebuild_loop w ents acc).
Proof.
  revert acc. induction ents as [|ent ents IH]; intros acc Hn Hall; [auto|].
  cbn [rebuild_loop].
  destruct (Nat.ltb_spec (length acc) MAX_EMPTY_DIRS) as [Hlt|]; [|auto].
  destruct (is_hidden (d_name ent)); [auto|].
  destruct (is_reserved (d_name ent)); [auto|].
  destruct (d_type ent); auto.
  destruct (opendir w _); [|auto].
  destruct (existsb _ _); [auto|].
  apply IH.
  - rewrite length_app. simpl. lia.
  - apply Forall_app. split; [exact Hall|].
    constructor; [|constructor]. apply str_take_length.
Qed.

Lemma read_cache_lines_bounded (fuel : nat) (rest : string) (acc : list string) :
  (length acc <= MAX_EMPTY_DIRS)%nat ->
  Forall (fun d => (String.length d <= 63)%nat) acc ->
  (length (read_cache_lines fuel rest acc) <= MAX_EMPTY_DIRS)%nat
  /\ Forall (fun d => (String.length d <= 63)%nat)
       (read_cache_lines fuel rest acc).
Proof.
  revert rest acc. induction fuel as [|fuel IH]; intros rest acc Hn Hall; [auto|].
  cbn [read_cache_lines].
  destruct (is_empty_string rest); [auto|].
  destruct (fgets 63 rest) as [line rest'].
  destruct (Nat.ltb_spec (length acc) MAX_EMPTY_DIRS) as [Hlt|]; [|auto].
  destruct (is_empty_string (chomp line)); [auto|].
  apply IH.
  - rewrite length_app. simpl. lia.
  - apply Forall_app. split; [exact Hall|].
    constructor; [|constructor]. apply str_take_length.
Qed.

(** Every name that the rebuild loop adds belongs to a folder of the
    root that it found empty. *)
Lemma rebuild_loop_sound (w : World) (ents : list dirent) (acc : list string)
  (d : string) :
  In d (rebuild_loop w ents acc) ->
  In d acc
  \/ exists ent, In ent ents
       /\ d = strncpy_buf 64 (d_name ent)
       /\ is_hidden (d_name ent) = false
       /\ is_reserved (d_name ent) = false
       /\ d_type ent = DT_DIR
       /\ looks_empty w (d_name ent) = true.
Proof.
  revert acc. induction ents as [|ent ents IH]; intros acc Hd; [left; exact Hd|].
  cbn [rebuild_loop] in Hd.
  assert (Hrest : forall acc', In d (rebuild_loop w ents acc') ->
            (In d acc' -> In d acc
               \/ exists ent0, In ent0 (ent :: ents)
                    /\ d = strncpy_buf 64 (d_name ent0)
                    /\ is_hidden (d_name ent0) = false
                    /\ is_reserved (d_name ent0) = false
                    /\ d_type ent0 = DT_DIR
                    /\ looks_empty w (d_name ent0) = true) ->
            In d acc
            \/ exists ent0, In ent0 (ent :: ents)
                 /\ d = strncpy_buf 64 (d_name ent0)
                 /\ is_hidden (d_name ent0) = false
                 /\ is_reserved (d_name ent0) = false
                 /\ d_type ent0 = DT_DIR
                 /\ looks_empty w (d_name ent0) = true).
  { intros acc' H Hacc. destruct (IH acc' H) as [Hin|(e & He & Hrest)].
    - apply Hacc, Hin.
    - right. exists e. split; [right; exact He | exact Hrest]. }
  destruct (length acc <? MAX_EMPTY_DIRS)%nat; [|left; exact Hd].
  destruct (is_hidden (d_name ent)) eqn:Hh; [apply (Hrest acc Hd); auto|].
  destruct (is_reserved (d_name ent)) eqn:Hr; [apply (Hrest acc Hd); auto|].
  destruct (d_type ent) eqn:Ht; try (apply (Hrest acc Hd); auto).
  destruct (opendir w (path_join ROMS_PATH (strncpy_buf 64 (d_name ent))))
    as [subs|] eqn:Ho; [|apply (Hrest acc Hd); auto].
  destruct (existsb (fun sub => negb (is_hidden (d_name sub))) subs) eqn:Hc;
    [apply (Hrest acc Hd); auto|].
  apply (Hrest _ Hd). intros Hin. apply in_app_or in Hin.
  destruct Hin as [Hin|[Hin|[]]]; [left; exact Hin|].
  right. exists ent. split; [left; reflexivity|].
  split; [rewrite <- Hin; apply str_take_idem|].
  repeat split; try assumption.
  unfold looks_empty. rewrite Ho, Hc. reflexivity.
Qed.

Lemma rebuild_loop_keeps (w : World) (ents : list dirent) (acc : list string)
  (d : string) :
  In d acc -> In d (rebuild_loop w ents acc).
Proof.
  revert acc. induction ents as [|ent ents IH]; intros acc Hd; [exact Hd|].
  cbn [rebuild_loop].
  destruct (length acc <? MAX_EMPTY_DIRS)%nat; [|exact Hd].
  destruct (is_hidden (d_name ent)); [auto|].
  destruct (is_reserved (d_name ent)); [auto|].
  destruct (d_type ent); auto.
  destruct (opendir w _); [|auto].
  destruct (existsb _ _); [auto|].
  apply IH, in_or_app. left. exact Hd.
Qed.

(** As long as the array has room, every empty folder is cached. *)
Lemma rebuild_loop_complete (w : World) (ents : list dirent) (acc : list string)
  (ent : dirent) :
  (length acc + length ents <= MAX_EMPTY_DIRS)%nat ->
  In ent ents ->
  is_hidden (d_name ent) = false ->
  is_reserved (d_name ent) = false ->
  d_type ent = DT_DIR ->
  looks_empty w (d_name ent) = true ->
  In (strncpy_buf 64 (d_name ent)) (rebuild_loop w ents acc).
Proof.
  intros Hroom Hin Hh Hr Ht He.
  revert acc Hroom. induction ents as [|e ents IH]; intros acc Hroom; [destruct Hin|].
  cbn [rebuild_loop]. simpl length in Hroom.
  replace (length acc <? MAX_EMPTY_DIRS)%nat with true by lia.
  destruct Hin as [->|Hin].
  - rewrite Hh, Hr, Ht. unfold looks_empty in He.
    destruct (opendir w (path_join ROMS_PATH (strncpy_buf 64 (d_name ent))))
      as [subs|]; [|discriminate].
    destruct (existsb (fun sub => negb (is_hidden (d_name sub))) subs);
      [discriminate|].
    apply rebuild_loop_keeps, in_or_app. right. left. apply str_take_idem.
  - assert (Hnext : forall acc', (length acc' <= S (length acc))%nat ->
              In (strncpy_buf 64 (d_name ent)) (rebuild_loop w ents acc')).
    { intros acc' Hlen. apply IH; [exact Hin | lia]. }
    destruct (is_hidden (d_name e)); [apply Hnext; lia|].
    destruct (is_reserved (d_name e)); [apply Hnext; lia|].
    destruct (d_type e); try (apply Hnext; lia).
    destruct (opendir w _); [|apply Hnext; lia].
    destruct (existsb _ _); [apply Hnext; lia|].
    apply Hnext. rewrite length_app. simpl. lia.
Qed.

Lemma rebuild_loop_lines (w : World) (ents : list dirent) (acc : list string) :
  (forall ent, In ent ents -> line_safe (d_name ent)) ->
  Forall (fun d => line_safe d /\ (String.length d <= 63)%nat) acc ->
  Forall (fun d => line_safe d /\ (String.length d <= 63)%nat)
    (rebuild_loop w ents acc).
Proof.
  intros Hsafe Hacc. apply Forall_forall. intros d Hd.
  destruct (rebuild_loop_sound w ents acc d) as [Hin|(ent & Hin & -> & _)].
  - apply list_elem_of_In. exact Hd.
  - rewrite Forall_forall in Hacc. apply Hacc, list_elem_of_In, Hin.
  - destruct (Hsafe ent Hin) as [Hne Hnl]. split; [split|].
    + apply str_take_nonempty, Hne.
    + intros Hc. apply Hnl. exact (str_take_contains _ _ _ Hc).
    + apply str_take_length.
Qed.

(** X1. The cache file round trip: the text that a rebuild writes is
    read back, by a later load in any world, as exactly the names the
    rebuild cached, provided no folder of the root has an empty name
    or a line break in its name. *)
Theorem cache_file_round_trip (w w' : World) (s s' : State)
  (ents : list dirent) :
  opendir w ROMS_PATH = Some ents ->
  cache_file_writable w = true ->
  (forall ent, In ent ents -> line_safe (d_name ent)) ->
  empty_dirs_loaded s' = false ->
  cache_file s' = cache_file (rebuild_empty_dirs_cache w s) ->
  cache_file (rebuild_empty_dirs_cache w s)
  = Some (cache_text (empty_dirs (rebuild_empty_dirs_cache w s)))
  /\ empty_dirs (load_empty_dirs_cache w' s')
     = empty_dirs (rebuild_empty_dirs_cache w s).
Proof.
  intros Hopen Hwrite Hsafe Hfresh Hfile.
  unfold rebuild_empty_dirs_cache in *. rewrite Hopen, Hwrite in *.
  cbn [cache_file set_cache_file empty_dirs set_empty_dirs] in *.
  split; [reflexivity|].
  unfold load_empty_dirs_cache. rewrite Hfresh.
  cbn [cache_file set_empty_dirs set_empty_dirs_loaded]. rewrite Hfile.
  cbn [empty_dirs set_empty_dirs].
  rewrite read_cache_text; [reflexivity | | | lia].
  - apply rebuild_loop_lines; [exact Hsafe | constructor].
  - simpl length at 1.
    destruct (rebuild_loop_bounded w ents []) as [Hn _];
      [simpl; unfold MAX_EMPTY_DIRS; lia | constructor | exact Hn].
Qed.
Lemma rebuild_bounded (w : World) (s : State) :
  cache_bounded (rebuild_empty_dirs_cache w s).
Proof.
  unfold cache_bounded, rebuild_empty_dirs_cache.
  destruct (opendir w ROMS_PATH) as [ents|].
  - assert (H : (length (rebuild_loop w ents []) <= MAX_EMPTY_DIRS)%nat
                /\ Forall (fun d => (String.length d <= 63)%nat)
                     (rebuild_loop w ents []))
      by (apply rebuild_loop_bounded;
          [simpl; unfold MAX_EMPTY_DIRS; lia | constructor]).
    destruct (cache_file_writable w); exact H.
  - simpl. split; [unfold MAX_EMPTY_DIRS; lia | constructor].
Qed.

(** X2. The cache never outgrows [empty_dirs\[256\]\[64\]]: whatever the
    cache file holds and whatever the card looks like, a load or a
    rebuild leaves at most 256 names of at most 63 characters. *)
Theorem cache_stays_in_its_array (w : World) (s : State) :
  cache_bounded s ->
  cache_bounded (load_empty_dirs_cache w s)
  /\ cache_bounded (rebuild_empty_dirs_cache w s).
Proof.
  intros Hs. split; [|apply rebuild_bounded].
  unfold load_empty_dirs_cache.
  destruct (empty_dirs_loaded s); [exact Hs|].
  cbn [cache_file set_empty_dirs set_empty_dirs_loaded].
  destruct (cache_file s) as [text|]; [|apply rebuild_bounded].
  unfold cache_bounded. cbn [empty_dirs set_empty_dirs].
  apply read_cache_lines_bounded;
    [simpl; unfold MAX_EMPTY_DIRS; lia | constructor].
Qed.

Lemma cache_stays_in_its_array_witness :
  cache_bounded (load_empty_dirs_cache demo_world blank_state)
  /\ cache_bounded (rebuild_empty_dirs_cache demo_world blank_state).
Proof.
  apply (cache_stays_in_its_array demo_world blank_state).
  split; [simpl; unfold MAX_EMPTY_DIRS; lia | constructor].
Defined.

Lemma first_run_cache (w : World) (s : State) (ents : list dirent) :
  first_run s ->
  opendir w ROMS_PATH = Some ents ->
  effective_cache w s = rebuild_loop w ents [].
Proof.
  intros (_ & Hfresh & Hfile) Hopen.
  unfold effective_cache, load_empty_dirs_cache. rewrite Hfresh.
  cbn [cache_file set_empty_dirs set_empty_dirs_loaded]. rewrite Hfile.
  unfold rebuild_empty_dirs_cache. rewrite Hopen.
  destruct (cache_file_writable w); reflexivity.
Qed.

Lemma same_name_same_entry (ents : list dirent) (x y : dirent) :
  NoDup (map d_name ents) -> In x ents -> In y ents ->
  d_name x = d_name y -> x = y.
Proof.
  induction ents as [|e ents IH]; intros Hnd Hx Hy Heq; [destruct Hx|].
  simpl in Hnd. apply NoDup_cons in Hnd. destruct Hnd as [Hnotin Hnd].
  destruct Hx as [->|Hx], Hy as [->|Hy].
  - reflexivity.
  - exfalso. apply Hnotin. rewrite Heq. apply list_elem_of_In, in_map, Hy.
  - exfalso. apply Hnotin. rewrite <- Heq. apply list_elem_of_In, in_map, Hx.
  - apply IH; assumption.
Qed.

Lemma root_path_fits (nm : string) :
  (String.length nm <= 255)%nat ->
  path_join ROMS_PATH nm = String.append ROMS_PREFIX nm.
Proof.
  intros Hlen. rewrite path_join_fits by (simpl; lia). reflexivity.
Qed.

Lemma root_listing (w : World) (s : State) (ents : list dirent) :
  alloc_ok w ->
  entries_capacity s <= CAPACITY_LIMIT ->
  opendir w ROMS_PATH = Some ents ->
  Z.of_nat (length ents) <= DIRECTORY_LIMIT ->
  exists s1,
    scan_directory w ROMS_PATH s = Ok s1
    /\ listing s1
       = [recent_row; favorites_row; random_row]
           ++ sort_entries
                (scan_rows w ROMS_PATH true (hide_empty_folders s)
                   (effective_cache w s) ents)
           ++ [tools_row]
    /\ entries_capacity s1 <= CAPACITY_LIMIT
    /\ populates w (reset_navigation_state s) s1.
Proof.
  intros Halloc Hcap Hopen Hfits.
  destruct (scan_directory_holds w ROMS_PATH s Halloc Hcap)
    as (s1 & spare & Hscan & Hholds & Hcap1 & Hpop).
  { intros ents' H. rewrite Hopen in H. injection H as <-. exact Hfits. }
  exists s1. split; [exact Hscan|]. split; [|split; assumption].
  rewrite (listing_holds _ _ _ Hholds). unfold scan_listing.
  change (strcmp_eq ROMS_PATH ROMS_PATH) with true. cbv iota.
  rewrite Hopen. reflexivity.
Qed.

(** X3. Empty-folder suppression. On a first root scan with hiding on
    and no cache file, a folder of the root whose name has at most 63
    characters and in which every entry is hidden gets no row, provided
    the root has at most 256 entries, with distinct names of at most 255
    characters. *)
Theorem empty_folder_is_not_listed (w : World) (s : State)
  (ents : list dirent) (A : dirent) :
  alloc_ok w ->
  entries_capacity s <= CAPACITY_LIMIT ->
  first_run s ->
  opendir w ROMS_PATH = Some ents ->
  (length ents <= MAX_EMPTY_DIRS)%nat ->
  NoDup (map d_name ents) ->
  (forall ent, In ent ents -> (String.length (d_name ent) <= 255)%nat) ->
  In A ents ->
  d_type A = DT_DIR ->
  is_hidden (d_name A) = false ->
  is_reserved (d_name A) = false ->
  (String.length (d_name A) <= 63)%nat ->
  looks_empty w (d_name A) = true ->
  exists s1,
    scan_directory w ROMS_PATH s = Ok s1
    /\ forall e, e ∈ listing s1 ->
                 path e <> String.append ROMS_PREFIX (d_name A).
Proof.
  intros Halloc Hcap Hfirst Hopen Hroom Hnd Hnames HA Ht Hh Hr Hlen Hempty.
  pose proof (first_run_cache w s ents Hfirst Hopen) as Hcache.
  destruct Hfirst as (Hhide & Hfresh & Hfile).
  destruct (root_listing w s ents Halloc Hcap Hopen)
    as (s1 & Hscan & Hlist & _ & Hpop);
    [unfold MAX_EMPTY_DIRS, DIRECTORY_LIMIT in *; lia|].
  assert (Hkeep : strncpy_buf 64 (d_name A) = d_name A)
    by (apply str_take_all; simpl; lia).
  assert (Hkeep' : strncpy_buf 256 (d_name A) = d_name A)
    by (apply str_take_all; simpl; lia).
  assert (Hcached : In (d_name A) (rebuild_loop w ents [])).
  { rewrite <- Hkeep at 1. apply rebuild_loop_complete; assumption. }
  assert (Hnone : scan_row w ROMS_PATH true (hide_empty_folders s)
                    (effective_cache w s) A = None).
  { unfold scan_row. rewrite Hh, Hr, Ht, Hhide, Hcache, Hkeep'.
    cbn [is_directory_fast negb andb].
    replace (existsb (fun d => strcasecmp_eq d (d_name A))
               (rebuild_loop w ents [])) with true; [reflexivity|].
    symmetry. apply existsb_exists. exists (d_name A).
    split; [exact Hcached | apply String.eqb_refl]. }
  exists s1. split; [exact Hscan|].
  - intros e He. rewrite Hlist in He.
    rewrite !elem_of_app, !elem_of_cons in He.
    destruct He as [[->|[->|[->|He]]]|[He|[->|He]]];
      try (simpl; discriminate); try (inversion He; fail).
    rewrite sort_entries_perm in He.
    apply list_elem_of_omap in He. destruct He as (ent & Hent & Hrow).
    apply list_elem_of_In in Hent.
    intros Hpath.
    assert (Hsame : d_name ent = d_name A).
    { destruct ent as [X t]. cbn [d_name] in *.
      pose proof (Hnames _ Hent) as HX. cbn [d_name] in HX.
      destruct (scan_row_shape w ROMS_PATH X true (hide_empty_folders s)
                  (effective_cache w s) t e HX) as [_ Hp];
        [simpl; lia | exact Hrow |].
      rewrite Hp, root_path_fits in Hpath by exact HX.
      unfold ROMS_PREFIX in Hpath. simpl in Hpath. congruence. }
    rewrite (same_name_same_entry ents ent A Hnd Hent HA Hsame) in Hrow.
    congruence.
Qed.
(** X4. The other half: on such a first root scan a visible, unreserved
    folder is listed under its own name and path, unless the rebuild
    took a folder of the same name (compared without case, on the first
    63 characters) for empty. *)
Theorem folder_with_content_is_listed (w : World) (s : State)
  (ents : list dirent) (B : dirent) :
  alloc_ok w ->
  entries_capacity s <= CAPACITY_LIMIT ->
  first_run s ->
  opendir w ROMS_PATH = Some ents ->
  Z.of_nat (length ents) <= DIRECTORY_LIMIT ->
  In B ents ->
  is_hidden (d_name B) = false ->
  is_reserved (d_name B) = false ->
  (String.length (d_name B) <= 255)%nat ->
  is_directory_fast w (String.append ROMS_PREFIX (d_name B)) (d_type B) = true ->
  (forall ent, In ent ents ->
     strcasecmp_eq (strncpy_buf 64 (d_name ent)) (d_name B) = true ->
     looks_empty w (d_name ent) = false) ->
  exists s1,
    scan_directory w ROMS_PATH s = Ok s1
    /\ mkEntry (String.append ROMS_PREFIX (d_name B)) (d_name B) true
       ∈ listing s1.
Proof.
  intros Halloc Hcap Hfirst Hopen Hfits HB Hh Hr Hlen Hdir Hothers.
  pose proof (first_run_cache w s ents Hfirst Hopen) as Hcache.
  destruct (root_listing w s ents Halloc Hcap Hopen Hfits)
    as (s1 & Hscan & Hlist & _).
  exists s1. split; [exact Hscan|].
  rewrite Hlist, !elem_of_app. right. left.
  rewrite sort_entries_perm. apply list_elem_of_omap.
  exists B. split; [apply list_elem_of_In, HB|].
  assert (Hkeep : strncpy_buf 256 (d_name B) = d_name B)
    by (apply str_take_all; simpl; lia).
  unfold scan_row. rewrite Hh, Hr, !Hkeep, root_path_fits, Hdir by exact Hlen.
  cbn [negb andb].
  assert (Hmiss : existsb (fun d => strcasecmp_eq d (d_name B))
                    (effective_cache w s) = false).
  { apply not_true_is_false. intros Hex.
    apply existsb_exists in Hex. destruct Hex as (d & Hd & Hmatch).
    rewrite Hcache in Hd.
    destruct (rebuild_loop_sound w ents [] d Hd)
      as [[]|(ent & Hent & -> & _ & _ & _ & Hempty)].
    rewrite (Hothers ent Hent Hmatch) in Hempty. discriminate. }
  rewrite Hmiss, andb_false_r. f_equal. f_equal.
  apply str_take_all. rewrite string_length_append. simpl. lia.
Qed.

Lemma demo_root_names_safe (ent : dirent) :
  In ent [d_dir "."; d_dir ".."; d_dir "snes"; d_dir "gb"; d_dir "saves";
          d_dir "empty"; d_file "notes.txt"] ->
  line_safe (d_name ent) /\ (String.length (d_name ent) <= 255)%nat.
Proof.
  intros Hin. simpl in Hin.
  repeat (destruct Hin as [<-|Hin];
          [split; [split; [discriminate | unfold contains; simpl;
                                          intuition discriminate]
                  | simpl; lia]|]).
  destruct Hin.
Qed.

Lemma cache_file_round_trip_witness :
  cache_file (rebuild_empty_dirs_cache demo_world blank_state)
  = Some (cache_text (empty_dirs (rebuild_empty_dirs_cache demo_world
                                    blank_state)))
  /\ empty_dirs
       (load_empty_dirs_cache offline_world
          (set_cache_file
             (cache_file (rebuild_empty_dirs_cache demo_world blank_state))
             blank_state))
     = empty_dirs (rebuild_empty_dirs_cache demo_world blank_state).
Proof.
  apply (cache_file_round_trip demo_world offline_world blank_state
           (set_cache_file
              (cache_file (rebuild_empty_dirs_cache demo_world blank_state))
              blank_state)
           [d_dir "."; d_dir ".."; d_dir "snes"; d_dir "gb"; d_dir "saves";
            d_dir "empty"; d_file "notes.txt"]).
  - reflexivity.
  - reflexivity.
  - intros ent Hin. apply demo_root_names_safe, Hin.
  - reflexivity.
  - reflexivity.
Defined.

Lemma empty_folder_is_not_listed_witness :
  exists s1,
    scan_directory demo_world ROMS_PATH blank_state = Ok s1
    /\ forall e, e ∈ listing s1 ->
                 path e <> String.append ROMS_PREFIX (d_name (d_dir "empty")).
Proof.
  apply (empty_folder_is_not_listed demo_world blank_state
           [d_dir "."; d_dir ".."; d_dir "snes"; d_dir "gb"; d_dir "saves";
            d_dir "empty"; d_file "notes.txt"] (d_dir "empty")).
  - intros n. reflexivity.
  - unfold entries_capacity, CAPACITY_LIMIT. simpl. lia.
  - repeat split.
  - reflexivity.
  - simpl. unfold MAX_EMPTY_DIRS. lia.
  - simpl.
    repeat (apply NoDup_cons_2;
            [intros H; apply list_elem_of_In in H; simpl in H;
             intuition discriminate|]).
    apply NoDup_nil_2.
  - intros ent Hin. apply demo_root_names_safe, Hin.
  - simpl. tauto.
  - reflexivity.
  - reflexivity.
  - reflexivity.
  - simpl. lia.
  - reflexivity.
Defined.

Lemma folder_with_content_is_listed_witness :
  exists s1,
    scan_directory demo_world ROMS_PATH blank_state = Ok s1
    /\ mkEntry (String.append ROMS_PREFIX (d_name (d_dir "gb")))
         (d_name (d_dir "gb")) true ∈ listing s1.
Proof.
  apply (folder_with_content_is_listed demo_world blank_state
           [d_dir "."; d_dir ".."; d_dir "snes"; d_dir "gb"; d_dir "saves";
            d_dir "empty"; d_file "notes.txt"] (d_dir "gb")).
  - intros n. reflexivity.
  - unfold entries_capacity, CAPACITY_LIMIT. simpl. lia.
  - repeat split.
  - reflexivity.
  - unfold DIRECTORY_LIMIT. simpl. lia.
  - simpl. tauto.
  - reflexivity.
  - reflexivity.
  - simpl. lia.
  - reflexivity.
  - intros ent Hin Hmatch. simpl in Hin.
    repeat (destruct Hin as [<-|Hin]; [first [discriminate Hmatch | reflexivity]|]).
    destruct Hin.
Defined.

(** ** What a scan lists *)

Lemma is_hidden_take (n : nat) (s : string) :
  is_hidden (str_take (S n) s) = is_hidden s.
Proof. destruct s; reflexivity. Qed.

Lemma str_lower_length (s : string) :
  String.length (str_lower s) = String.length s.
Proof. induction s as [|c r IH]; simpl; [reflexivity | rewrite IH; reflexivity]. Qed.

Lemma strcasecmp_eq_length (a b : string) :
  strcasecmp_eq a b = true -> String.length a = String.length b.
Proof.
  unfold strcasecmp_eq. intros H. apply String.eqb_eq in H.
  rewrite <- (str_lower_length a), <- (str_lower_length b), H. reflexivity.
Qed.

Lemma is_reserved_take (s : string) :
  is_reserved s = false -> is_reserved (str_take 255 s) = false.
Proof.
  intros Hs. destruct (le_lt_dec (String.length s) 255) as [Hle|Hgt].
  - rewrite str_take_all by exact Hle. exact Hs.
  - assert (Hlen : String.length (str_take 255 s) = 255%nat)
      by (apply str_take_length_exact; lia).
    unfold is_reserved.
    apply not_true_is_false. intros H.
    apply orb_true_iff in H. destruct H as [H|H];
      [apply orb_true_iff in H; destruct H as [H|H]|];
      apply strcasecmp_eq_length in H; rewrite Hlen in H; discriminate H.
Qed.

(** A row that comes from a directory entry shows a name that is
    neither hidden nor reserved; in the root it is a directory row. *)
Lemma scan_row_visible (w : World) (pth : string) (is_root hide : bool)
  (cache : list string) (ent : dirent) (e : MenuEntry) :
  scan_row w pth is_root hide cache ent = Some e ->
  is_hidden (name e) = false
  /\ is_reserved (name e) = false
  /\ (is_root = true -> is_dir e = true).
Proof.
  unfold scan_row.
  destruct (is_hidden (d_name ent)) eqn:Hh; [discriminate|].
  destruct (is_reserved (d_name ent)) eqn:Hr; [discriminate|].
  destruct (is_root && negb _) eqn:Hfile; [discriminate|].
  destruct (_ && existsb _ _); [discriminate|].
  intros [= <-]. cbn [name is_dir].
  unfold strncpy_buf. cbn [Nat.sub]. rewrite str_take_idem.
  split; [rewrite is_hidden_take; exact Hh|].
  split; [apply is_reserved_take, Hr|].
  intros ->. simpl in Hfile. apply negb_false_iff in Hfile. exact Hfile.
Qed.

Lemma scan_rows_visible (w : World) (pth : string) (is_root hide : bool)
  (cache : list string) (ents : list dirent) (e : MenuEntry) :
  e ∈ scan_rows w pth is_root hide cache ents ->
  is_hidden (name e) = false
  /\ is_reserved (name e) = false
  /\ (is_root = true -> is_dir e = true).
Proof.
  intros He. apply list_elem_of_omap in He. destruct He as (ent & _ & Hrow).
  exact (scan_row_visible _ _ _ _ _ _ _ Hrow).
Qed.

(** X5. The listing of the root shows folders only: every row is a
    directory row, and it is one of the four synthetic rows or bears a
    name that is neither hidden (leading dot) nor reserved (frogui,
    saves, save in any case). Files in the root are never listed. *)
Theorem root_lists_only_folders (w : World) (s : State) :
  alloc_ok w ->
  entries_capacity s <= CAPACITY_LIMIT ->
  directory_fits w ROMS_PATH ->
  exists s1,
    scan_directory w ROMS_PATH s = Ok s1
    /\ forall e, e ∈ listing s1 ->
         is_dir e = true
         /\ (e ∈ [recent_row; favorites_row; random_row; tools_row]
             \/ (is_hidden (name e) = false /\ is_reserved (name e) = false)).
Proof.
  intros Halloc Hcap Hfits.
  destruct (scan_directory_holds w ROMS_PATH s Halloc Hcap Hfits)
    as (s1 & spare & Hscan & Hholds & _).
  exists s1. split; [exact Hscan|].
  rewrite (listing_holds _ _ _ Hholds). unfold scan_listing.
  change (strcmp_eq ROMS_PATH ROMS_PATH) with true. cbv iota.
  destruct (opendir w ROMS_PATH) as [ents|]; [|intros e He; inversion He].
  intros e He. rewrite !elem_of_app, !elem_of_cons in He.
  destruct He as [[->|[->|[->|He]]]|[He|[->|He]]];
    try (inversion He; fail);
    try (split; [reflexivity | left; rewrite !elem_of_cons; tauto]).
  rewrite sort_entries_perm in He.
  destruct (scan_rows_visible _ _ _ _ _ _ _ He) as (Hh & Hr & Hd).
  split; [apply Hd; reflexivity | right; split; assumption].
Qed.

Lemma root_lists_only_folders_witness :
  exists s1,
    scan_directory demo_world ROMS_PATH blank_state = Ok s1
    /\ forall e, e ∈ listing s1 ->
         is_dir e = true
         /\ (e ∈ [recent_row; favorites_row; random_row; tools_row]
             \/ (is_hidden (name e) = false /\ is_reserved (name e) = false)).
Proof.
  apply (root_lists_only_folders demo_world blank_state).
  - intros n. reflexivity.
  - unfold entries_capacity, CAPACITY_LIMIT. simpl. lia.
  - apply demo_world_fits.
Defined.

(** X6. The listing of a directory other than the root is sorted by
    name and holds exactly one ".." row, which points at the directory
    itself; every other row bears a name that is neither hidden nor
    reserved. The ".." row takes the place the sort gives it, which is
    not always the first. The selection and the scroll offset are 0. *)
Theorem folder_listing_shape (w : World) (pth : string) (s : State) :
  alloc_ok w ->
  entries_capacity s <= CAPACITY_LIMIT ->
  directory_fits w pth ->
  strcmp_eq pth ROMS_PATH = false ->
  exists s1 before after,
    scan_directory w pth s = Ok s1
    /\ listing s1 = before ++ parent_row pth :: after
    /\ Sorted name_le (listing s1)
    /\ (forall e, e ∈ before ++ after ->
          name_is ".." e = false
          /\ is_hidden (name e) = false /\ is_reserved (name e) = false)
    /\ selected_index s1 = 0 /\ scroll_offset s1 = 0.
Proof.
  intros Halloc Hcap Hfits Hsub.
  destruct (scan_directory_holds w pth s Halloc Hcap Hfits)
    as (s1 & spare & Hscan & Hholds & _ & (Hsess & _)).
  assert (Hshape : exists rows,
             listing s1 ≡ₚ parent_row pth :: rows
             /\ Sorted name_le (listing s1)
             /\ forall e, e ∈ rows ->
                  is_hidden (name e) = false /\ is_reserved (name e) = false).
  { rewrite (listing_holds _ _ _ Hholds). unfold scan_listing. rewrite Hsub.
    destruct (opendir w pth) as [ents|].
    - exists (scan_rows w pth false (hide_empty_folders s)
                (effective_cache w s) ents).
      split; [apply sort_entries_perm|].
      split; [apply sort_entries_sorted|].
      intros e He. destruct (scan_rows_visible _ _ _ _ _ _ _ He) as (? & ? & _).
      split; assumption.
    - exists []. split; [reflexivity|].
      split; [repeat constructor | intros e He; inversion He]. }
  destruct Hshape as (rows & Hperm & Hsorted & Hrows).
  assert (Hin : parent_row pth ∈ listing s1)
    by (rewrite Hperm; apply elem_of_cons; left; reflexivity).
  apply list_elem_of_split in Hin. destruct Hin as (before & after & Hsplit).
  exists s1, before, after.
  split; [exact Hscan|]. split; [exact Hsplit|]. split; [exact Hsorted|].
  split.
  - intros e He.
    assert (Hrest : before ++ after ≡ₚ rows).
    { apply (Permutation_cons_inv (a := parent_row pth)).
      rewrite <- Hperm, Hsplit. apply Permutation_middle. }
    rewrite Hrest in He. destruct (Hrows e He) as [Hh Hr].
    split; [|split; assumption].
    unfold name_is, strcmp_eq. apply String.eqb_neq. intros Hname.
    rewrite Hname in Hh. discriminate Hh.
  - destruct Hsess as (Hsel & Hscroll & _). simpl in Hsel, Hscroll. tauto.
Qed.

Lemma folder_listing_shape_witness :
  exists s1 before after,
    scan_directory demo_world "/mnt/sda1/ROMS/gb" blank_state = Ok s1
    /\ listing s1 = before ++ parent_row "/mnt/sda1/ROMS/gb" :: after
    /\ Sorted name_le (listing s1)
    /\ (forall e, e ∈ before ++ after ->
          name_is ".." e = false
          /\ is_hidden (name e) = false /\ is_reserved (name e) = false)
    /\ selected_index s1 = 0 /\ scroll_offset s1 = 0.
Proof.
  apply (folder_listing_shape demo_world "/mnt/sda1/ROMS/gb" blank_state).
  - intros n. reflexivity.
  - unfold entries_capacity, CAPACITY_LIMIT. simpl. lia.
  - apply demo_world_fits.
  - reflexivity.
Defined.

(** ** Growing the block *)

Lemma grow_capacity_reaches (fuel : nat) (c req n : Z) :
  grow_capacity fuel c req = Ok n -> req <= n.
Proof.
  revert c. induction fuel as [|fuel IH]; intros c; simpl;
    destruct (Z.ltb_spec c req); try discriminate;
    try (intros [= <-]; lia).
  apply IH.
Qed.

(** X7. [ensure_entries_capacity] never loses a row and never shrinks
    the block: when it returns, count and listing are what they were
    and nothing else in the state has changed; either the block now has
    the required capacity, or the allocation failed and the state is
    untouched, which the function does not report. *)
Theorem ensure_entries_capacity_keeps_rows (w : World) (req : Z)
  (s s' : State) :
  entry_count s <= entries_capacity s ->
  ensure_entries_capacity w req s = Ok s' ->
  listing s' = listing s
  /\ s' = with_store (entries s') (entry_count s) s
  /\ entries_capacity s <= entries_capacity s'
  /\ (req <= entries_capacity s' \/ s' = s).
Proof.
  intros Hcount. unfold ensure_entries_capacity.
  destruct (Z.geb_spec (entries_capacity s) req) as [Hge|Hlt].
  - intros [= <-]. rewrite with_store_same.
    split; [reflexivity|]. split; [reflexivity|]. split; lia.
  - destruct (grow_capacity 64 _ req) as [n|] eqn:Hgrow; [|discriminate].
    apply grow_capacity_reaches in Hgrow. simpl.
    destruct (realloc_ok w n).
    + intros [= <-]. unfold entries_capacity in *. simpl.
      rewrite length_resize. unfold listing. simpl.
      split; [|split; [reflexivity | split; lia]].
      destruct (Z.le_gt_cases (entry_count s) 0) as [Hneg|Hpos].
      * replace (Z.to_nat (entry_count s)) with 0%nat by lia.
        rewrite !take_0. reflexivity.
      * rewrite take_resize_le by lia. apply resize_le. lia.
    + intros [= <-]. rewrite with_store_same.
      split; [reflexivity|]. split; [reflexivity|]. split; [lia|]. right.
      reflexivity.
Qed.

Lemma ensure_entries_capacity_keeps_rows_witness :
  listing (set_entries
             (resize 128 stale_cell (entries (store_of 64 3 0)))
             (store_of 64 3 0))
  = listing (store_of 64 3 0)
  /\ set_entries (resize 128 stale_cell (entries (store_of 64 3 0)))
       (store_of 64 3 0)
     = with_store
         (entries (set_entries
                     (resize 128 stale_cell (entries (store_of 64 3 0)))
                     (store_of 64 3 0)))
         (entry_count (store_of 64 3 0)) (store_of 64 3 0)
  /\ entries_capacity (store_of 64 3 0)
     <= entries_capacity
          (set_entries (resize 128 stale_cell (entries (store_of 64 3 0)))
             (store_of 64 3 0))
  /\ (65 <= entries_capacity
              (set_entries (resize 128 stale_cell (entries (store_of 64 3 0)))
                 (store_of 64 3 0))
      \/ set_entries (resize 128 stale_cell (entries (store_of 64 3 0)))
           (store_of 64 3 0)
         = store_of 64 3 0).
Proof.
  apply (ensure_entries_capacity_keeps_rows demo_world 65 (store_of 64 3 0)).
  - vm_compute. discriminate.
  - reflexivity.
Defined.

(** ** The view populators: facts *)

Lemma with_store_twice (a a' : list MenuEntry) (n n' : Z) (s : State) :
  with_store a n (with_store a' n' s) = with_store a n s.
Proof. reflexivity. Qed.

(** Populators are followed through states of the form
    [with_store (l ++ spare) (length l) base]. *)
Lemma ensure_ws (w : World) (req : Z) (base : State)
  (l spare : list MenuEntry) :
  alloc_ok w ->
  Z.of_nat (length (l ++ spare)) <= CAPACITY_LIMIT ->
  req <= 536870912 ->
  exists spare',
    ensure_entries_capacity w req
      (with_store (l ++ spare) (Z.of_nat (length l)) base)
    = Ok (with_store (l ++ spare') (Z.of_nat (length l)) base)
    /\ req <= Z.of_nat (length (l ++ spare')) <= CAPACITY_LIMIT.
Proof.
  intros Halloc Hcap Hreq.
  destruct (ensure_entries_capacity_holds w req
              (with_store (l ++ spare) (Z.of_nat (length l)) base) l spare)
    as (spare' & Hrun & Hlen); try assumption.
  - apply holds_with_store.
  - exists spare'. rewrite Hrun. split; [reflexivity | exact Hlen].
Qed.

Lemma append_ws (nm pth : string) (dir : bool) (base : State)
  (l spare : list MenuEntry) (c : MenuEntry) :
  Z.of_nat (length l) + 1 <= INT_MAX ->
  append_entry nm pth dir
    (with_store (l ++ c :: spare) (Z.of_nat (length l)) base)
  = Ok (with_store
          ((l ++ [mkEntry (strncpy_buf 512 pth) (strncpy_buf 256 nm) dir])
             ++ spare)
          (Z.of_nat (length (l ++ [mkEntry (strncpy_buf 512 pth)
                                     (strncpy_buf 256 nm) dir])))
          base).
Proof.
  intros Hmax.
  rewrite (append_entry_holds nm pth dir _ l spare c);
    [reflexivity | apply holds_with_store | exact Hmax].
Qed.

Lemma add_games_ws (games : list RecentGame) :
  forall (base : State) (l spare : list MenuEntry),
    (length games <= length spare)%nat ->
    Z.of_nat (length l + length games) + 1 <= INT_MAX ->
    exists spare',
      add_games games (with_store (l ++ spare) (Z.of_nat (length l)) base)
      = Ok (with_store ((l ++ map game_row games) ++ spare')
              (Z.of_nat (length (l ++ map game_row games))) base)
      /\ (length spare' + length games = length spare)%nat.
Proof.
  induction games as [|g games IH]; intros base l spare Hroom Hmax.
  - exists spare. simpl. rewrite app_nil_r. split; [reflexivity | lia].
  - destruct spare as [|c spare]; [simpl in Hroom; lia|].
    cbn [add_games].
    rewrite append_ws by (simpl in Hmax; lia).
    cbn [bind]. fold (game_row g).
    destruct (IH base (l ++ [game_row g]) spare) as (spare' & Hrun & Hlen).
    + simpl in Hroom. lia.
    + rewrite length_app. simpl in *. lia.
    + exists spare'. rewrite Hrun.
      simpl map. rewrite <- !app_assoc. simpl.
      split; [reflexivity | simpl; lia].
Qed.

Lemma entry_count_with_store (a : list MenuEntry) (n : Z) (s : State) :
  entry_count (with_store a n s) = n.
Proof. reflexivity. Qed.

Lemma spare_has_cell (l spare : list MenuEntry) (n : Z) :
  Z.of_nat (length l) + 1 <= n ->
  n <= Z.of_nat (length (l ++ spare)) ->
  exists c spare', spare = c :: spare'.
Proof.
  intros Hn Hlen. rewrite length_app in Hlen.
  destruct spare as [|c spare']; [simpl in Hlen; lia|]. eauto.
Qed.

Lemma show_game_list_holds (w : World) (tag : string)
  (games : list RecentGame) (s : State) :
  alloc_ok w ->
  entries_capacity s <= CAPACITY_LIMIT ->
  Z.of_nat (length games) <= DIRECTORY_LIMIT ->
  exists spare,
    show_game_list w tag games s
    = Ok (with_store (game_listing games ++ spare)
            (Z.of_nat (length (game_listing games))) (view_of tag s))
    /\ Z.of_nat (length (game_listing games ++ spare)) <= CAPACITY_LIMIT.
Proof.
  intros Halloc Hcap Hfits. unfold show_game_list, DIRECTORY_LIMIT in *.
  change (set_current_path (strncpy_buf 512 tag)
            (reset_navigation_state (set_entry_count 0 s)))
    with (with_store ([] ++ entries s) (Z.of_nat (length (@nil MenuEntry)))
            (view_of tag s)).
  cbv zeta. rewrite !entry_count_with_store.
  destruct (Z.eqb_spec (Z.of_nat (length games)) 0) as [Hzero|Hcount].
  - assert (games = []) as -> by (destruct games; [reflexivity | simpl in Hzero; lia]).
    destruct (ensure_ws w (int_add (Z.of_nat (length (@nil MenuEntry))) 1)
                (view_of tag s) [] (entries s))
      as (spare1 & Hrun & Hlen);
      [exact Halloc | exact Hcap | simpl; unwrap; lia|].
    rewrite Hrun. cbn [bind].
    destruct (spare_has_cell [] spare1 1) as (c & spare & ->);
      [simpl; lia | simpl in Hlen |- *; unwrap; lia|].
    unfold back_row. rewrite append_ws by (simpl; unfold INT_MAX; lia).
    exists spare. split; [reflexivity|].
    simpl in Hlen |- *. lia.
  - destruct (ensure_ws w
                (int_add (int_add (Z.of_nat (length (@nil MenuEntry)))
                            (Z.of_nat (length games))) 1)
                (view_of tag s) [] (entries s))
      as (spare1 & Hrun & Hlen);
      [exact Halloc | exact Hcap | simpl length; unwrap; lia|].
    rewrite Hrun. cbn [bind].
    simpl length in Hlen. unwrap.
    destruct (add_games_ws games (view_of tag s) [] spare1)
      as (spare2 & Hadd & Hlen2).
    + simpl in Hlen. lia.
    + simpl length at 1. unfold INT_MAX. lia.
    + rewrite Hadd. cbn [bind].
      destruct spare2 as [|c spare]; [simpl in Hlen, Hlen2; lia|].
      unfold back_row. rewrite append_ws
        by (simpl; rewrite length_map; unfold INT_MAX; lia).
      exists spare. split; [reflexivity|].
      unfold game_listing. simpl in Hlen, Hlen2 |- *.
      rewrite !length_app, length_map in *. simpl in *. lia.
Qed.

Lemma show_tools_menu_holds (w : World) (s : State) :
  alloc_ok w ->
  entries_capacity s <= CAPACITY_LIMIT ->
  exists spare,
    show_tools_menu w s
    = Ok (with_store (tools_listing ++ spare) 4 (view_of "TOOLS" s))
    /\ Z.of_nat (length (tools_listing ++ spare)) <= CAPACITY_LIMIT.
Proof.
  intros Halloc Hcap. unfold show_tools_menu.
  change (set_current_path (strncpy_buf 512 "TOOLS")
            (reset_navigation_state (set_entry_count 0 s)))
    with (with_store ([] ++ entries s) (Z.of_nat (length (@nil MenuEntry)))
            (view_of "TOOLS" s)).
  destruct (ensure_ws w 4 (view_of "TOOLS" s) [] (entries s))
    as (spare1 & Hrun & Hlen); [exact Halloc | exact Hcap | lia|].
  rewrite Hrun. cbn [bind].
  destruct spare1 as [|c1 [|c2 [|c3 [|c4 spare]]]];
    try (simpl in Hlen; lia).
  rewrite (append_ws _ _ _ _ [] _ c1) by (simpl; unfold INT_MAX; lia).
  cbn [bind].
  rewrite (append_ws _ _ _ _ ([] ++ [_]) _ c2)
    by (simpl; unfold INT_MAX; lia).
  cbn [bind].
  rewrite (append_ws _ _ _ _ (([] ++ [_]) ++ [_]) _ c3)
    by (simpl; unfold INT_MAX; lia).
  cbn [bind]. unfold back_row.
  rewrite (append_ws _ _ _ _ ((([] ++ [_]) ++ [_]) ++ [_]) _ c4)
    by (simpl; unfold INT_MAX; lia).
  exists spare. split; [reflexivity|].
  simpl in Hlen |- *. lia.
Qed.

Lemma utils_loop_ws (w : World) (dir : string) (ents : list dirent) :
  alloc_ok w ->
  forall (base : State) (l spare : list MenuEntry),
    Z.of_nat (length (l ++ spare)) <= CAPACITY_LIMIT ->
    Z.of_nat (length l) + Z.of_nat (length ents) <= 536870911 ->
    exists spare',
      utils_loop w dir ents
        (with_store (l ++ spare) (Z.of_nat (length l)) base)
      = Ok (with_store ((l ++ omap (utils_row w dir) ents) ++ spare')
              (Z.of_nat (length (l ++ omap (utils_row w dir) ents))) base)
      /\ Z.of_nat (length ((l ++ omap (utils_row w dir) ents) ++ spare'))
         <= CAPACITY_LIMIT.
Proof.
  intros Halloc. induction ents as [|ent ents IH];
    intros base l spare Hcap Hfits.
  - exists spare. simpl. rewrite app_nil_r. split; [reflexivity | exact Hcap].
  - cbn [utils_loop omap list_omap]. simpl length in Hfits.
    destruct (is_hidden (d_name ent)) eqn:Hh.
    { replace (utils_row w dir ent) with (@None MenuEntry)
        by (unfold utils_row; rewrite Hh; reflexivity).
      apply IH; [exact Hcap | lia]. }
    destruct (stat_is_dir w (path_join dir (d_name ent))) as [b|] eqn:Hst.
    2: { replace (utils_row w dir ent) with (@None MenuEntry)
           by (unfold utils_row; rewrite Hh, Hst; reflexivity).
         apply IH; [exact Hcap | lia]. }
    replace (utils_row w dir ent)
      with (Some (mkEntry (strncpy_buf 512 (path_join dir (d_name ent)))
                    (strncpy_buf 256 (d_name ent)) b))
      by (unfold utils_row; rewrite Hh, Hst; reflexivity).
    rewrite entry_count_with_store.
    destruct (ensure_ws w (int_add (Z.of_nat (length l)) 1) base l spare)
      as (spare1 & Hrun & Hlen); [exact Halloc | exact Hcap | unwrap; lia|].
    rewrite Hrun. cbn [bind]. unwrap.
    destruct (spare_has_cell l spare1 (Z.of_nat (length l) + 1))
      as (c & spare2 & ->); [lia | lia|].
    rewrite append_ws by (unfold INT_MAX; lia). cbn [bind].
    destruct (IH base
                (l ++ [mkEntry (strncpy_buf 512 (path_join dir (d_name ent)))
                         (strncpy_buf 256 (d_name ent)) b]) spare2)
      as (spare' & Hloop & Hcap').
    + rewrite !length_app in *. simpl in *. lia.
    + rewrite length_app. simpl. lia.
    + exists spare'. rewrite Hloop, <- !app_assoc in *. simpl.
      split; [reflexivity | exact Hcap'].
Qed.
Lemma shows_view_ws (tag : string) (l spare : list MenuEntry) (s : State) :
  shows_view tag l s
    (with_store (l ++ spare) (Z.of_nat (length l)) (view_of tag s)).
Proof.
  split; [|reflexivity].
  apply (listing_holds _ l spare), holds_with_store.
Qed.

Lemma length_omap_le {A B : Type} (f : A -> option B) (l : list A) :
  (length (omap f l) <= length l)%nat.
Proof.
  induction l as [|x l IH]; cbn [omap list_omap length]; [lia|].
  destruct (f x); cbn [length]; lia.
Qed.

Lemma show_utils_menu_holds (w : World) (s : State) :
  alloc_ok w ->
  entries_capacity s <= CAPACITY_LIMIT ->
  directory_fits w (path_join ROMS_PATH "js2000") ->
  exists spare,
    show_utils_menu w s
    = Ok (with_store (utils_listing w ++ spare)
            (Z.of_nat (length (utils_listing w))) (view_of "UTILS" s)).
Proof.
  intros Halloc Hcap Hfits. unfold show_utils_menu, utils_listing.
  change (set_current_path (strncpy_buf 512 "UTILS")
            (reset_navigation_state (set_entry_count 0 s)))
    with (with_store ([] ++ entries s) (Z.of_nat (length (@nil MenuEntry)))
            (view_of "UTILS" s)).
  cbv zeta.
  set (dir := path_join ROMS_PATH "js2000") in *.
  assert (Hloop : exists spare1,
            match opendir w dir with
            | Some ents =>
                utils_loop w dir ents
                  (with_store ([] ++ entries s)
                     (Z.of_nat (length (@nil MenuEntry))) (view_of "UTILS" s))
            | None =>
                Ok (with_store ([] ++ entries s)
                      (Z.of_nat (length (@nil MenuEntry)))
                      (view_of "UTILS" s))
            end
            = Ok (with_store
                    (match opendir w dir with
                     | Some ents => omap (utils_row w dir) ents
                     | None => []
                     end ++ spare1)
                    (Z.of_nat (length match opendir w dir with
                                      | Some ents => omap (utils_row w dir) ents
                                      | None => []
                                      end))
                    (view_of "UTILS" s))
            /\ Z.of_nat (length match opendir w dir with
                                | Some ents => omap (utils_row w dir) ents
                                | None => []
                                end) <= DIRECTORY_LIMIT
            /\ Z.of_nat (length (match opendir w dir with
                                 | Some ents => omap (utils_row w dir) ents
                                 | None => []
                                 end ++ spare1)) <= CAPACITY_LIMIT).
  { destruct (opendir w dir) as [ents|] eqn:Hopen.
    - specialize (Hfits ents Hopen). unfold DIRECTORY_LIMIT in *.
      destruct (utils_loop_ws w dir ents Halloc (view_of "UTILS" s) []
                  (entries s)) as (spare1 & Hrun & Hlen);
        [exact Hcap | simpl; lia|].
      exists spare1. split; [exact Hrun|]. split; [|exact Hlen].
      pose proof (length_omap_le (utils_row w dir) ents). simpl. lia.
    - exists (entries s). split; [reflexivity|].
      split; [unfold DIRECTORY_LIMIT; simpl; lia | exact Hcap]. }
  destruct Hloop as (spare1 & -> & Hrows & Hcap1). cbn [bind].
  set (rows := match opendir w dir with
               | Some ents => omap (utils_row w dir) ents
               | None => []
               end) in *.
  unfold DIRECTORY_LIMIT in *. rewrite entry_count_with_store.
  destruct (ensure_ws w (int_add (Z.of_nat (length rows)) 1)
              (view_of "UTILS" s) rows spare1)
    as (spare2 & -> & Hlen2); [exact Halloc | exact Hcap1 | unwrap; lia|].
  cbn [bind]. unwrap.
  destruct (spare_has_cell rows spare2 (Z.of_nat (length rows) + 1))
    as (c & spare3 & ->); [lia | lia|].
  rewrite append_ws by (unfold INT_MAX; lia). cbn [bind].
  rewrite entry_count_with_store.
  assert (Hlen3 : Z.of_nat (length (rows ++ [rebuild_row])) = Z.of_nat (length rows) + 1)
    by (rewrite length_app; simpl; lia).
  fold rebuild_row.
  destruct (ensure_ws w (wrap (Z.of_nat (length (rows ++ [rebuild_row])) + 1))
              (view_of "UTILS" s) (rows ++ [rebuild_row]) spare3)
    as (spare4 & -> & Hlen4).
  - exact Halloc.
  - rewrite !length_app in *. simpl in *. lia.
  - rewrite Hlen3. unwrap. lia.
  - cbn [bind]. rewrite Hlen3 in Hlen4. unwrap.
    destruct (spare_has_cell (rows ++ [rebuild_row]) spare4
                (Z.of_nat (length rows) + 2))
      as (c' & spare & ->); [lia | lia|].
    unfold back_row. rewrite append_ws by (unfold INT_MAX; lia).
    exists spare. rewrite <- !app_assoc. reflexivity.
Qed.

(** X8. The Recent games and Favorites views list one file row for
    every stored game, in the order of the store and keyed
    [core;name], followed by one ".." directory row that points at the
    root; the selection and the scroll offset are reset and nothing
    else changes. *)
Theorem game_views_list_the_stored_games (w : World) (s : State) :
  alloc_ok w ->
  entries_capacity s <= CAPACITY_LIMIT ->
  Z.of_nat (length (recent_games s)) <= DIRECTORY_LIMIT ->
  Z.of_nat (length (favorites s)) <= DIRECTORY_LIMIT ->
  (exists s1,
     show_recent_games w s = Ok s1
     /\ shows_view "RECENT_GAMES" (game_listing (recent_games s)) s s1)
  /\ (exists s1,
        show_favorites w s = Ok s1
        /\ shows_view "FAVORITES" (game_listing (favorites s)) s s1).
Proof.
  intros Halloc Hcap Hrecent Hfav. split.
  - destruct (show_game_list_holds w "RECENT_GAMES" (recent_games s) s
                Halloc Hcap Hrecent) as (spare & Hrun & _).
    eexists. split; [exact Hrun | apply shows_view_ws].
  - destruct (show_game_list_holds w "FAVORITES" (favorites s) s
                Halloc Hcap Hfav) as (spare & Hrun & _).
    eexists. split; [exact Hrun | apply shows_view_ws].
Qed.

(** X9. The Tools view is the four rows Hotkeys, Credits, Utils and
    "..", the last pointing at the root. The Utils view lists the
    entries of the js2000 folder that are not hidden and that [stat]
    accepts, in directory order, and always ends with the rows
    "Rebuild folder cache" and ".." (pointing at Tools), also when the
    folder cannot be opened. *)
Theorem tool_views_end_with_their_fixed_rows (w : World) (s : State) :
  alloc_ok w ->
  entries_capacity s <= CAPACITY_LIMIT ->
  directory_fits w (path_join ROMS_PATH "js2000") ->
  (exists s1,
     show_tools_menu w s = Ok s1 /\ shows_view "TOOLS" tools_listing s s1)
  /\ (exists s1,
        show_utils_menu w s = Ok s1
        /\ shows_view "UTILS" (utils_listing w) s s1
        /\ exists rows,
             listing s1 = rows ++ [rebuild_row; parent_row "TOOLS"]).
Proof.
  intros Halloc Hcap Hfits. split.
  - destruct (show_tools_menu_holds w s Halloc Hcap) as (spare & Hrun & _).
    eexists. split; [exact Hrun|].
    apply (shows_view_ws "TOOLS" tools_listing).
  - destruct (show_utils_menu_holds w s Halloc Hcap Hfits) as (spare & Hrun).
    eexists. split; [exact Hrun|].
    pose proof (shows_view_ws "UTILS" (utils_listing w) spare s) as Hshow.
    split; [exact Hshow|].
    destruct Hshow as [-> _]. unfold utils_listing. eauto.
Qed.
Lemma game_views_list_the_stored_games_witness :
  (exists s1,
     show_recent_games demo_world played_state = Ok s1
     /\ shows_view "RECENT_GAMES" (game_listing (recent_games played_state))
          played_state s1)
  /\ (exists s1,
        show_favorites demo_world played_state = Ok s1
        /\ shows_view "FAVORITES" (game_listing (favorites played_state))
             played_state s1).
Proof.
  apply (game_views_list_the_stored_games demo_world played_state).
  - intros n. reflexivity.
  - vm_compute. discriminate.
  - vm_compute. discriminate.
  - vm_compute. discriminate.
Defined.

Lemma tool_views_end_with_their_fixed_rows_witness :
  (exists s1,
     show_tools_menu demo_world blank_state = Ok s1
     /\ shows_view "TOOLS" tools_listing blank_state s1)
  /\ (exists s1,
        show_utils_menu demo_world blank_state = Ok s1
        /\ shows_view "UTILS" (utils_listing demo_world) blank_state s1
        /\ exists rows,
             listing s1 = rows ++ [rebuild_row; parent_row "TOOLS"]).
Proof.
  apply (tool_views_end_with_their_fixed_rows demo_world blank_state).
  - intros n. reflexivity.
  - vm_compute. discriminate.
  - apply demo_world_fits.
Defined.

(** ** The B button in the special views *)

Lemma scan_row_root_path (w : World) (hide : bool) (cache : list string)
  (ent : dirent) (e : MenuEntry) :
  scan_row w ROMS_PATH true hide cache ent = Some e ->
  first_char (path e) = "/"%char.
Proof.
  unfold scan_row. repeat break_if; intros [= <-]; reflexivity.
Qed.

Lemma root_row_by_tag (w : World) (hide : bool) (cache : list string)
  (ents : list dirent) (r e : MenuEntry) :
  r ∈ [recent_row; favorites_row; tools_row] ->
  e ∈ [recent_row; favorites_row; random_row]
        ++ sort_entries (scan_rows w ROMS_PATH true hide cache ents)
        ++ [tools_row] ->
  path_is (path r) e = true ->
  e = r.
Proof.
  intros Hr He Hp.
  assert (Htag : first_char (path r) <> "/"%char).
  { rewrite !elem_of_cons in Hr.
    destruct Hr as [->|[->|[->|Hr]]]; [discriminate.. | inversion Hr]. }
  rewrite !elem_of_app, !elem_of_cons in He.
  destruct He as [[->|[->|[->|He]]]|[He|[->|He]]];
    try (inversion He; fail).
  - rewrite !elem_of_cons in Hr.
    destruct Hr as [->|[->|[->|Hr]]];
      [reflexivity | discriminate Hp | discriminate Hp | inversion Hr].
  - rewrite !elem_of_cons in Hr.
    destruct Hr as [->|[->|[->|Hr]]];
      [discriminate Hp | reflexivity | discriminate Hp | inversion Hr].
  - rewrite !elem_of_cons in Hr.
    destruct Hr as [->|[->|[->|Hr]]];
      [discriminate Hp.. | inversion Hr].
  - rewrite sort_entries_perm in He.
    apply list_elem_of_omap in He. destruct He as (ent & _ & Hrow).
    apply scan_row_root_path in Hrow.
    apply String.eqb_eq in Hp. rewrite Hp in Hrow. contradiction.
  - rewrite !elem_of_cons in Hr.
    destruct Hr as [->|[->|[->|Hr]]];
      [discriminate Hp | discriminate Hp | reflexivity | inversion Hr].
Qed.

(** X10. Back from Recent games, Favorites or Tools: the root is
    scanned again and the selection is put on the row that opens the
    view just left, inside the window. *)
Theorem back_from_view_selects_its_row (V : Z) (w : World) (s : State)
  (ents : list dirent) (r : MenuEntry) :
  alloc_ok w ->
  entries_capacity s <= CAPACITY_LIMIT ->
  1 <= V <= INT_MAX ->
  opendir w ROMS_PATH = Some ents ->
  Z.of_nat (length ents) <= DIRECTORY_LIMIT ->
  r ∈ [recent_row; favorites_row; tools_row] ->
  current_path s = path r ->
  exists s1,
    handle_b V w s = Ok s1
    /\ current_path s1 = ROMS_PATH
    /\ listing s1
       = [recent_row; favorites_row; random_row]
           ++ sort_entries
                (scan_rows w ROMS_PATH true (hide_empty_folders s)
                   (effective_cache w s) ents)
           ++ [tools_row]
    /\ 0 <= selected_index s1
    /\ listing s1 !! Z.to_nat (selected_index s1) = Some r
    /\ viewport_ok V s1.
Proof.
  intros Halloc Hcap HV Hopen Hfits Hr Hpath.
  set (s0 := set_current_path (strncpy_buf 512 ROMS_PATH) s).
  destruct (root_listing w s0 ents Halloc Hcap Hopen Hfits)
    as (s1 & Hscan & Hlist & Hcap1 & (Hsess & _)).
  destruct Hsess as (Hsel & Hscroll & Hcp & _).
  cbn in Hsel, Hscroll, Hcp.
  assert (Hcache : effective_cache w s0 = effective_cache w s)
    by (apply effective_cache_ext; reflexivity).
  rewrite Hcache in Hlist. change (hide_empty_folders s0)
    with (hide_empty_folders s) in Hlist.
  assert (Hback : handle_b V w s
                  = let* s := rescan_root w s in
                    Ok (restore_by_path V (path r) s)).
  { unfold handle_b. rewrite Hpath. rewrite !elem_of_cons in Hr.
    destruct Hr as [->|[->|[->|Hr]]]; [reflexivity.. | inversion Hr]. }
  rewrite Hback. unfold rescan_root. fold s0.
  change (current_path s0) with ROMS_PATH. rewrite Hscan. cbn [bind].
  unfold restore_by_path, find_entry.
  pose proof (listing_length_le s1) as Hlen.
  pose proof (find_index_first (path_is (path r)) (listing s1) 0) as Hfind.
  destruct (find_index (path_is (path r)) 0 (listing s1)) as [i|].
  - destruct Hfind as (Hi & _ & (e & Hlook & Hp) & _);
      [lia | unfold INT_MAX, CAPACITY_LIMIT in *; lia|].
    rewrite Z.sub_0_r in Hlook.
    assert (He : e = r).
    { apply (root_row_by_tag w (hide_empty_folders s) (effective_cache w s)
               ents); [exact Hr | | exact Hp].
      rewrite <- Hlist. apply list_elem_of_lookup. eauto. }
    subst e.
    assert (Hi' : i < Z.of_nat (length (listing s1))).
    { apply lookup_lt_Some in Hlook. lia. }
    eexists. split; [reflexivity|].
    unfold scroll_down_to_selection. cbn [selected_index scroll_offset
      set_selected_index]. rewrite Hscroll.
    unfold CAPACITY_LIMIT, viewport_ok in *.
    break_if; cbn; unwrap; rewrite ?Hscroll;
      (split; [exact Hcp|]); (split; [exact Hlist|]);
      (split; [exact Hi|]); (split; [exact Hlook|]); lia.
  - exfalso.
    assert (Hin : r ∈ listing s1).
    { rewrite Hlist, !elem_of_app, !elem_of_cons in *. tauto. }
    assert (Hfalse : path_is (path r) r = false)
      by (apply Hfind; [lia | unfold INT_MAX, CAPACITY_LIMIT in *; lia
                        | exact Hin]).
    unfold path_is in Hfalse. rewrite strcmp_eq_refl in Hfalse.
    discriminate Hfalse.
Qed.
Lemma back_from_view_selects_its_row_witness :
  exists s1,
    handle_b 8 demo_world broken_recents_state = Ok s1
    /\ current_path s1 = ROMS_PATH
    /\ listing s1
       = [recent_row; favorites_row; random_row]
           ++ sort_entries
                (scan_rows demo_world ROMS_PATH true
                   (hide_empty_folders broken_recents_state)
                   (effective_cache demo_world broken_recents_state)
                   [d_dir "."; d_dir ".."; d_dir "snes"; d_dir "gb";
                    d_dir "saves"; d_dir "empty"; d_file "notes.txt"])
           ++ [tools_row]
    /\ 0 <= selected_index s1
    /\ listing s1 !! Z.to_nat (selected_index s1) = Some recent_row
    /\ viewport_ok 8 s1.
Proof.
  apply (back_from_view_selects_its_row 8 demo_world broken_recents_state
           [d_dir "."; d_dir ".."; d_dir "snes"; d_dir "gb"; d_dir "saves";
            d_dir "empty"; d_file "notes.txt"] recent_row).
  - intros n. reflexivity.
  - vm_compute. discriminate.
  - unfold INT_MAX. lia.
  - reflexivity.
  - vm_compute. discriminate.
  - apply elem_of_cons. left. reflexivity.
  - reflexivity.
Defined.

(** X11. Back from the Hotkeys, Credits or Utils screen shows the Tools
    view with its four rows; the selection is on the first row whatever
    screen was left. *)
Theorem back_from_tool_screen_shows_tools (V : Z) (w : World) (s : State) :
  alloc_ok w ->
  entries_capacity s <= CAPACITY_LIMIT ->
  In (current_path s) ["HOTKEYS"; "CREDITS"; "UTILS"]%string ->
  exists s1,
    handle_b V w s = Ok s1 /\ shows_view "TOOLS" tools_listing s s1.
Proof.
  intros Halloc Hcap Hview.
  destruct (show_tools_menu_holds w s Halloc Hcap) as (spare & Hrun & _).
  exists (with_store (tools_listing ++ spare) 4 (view_of "TOOLS" s)).
  split; [|apply (shows_view_ws "TOOLS" tools_listing)].
  unfold handle_b.
  destruct Hview as [<-|[<-|[<-|[]]]]; cbn [strcmp_eq String.eqb Ascii.eqb
    Bool.eqb]; rewrite Hrun; reflexivity.
Qed.

Lemma back_from_tool_screen_shows_tools_witness :
  exists s1,
    handle_b 8 demo_world (show_hotkeys_screen blank_state) = Ok s1
    /\ shows_view "TOOLS" tools_listing (show_hotkeys_screen blank_state) s1.
Proof.
  apply (back_from_tool_screen_shows_tools 8 demo_world
           (show_hotkeys_screen blank_state)).
  - intros n. reflexivity.
  - vm_compute. discriminate.
  - simpl. tauto.
Defined.

(** X12. Where the view has no '/' in its tag, which is so in Recent
    games, Favorites, Tools and Utils, confirming a ".." row changes
    nothing: the row does not lead back, only the B button does. *)
Theorem confirm_on_back_row_of_special_view (V : Z) (w : World) (sa : bool)
  (s : State) (e : MenuEntry) :
  0 < entry_count s ->
  read_cell (selected_index s) (entries s) = Ok e ->
  name e = ".."%string ->
  ~ contains "/" (current_path s) ->
  handle_a V w sa s = Ok (Fallthrough, s).
Proof.
  intros Hcount Hread Hname Hview. unfold handle_a.
  replace (entry_count s >? 0) with true by lia.
  rewrite Hread. cbn [bind]. unfold name_is. rewrite Hname.
  change (strcmp_eq ".." "..") with true. cbv iota.
  unfold go_to_parent. rewrite strrchr_split_absent by exact Hview.
  reflexivity.
Qed.

Lemma confirm_on_back_row_of_special_view_witness :
  handle_a 8 demo_world false (set_selected_index 1 broken_recents_state)
  = Ok (Fallthrough, set_selected_index 1 broken_recents_state).
Proof.
  apply (confirm_on_back_row_of_special_view 8 demo_world false
           (set_selected_index 1 broken_recents_state)
           (mkEntry ROMS_PATH ".." true)).
  - simpl. lia.
  - reflexivity.
  - reflexivity.
  - unfold contains. simpl. intuition discriminate.
Defined.

(** ** Confirming a stored game *)

Lemma read_cell_lookup (a : list MenuEntry) (i : nat) (e : MenuEntry) :
  a !! i = Some e -> read_cell (Z.of_nat i) a = Ok e.
Proof.
  intros Hlook. unfold read_cell, in_block.
  pose proof (lookup_lt_Some _ _ _ Hlook) as Hlt.
  replace ((0 <=? Z.of_nat i) && (Z.of_nat i <? Z.of_nat (length a)))
    with true by lia.
  rewrite Nat2Z.id, Hlook. reflexivity.
Qed.

Lemma find_full_path_found (g : RecentGame) (games : list RecentGame) :
  In g games ->
  key_unambiguous g games ->
  find_full_path (core_name g) (game_name g) games = Some (full_path g).
Proof.
  induction games as [|g0 games IH]; intros Hin Hkey; [destruct Hin|].
  cbn [find_full_path]. unfold strcmp_eq.
  destruct (String.eqb_spec (core_name g0) (core_name g)) as [Hc|Hc];
    [destruct (String.eqb_spec (game_name g0) (game_name g)) as [Hn|Hn]|];
    cbn [andb].
  - rewrite (Hkey g0 (or_introl eq_refl) Hc Hn). reflexivity.
  - destruct Hin as [->|Hin]; [congruence|].
    apply IH; [exact Hin | intros g' Hg'; apply Hkey; right; exact Hg'].
  - destruct Hin as [->|Hin]; [congruence|].
    apply IH; [exact Hin | intros g' Hg'; apply Hkey; right; exact Hg'].
Qed.

Lemma composite_key_splits (g : RecentGame) :
  key_ok g ->
  split_composite_key (path (game_row g))
  = Some (core_name g, game_name g).
Proof.
  intros (Hsep & Hcore & Hname & _). unfold game_row. cbn [path].
  unfold strncpy_buf.
  rewrite str_take_all by (rewrite string_length_append; simpl; lia).
  unfold split_composite_key. rewrite strchr_split_app by exact Hsep.
  unfold snprintf_buf.
  rewrite !str_take_all by (simpl; lia). reflexivity.
Qed.

(** Confirming the row of the [i]-th stored game in the view that lists
    [games]. *)
Lemma game_row_launch (V : Z) (w : World) (sa : bool) (tag : string)
  (games : list RecentGame) (base : State) (spare : list MenuEntry)
  (i : nat) (g : RecentGame) :
  (tag = "RECENT_GAMES"%string /\ recent_games base = games)
  \/ (tag = "FAVORITES"%string /\ favorites base = games) ->
  games !! i = Some g ->
  key_ok g ->
  key_unambiguous g games ->
  handle_a V w sa
    (set_selected_index (Z.of_nat i)
       (with_store (game_listing games ++ spare)
          (Z.of_nat (length (game_listing games))) (view_of tag base)))
  = Ok (Fallthrough,
        init_direct_loader w (core_name g) (full_path g) (game_name g)
          (set_selected_index (Z.of_nat i)
             (with_store (game_listing games ++ spare)
                (Z.of_nat (length (game_listing games)))
                (view_of tag base)))).
Proof.
  intros Htag Hlook Hkey Hunique.
  assert (Hrow : (game_listing games ++ spare) !! i = Some (game_row g)).
  { apply lookup_app_l_Some. unfold game_listing.
    apply lookup_app_l_Some. rewrite list_lookup_fmap, Hlook. reflexivity. }
  assert (Hin : In g games)
    by (apply list_elem_of_In, list_elem_of_lookup; eauto).
  pose proof (composite_key_splits g Hkey) as Hsplit.
  pose proof (find_full_path_found g games Hin Hunique) as Hfound.
  destruct Hkey as (_ & _ & _ & Hshown & Hdir).
  unfold handle_a.
  cbn [entry_count entries selected_index set_selected_index with_store
       set_entry_count set_entries].
  replace (Z.of_nat (length (game_listing games)) >? 0) with true
    by (unfold game_listing; rewrite length_app; simpl; lia).
  rewrite (read_cell_lookup _ _ _ Hrow). cbn [bind].
  replace (name_is ".." (game_row g)) with false
    by (symmetry; apply String.eqb_neq; exact Hshown).
  cbn [is_dir game_row]. unfold launch_file.
  destruct Htag as [[-> Hgames]|[-> Hgames]];
    cbn [current_path view_of set_current_path set_selected_index
         with_store set_entry_count set_entries reset_navigation_state
         set_boundary set_scroll_offset recent_games favorites];
    change (strncpy_buf 512 "RECENT_GAMES") with "RECENT_GAMES"%string;
    change (strncpy_buf 512 "FAVORITES") with "FAVORITES"%string;
    cbn [strcmp_eq String.eqb Ascii.eqb Bool.eqb];
    rewrite Hgames; unfold launch_composite;
    fold (game_row g); rewrite Hsplit, Hfound;
    unfold strcpy_buf;
    replace (String.length (full_path g) <? 256)%nat with true by lia;
    reflexivity.
Qed.

(** X13. The key round trip of the Recent games and Favorites views:
    confirming the row of a stored game launches that game, with the
    core, the directory and the file name that the store holds for it. *)
Theorem stored_game_row_launches_that_game (V : Z) (w : World) (sa : bool)
  (s : State) (i j : nat) (g f : RecentGame) :
  alloc_ok w ->
  entries_capacity s <= CAPACITY_LIMIT ->
  Z.of_nat (length (recent_games s)) <= DIRECTORY_LIMIT ->
  Z.of_nat (length (favorites s)) <= DIRECTORY_LIMIT ->
  recent_games s !! i = Some g ->
  key_ok g -> key_unambiguous g (recent_games s) ->
  favorites s !! j = Some f ->
  key_ok f -> key_unambiguous f (favorites s) ->
  (exists s1,
     show_recent_games w s = Ok s1
     /\ handle_a V w sa (set_selected_index (Z.of_nat i) s1)
        = Ok (Fallthrough,
              init_direct_loader w (core_name g) (full_path g) (game_name g)
                (set_selected_index (Z.of_nat i) s1)))
  /\ (exists s1,
        show_favorites w s = Ok s1
        /\ handle_a V w sa (set_selected_index (Z.of_nat j) s1)
           = Ok (Fallthrough,
                 init_direct_loader w (core_name f) (full_path f)
                   (game_name f) (set_selected_index (Z.of_nat j) s1))).
Proof.
  intros Halloc Hcap Hrecent Hfav Hg Hgk Hgu Hf Hfk Hfu. split.
  - destruct (show_game_list_holds w "RECENT_GAMES" (recent_games s) s
                Halloc Hcap Hrecent) as (spare & Hrun & _).
    eexists. split; [exact Hrun|].
    apply game_row_launch; try assumption. left. split; reflexivity.
  - destruct (show_game_list_holds w "FAVORITES" (favorites s) s
                Halloc Hcap Hfav) as (spare & Hrun & _).
    eexists. split; [exact Hrun|].
    apply game_row_launch; try assumption. right. split; reflexivity.
Qed.
Lemma mario_key_ok : key_ok mario.
Proof.
  unfold key_ok, contains. simpl.
  split; [intuition discriminate|]. repeat split; try lia. discriminate.
Qed.

Lemma stored_game_row_launches_that_game_witness :
  (exists s1,
     show_recent_games demo_world played_state = Ok s1
     /\ handle_a 8 demo_world false (set_selected_index (Z.of_nat 1) s1)
        = Ok (Fallthrough,
              init_direct_loader demo_world (core_name mario)
                (full_path mario) (game_name mario)
                (set_selected_index (Z.of_nat 1) s1)))
  /\ (exists s1,
        show_favorites demo_world played_state = Ok s1
        /\ handle_a 8 demo_world false (set_selected_index (Z.of_nat 0) s1)
           = Ok (Fallthrough,
                 init_direct_loader demo_world (core_name mario)
                   (full_path mario) (game_name mario)
                   (set_selected_index (Z.of_nat 0) s1))).
Proof.
  apply (stored_game_row_launches_that_game 8 demo_world false played_state
           1 0 mario mario).
  - intros n. reflexivity.
  - vm_compute. discriminate.
  - vm_compute. discriminate.
  - vm_compute. discriminate.
  - reflexivity.
  - exact mario_key_ok.
  - intros g' [<-|[<-|[]]] Hc Hn; [discriminate Hc | reflexivity].
  - reflexivity.
  - exact mario_key_ok.
  - intros g' [<-|[]] Hc Hn. reflexivity.
Defined.

(** ** Start-up: facts *)

(** X14. Resume on boot: with a game in the recents store,
    [retro_init] queues the most recent one and scans nothing, so the
    store, the view and the selection stay as they were; and what it
    hands to the loader and to the recents store is what confirming
    the first row of the Recent games view hands over. *)
Theorem resume_on_boot_launches_most_recent (V : Z) (w : World) (sa : bool)
  (s : State) (g : RecentGame) (rest : list RecentGame) :
  alloc_ok w ->
  entries_capacity s <= CAPACITY_LIMIT ->
  Z.of_nat (length (recent_games s)) <= DIRECTORY_LIMIT ->
  recent_games s = g :: rest ->
  key_ok g -> key_unambiguous g (recent_games s) ->
  exists s_boot,
    retro_init V w sa true s = Ok s_boot
    /\ s_boot
       = init_direct_loader w (core_name g) (full_path g) (game_name g) s
    /\ game_queued s_boot = true
    /\ entries s_boot = entries s
    /\ listing s_boot = listing s
    /\ current_path s_boot = current_path s
    /\ exists s1 s2,
         show_recent_games w s = Ok s1
         /\ handle_a V w sa s1 = Ok (Fallthrough, s2)
         /\ launched s2 = launched s_boot.
Proof.
  intros Halloc Hcap Hfits Hrecent Hkey Hunique.
  exists (init_direct_loader w (core_name g) (full_path g) (game_name g) s).
  split.
  { unfold retro_init, auto_launch_recent_game. rewrite Hrecent. reflexivity. }
  split; [reflexivity|]. split; [reflexivity|]. split; [reflexivity|].
  split; [reflexivity|]. split; [reflexivity|].
  destruct (show_game_list_holds w "RECENT_GAMES" (recent_games s) s
              Halloc Hcap Hfits) as (spare & Hrun & _).
  pose proof (game_row_launch V w sa "RECENT_GAMES" (recent_games s) s spare
                0 g) as Hlaunch.
  do 2 eexists. split; [exact Hrun|]. split.
  - apply Hlaunch; try assumption.
    + left. split; reflexivity.
    + rewrite Hrecent. reflexivity.
  - reflexivity.
Qed.

Lemma resume_on_boot_launches_most_recent_witness :
  exists s_boot,
    retro_init 8 demo_world false true played_state = Ok s_boot
    /\ s_boot
       = init_direct_loader demo_world (core_name tetris) (full_path tetris)
           (game_name tetris) played_state
    /\ game_queued s_boot = true
    /\ entries s_boot = entries played_state
    /\ listing s_boot = listing played_state
    /\ current_path s_boot = current_path played_state
    /\ exists s1 s2,
         show_recent_games demo_world played_state = Ok s1
         /\ handle_a 8 demo_world false s1 = Ok (Fallthrough, s2)
         /\ launched s2 = launched s_boot.
Proof.
  apply (resume_on_boot_launches_most_recent 8 demo_world false played_state
           tetris [mario]).
  - intros n. reflexivity.
  - vm_compute. discriminate.
  - vm_compute. discriminate.
  - reflexivity.
  - unfold key_ok, contains. simpl.
    split; [intuition discriminate|]. repeat split; try lia. discriminate.
  - intros g' [<-|[<-|[]]] Hc Hn; [reflexivity | discriminate Hc].
Defined.

(** ** The X button *)

(** X15. Removing a favorite: on a file row of the Favorites view the X
    button removes the favorite at the selected index and shows the
    view again from the shortened store. The selection is then on the
    first row: the adjustment that follows in the source never moves
    it, because the refresh has already reset it. *)
Theorem removing_a_favorite_refreshes_the_view (w : World) (s : State)
  (e : MenuEntry) :
  alloc_ok w ->
  entries_capacity s <= CAPACITY_LIMIT ->
  current_path s = "FAVORITES"%string ->
  0 < entry_count s ->
  read_cell (selected_index s) (entries s) = Ok e ->
  is_dir e = false ->
  name e <> ".."%string ->
  Z.of_nat (length (favorites_remove_by_index w (selected_index s)
                      (favorites s))) <= DIRECTORY_LIMIT ->
  exists s1,
    handle_x w s = Ok s1
    /\ show_favorites w
         (set_favorites
            (favorites_remove_by_index w (selected_index s) (favorites s)) s)
       = Ok s1
    /\ shows_view "FAVORITES"
         (game_listing
            (favorites_remove_by_index w (selected_index s) (favorites s)))
         (set_favorites
            (favorites_remove_by_index w (selected_index s) (favorites s)) s)
         s1
    /\ selected_index s1 = 0 /\ scroll_offset s1 = 0.
Proof.
  intros Halloc Hcap Hview Hcount Hread Hfile Hname Hfits.
  set (favs := favorites_remove_by_index w (selected_index s) (favorites s))
    in *.
  destruct (show_game_list_holds w "FAVORITES" favs (set_favorites favs s)
              Halloc Hcap Hfits) as (spare & Hrun & _).
  eexists. split; [|split; [exact Hrun|]].
  - unfold handle_x. replace (entry_count s >? 0) with true by lia.
    rewrite Hread. cbn [bind]. rewrite Hview.
    change (strcmp_eq "FAVORITES" "FAVORITES") with true. cbv iota.
    rewrite Hfile. unfold name_is.
    replace (strcmp_eq (name e) "..") with false
      by (symmetry; apply String.eqb_neq; exact Hname).
    cbn [negb andb]. fold favs. unfold show_favorites.
    change (favorites (set_favorites favs s)) with favs.
    rewrite Hrun. cbn [bind].
    cbn [favorites with_store set_entry_count set_entries view_of
         set_current_path reset_navigation_state set_boundary
         set_scroll_offset set_selected_index set_favorites selected_index].
    destruct (Z.eqb_spec (Z.of_nat (length favs)) 0) as [_|Hne];
      [reflexivity|].
    replace (0 >=? Z.of_nat (length favs)) with false by lia.
    reflexivity.
  - split; [apply (shows_view_ws "FAVORITES" (game_listing favs))|].
    split; reflexivity.
Qed.
Lemma removing_a_favorite_refreshes_the_view_witness :
  exists s1,
    handle_x demo_world favorites_view_state = Ok s1
    /\ show_favorites demo_world
         (set_favorites
            (favorites_remove_by_index demo_world
               (selected_index favorites_view_state)
               (favorites favorites_view_state)) favorites_view_state)
       = Ok s1
    /\ shows_view "FAVORITES"
         (game_listing
            (favorites_remove_by_index demo_world
               (selected_index favorites_view_state)
               (favorites favorites_view_state)))
         (set_favorites
            (favorites_remove_by_index demo_world
               (selected_index favorites_view_state)
               (favorites favorites_view_state)) favorites_view_state)
         s1
    /\ selected_index s1 = 0 /\ scroll_offset s1 = 0.
Proof.
  apply (removing_a_favorite_refreshes_the_view demo_world
           favorites_view_state (game_row mario)).
  - intros n. reflexivity.
  - vm_compute. discriminate.
  - reflexivity.
  - vm_compute. reflexivity.
  - reflexivity.
  - reflexivity.
  - discriminate.
  - vm_compute. discriminate.
Defined.

Lemma strip_prefix_app (p x : string) :
  strip_prefix p (String.append p x) = Some x.
Proof.
  induction p as [|c p IH]; simpl; [destruct x; reflexivity|].
  rewrite Ascii.eqb_refl. exact IH.
Qed.

Lemma string_append_assoc (a b c : string) :
  String.append (String.append a b) c = String.append a (String.append b c).
Proof. induction a as [|x a IH]; simpl; [reflexivity | rewrite IH; reflexivity]. Qed.

(** Core, directory and file name of a path under the ROMS folder. *)
Lemma real_file_key (console sub file p : string) :
  p = String.append ROMS_PREFIX
        (String.append console (String.append sub (String "/" file))) ->
  ~ contains "/" console ->
  ~ contains "/" file ->
  sub = EmptyString \/ first_char sub = "/"%char ->
  (String.length p <= 255)%nat ->
  get_corename p 256 = console
  /\ clean_path p = String.append console sub
  /\ strrchr_split "/" p
     = Some (String.append ROMS_PREFIX (String.append console sub), file)
  /\ snprintf_buf 256 file = file.
Proof.
  intros -> Hconsole Hfile Hsub Hlen.
  rewrite !string_length_append in Hlen. simpl in Hlen.
  split; [|split; [|split]].
  - unfold get_corename. rewrite strip_prefix_app.
    assert (Hsplit : exists rest,
              String.append console (String.append sub (String "/" file))
              = String.append console (String "/" rest)).
    { destruct Hsub as [->|Hsub]; [eexists; reflexivity|].
      destruct sub as [|c sub]; [discriminate Hsub|].
      simpl in Hsub. subst c. eexists. reflexivity. }
    destruct Hsplit as (rest & ->).
    rewrite strchr_split_app by exact Hconsole.
    apply str_take_all. simpl. lia.
  - unfold clean_path. rewrite strip_prefix_app.
    rewrite <- string_append_assoc.
    rewrite strrchr_split_app by exact Hfile. reflexivity.
  - rewrite <- !string_append_assoc.
    rewrite strrchr_split_app by exact Hfile. reflexivity.
  - apply str_take_all. simpl. lia.
Qed.

Lemma legend_favourite_view (s : State) :
  x_button_mode s = LEGEND_X_FAVOURITE ->
  strcmp_eq (current_path s) "FAVORITES" = false
  /\ strcmp_eq (current_path s) ROMS_PATH = false
  /\ strcmp_eq (current_path s) "RECENT_GAMES" = false
  /\ strcmp_eq (current_path s) "TOOLS" = false
  /\ strcmp_eq (current_path s) "UTILS" = false
  /\ strcmp_eq (current_path s) "HOTKEYS" = false
  /\ strcmp_eq (current_path s) "CREDITS" = false.
Proof.
  unfold x_button_mode.
  destruct (strcmp_eq (current_path s) "FAVORITES"); [discriminate|].
  destruct (strcmp_eq (current_path s) ROMS_PATH); [discriminate|].
  destruct (strcmp_eq (current_path s) "RECENT_GAMES"); [discriminate|].
  destruct (strcmp_eq (current_path s) "TOOLS"); [discriminate|].
  destruct (strcmp_eq (current_path s) "UTILS"); [discriminate|].
  destruct (strcmp_eq (current_path s) "HOTKEYS"); [discriminate|].
  destruct (strcmp_eq (current_path s) "CREDITS"); [discriminate|].
  tauto.
Qed.

(** X16. In a view whose legend offers "X - FAVOURITE", a file row
    with the path [/mnt/sda1/ROMS/console sub/file] is marked as a
    favorite under the same core, directory and file name with which
    the A button launches it: the core is the first folder under ROMS,
    the directory the path from there to the file, without the file. *)
Theorem favourite_and_launch_share_the_key (V : Z) (w : World) (sa : bool)
  (s : State) (e : MenuEntry) (console sub file : string) :
  0 < entry_count s ->
  read_cell (selected_index s) (entries s) = Ok e ->
  is_dir e = false ->
  name e <> ".."%string ->
  x_button_mode s = LEGEND_X_FAVOURITE ->
  path e = String.append ROMS_PREFIX
             (String.append console (String.append sub (String "/" file))) ->
  ~ contains "/" console ->
  ~ contains "/" file ->
  sub = EmptyString \/ first_char sub = "/"%char ->
  (String.length (path e) <= 255)%nat ->
  handle_x w s
  = Ok (set_favorites
          (favorites_toggle w console file (String.append console sub)
             (favorites s)) s)
  /\ handle_a V w sa s
     = Ok (Fallthrough,
           init_direct_loader w console (String.append console sub) file s).
Proof.
  intros Hcount Hread Hfile Hname Hlegend Hpath Hconsole Hslash Hsub Hlen.
  destruct (legend_favourite_view s Hlegend)
    as (Hfav & Hroot & Hrecent & Htools & Hutils & Hhot & Hcred).
  destruct (real_file_key console sub file (path e) Hpath Hconsole Hslash
              Hsub Hlen) as (Hcore & Hdir & Hsplit & Hkeep).
  assert (Hcopy : strcpy_buf 256 (path e) = Ok (path e)).
  { unfold strcpy_buf.
    replace (String.length (path e) <? 256)%nat with true by lia.
    reflexivity. }
  split.
  - unfold handle_x. replace (entry_count s >? 0) with true by lia.
    rewrite Hread. cbn [bind].
    rewrite Hfav, Hfile, Hrecent, Htools, Hutils, Hhot, Hcred, Hroot.
    cbn [negb andb]. rewrite Hcopy. cbn [bind].
    rewrite Hcore, Hdir, Hsplit, Hkeep. reflexivity.
  - unfold handle_a. replace (entry_count s >? 0) with true by lia.
    rewrite Hread. cbn [bind]. unfold name_is.
    replace (strcmp_eq (name e) "..") with false
      by (symmetry; apply String.eqb_neq; exact Hname).
    rewrite Hfile. unfold launch_file.
    rewrite Hutils, Hrecent, Hfav. unfold launch_real_file.
    rewrite Hcopy. cbn [bind pair_with].
    rewrite Hcore, Hdir, Hsplit, Hkeep. reflexivity.
Qed.

Lemma favourite_and_launch_share_the_key_witness :
  handle_x demo_world (set_selected_index 1 demo_gb_state)
  = Ok (set_favorites
          (favorites_toggle demo_world "gb" "Tetris.gb"
             (String.append "gb" "")
             (favorites (set_selected_index 1 demo_gb_state)))
          (set_selected_index 1 demo_gb_state))
  /\ handle_a 8 demo_world false (set_selected_index 1 demo_gb_state)
     = Ok (Fallthrough,
           init_direct_loader demo_world "gb" (String.append "gb" "")
             "Tetris.gb" (set_selected_index 1 demo_gb_state)).
Proof.
  apply (favourite_and_launch_share_the_key 8 demo_world false
           (set_selected_index 1 demo_gb_state)
           (mkEntry "/mnt/sda1/ROMS/gb/Tetris.gb" "Tetris.gb" false)
           "gb" "" "Tetris.gb").
  - vm_compute. reflexivity.
  - vm_compute. reflexivity.
  - reflexivity.
  - discriminate.
  - vm_compute. reflexivity.
  - reflexivity.
  - unfold contains. simpl. intuition discriminate.
  - unfold contains. simpl. intuition discriminate.
  - left. reflexivity.
  - simpl. lia.
Defined.

(** X17. The legend and the X button agree: in a view whose legend
    offers no X action, and on every directory row of every view, the X
    button changes nothing. *)
Theorem no_legend_no_action (w : World) (s : State) (e : MenuEntry) :
  read_cell (selected_index s) (entries s) = Ok e ->
  x_button_mode s = LEGEND_X_NONE \/ is_dir e = true ->
  handle_x w s = Ok s.
Proof.
  intros Hread Hidle. unfold handle_x.
  destruct (entry_count s >? 0); [|reflexivity].
  rewrite Hread. cbn [bind].
  destruct Hidle as [Hnone|Hdir].
  - unfold x_button_mode in Hnone.
    destruct (strcmp_eq (current_path s) "FAVORITES"); [discriminate|].
    destruct (is_dir e); [reflexivity|]. cbn [negb andb].
    destruct (strcmp_eq (current_path s) ROMS_PATH);
      [rewrite !andb_false_r; reflexivity|].
    destruct (strcmp_eq (current_path s) "RECENT_GAMES"); [reflexivity|].
    destruct (strcmp_eq (current_path s) "TOOLS"); [reflexivity|].
    destruct (strcmp_eq (current_path s) "UTILS"); [reflexivity|].
    destruct (strcmp_eq (current_path s) "HOTKEYS"); [reflexivity|].
    destruct (strcmp_eq (current_path s) "CREDITS"); [reflexivity|].
    discriminate Hnone.
  - rewrite Hdir. cbn [negb andb].
    destruct (strcmp_eq (current_path s) "FAVORITES"); reflexivity.
Qed.

Lemma no_legend_no_action_witness :
  handle_x demo_world demo_root_state = Ok demo_root_state.
Proof.
  apply (no_legend_no_action demo_world demo_root_state
           (mkEntry "/mnt/sda1/ROMS/gb" "gb" true)).
  - vm_compute. reflexivity.
  - left. reflexivity.
Defined.

(** ** Stepping back and forth *)

Lemma rem_once (n i : Z) : 0 <= i < n -> Z.rem (n + i) n = i.
Proof.
  intros Hi. rewrite Z.rem_mod_nonneg by lia.
  replace (n + i) with (i + 1 * n) by lia.
  rewrite Z.mod_add by lia. apply Z.mod_small. lia.
Qed.

(** X18. Stepping is undone by the opposite step, as far as the
    selection goes: down after up and up after down return to the row
    they started from, and so does page down after page up, in a list
    of any length; page up after page down returns to it in a list of
    at least 7 rows. *)
Theorem opposite_steps_cancel (V : Z) (s : State) :
  0 <= selected_index s < entry_count s ->
  entry_count s <= INT_MAX - 7 ->
  selected_index (handle_down V (handle_up s)) = selected_index s
  /\ selected_index (handle_up (handle_down V s)) = selected_index s
  /\ (exists s1,
        handle_r V (handle_l s) = Ok s1
        /\ selected_index s1 = selected_index s)
  /\ (7 <= entry_count s ->
      exists s1,
        handle_r V s = Ok s1
        /\ selected_index (handle_l s1) = selected_index s).
Proof.
  intros Hsel Hmax. unfold INT_MAX in Hmax.
  split; [|split; [|split]].
  - unfold handle_down, handle_up, scroll_up_to_selection,
      scroll_down_to_selection.
    repeat (break_if; simpl in *; unwrap); lia.
  - unfold handle_down, handle_up, scroll_up_to_selection,
      scroll_down_to_selection.
    repeat (break_if; simpl in *; unwrap); lia.
  - unfold handle_r, handle_l, scroll_up_to_selection,
      scroll_down_to_selection, int_rem.
    destruct (Z.geb_spec (selected_index s) 7) as [Hfar|Hnear].
    + repeat (break_if; simpl in *; unwrap);
        try (eexists; split; [reflexivity|]; simpl; lia); lia.
    + assert (Hrem : Z.rem (entry_count s - (7 - selected_index s) + 7)
                       (entry_count s) = selected_index s).
      { replace (entry_count s - (7 - selected_index s) + 7)
          with (entry_count s + selected_index s) by lia.
        apply rem_once. lia. }
      repeat (break_if; simpl in *; unwrap); try lia;
        rewrite Hrem; unwrap;
        (eexists; split; [reflexivity|]); simpl;
        repeat (break_if; simpl in *; unwrap); lia.
  - intros Hlong.
    unfold handle_r, handle_l, scroll_up_to_selection,
      scroll_down_to_selection, int_rem.
    destruct (Z.ltb_spec (selected_index s) (int_sub (entry_count s) 7))
      as [Hin|Hout]; unwrap.
    + cbn [bind]. eexists. split; [reflexivity|].
      repeat (break_if; simpl in *; unwrap); lia.
    + assert (Hrem : Z.rem (selected_index s + 7) (entry_count s)
                     = selected_index s + 7 - entry_count s).
      { rewrite <- (rem_once (entry_count s)
                      (selected_index s + 7 - entry_count s)) by lia.
        f_equal. lia. }
      replace (entry_count s =? 0) with false by lia.
      rewrite Hrem. unwrap. cbn [bind].
      eexists. split; [reflexivity|].
      repeat (break_if; simpl in *; unwrap); lia.
Qed.

Lemma opposite_steps_cancel_witness :
  selected_index (handle_down 8 (handle_up (store_of 10 0 0)))
  = selected_index (store_of 10 0 0)
  /\ selected_index (handle_up (handle_down 8 (store_of 10 0 0)))
     = selected_index (store_of 10 0 0)
  /\ (exists s1,
        handle_r 8 (handle_l (store_of 10 0 0)) = Ok s1
        /\ selected_index s1 = selected_index (store_of 10 0 0))
  /\ (7 <= entry_count (store_of 10 0 0) ->
      exists s1,
        handle_r 8 (store_of 10 0 0) = Ok s1
        /\ selected_index (handle_l s1) = selected_index (store_of 10 0 0)).
Proof.
  apply (opposite_steps_cancel 8 (store_of 10 0 0)).
  - simpl. lia.
  - vm_compute. discriminate.
Defined.

(** X19. Page up in a list of fewer than 7 rows: from a row [i] with
    [i < 7 - n] the selection becomes [n - 7 + i], a position before the
    first row, and the scroll offset follows it; confirming or marking
    a favorite then reads [entries] outside its block. *)
Theorem page_up_leaves_a_short_list (V : Z) (w : World) (sa : bool)
  (s : State) :
  0 < entry_count s < 7 ->
  0 <= selected_index s < 7 - entry_count s ->
  0 <= scroll_offset s ->
  selected_index (handle_l s) = entry_count s - 7 + selected_index s
  /\ selected_index (handle_l s) < 0
  /\ scroll_offset (handle_l s) = selected_index (handle_l s)
  /\ handle_a V w sa (handle_l s) = Undefined OutOfBounds
  /\ handle_x w (handle_l s) = Undefined OutOfBounds.
Proof.
  intros Hcount Hsel Hscroll.
  assert (Hl : handle_l s
               = set_scroll_offset (entry_count s - 7 + selected_index s)
                   (set_selected_index
                      (entry_count s - 7 + selected_index s) s)).
  { unfold handle_l, scroll_up_to_selection.
    replace (selected_index s >=? 7) with false by lia. unwrap.
    cbn [selected_index scroll_offset set_selected_index].
    replace (entry_count s - (7 - selected_index s))
      with (entry_count s - 7 + selected_index s) by lia.
    replace (entry_count s - 7 + selected_index s <? scroll_offset s)
      with true by lia.
    reflexivity. }
  rewrite Hl. cbn [selected_index scroll_offset set_scroll_offset
                   set_selected_index].
  split; [reflexivity|]. split; [lia|]. split; [reflexivity|].
  assert (Hread : read_cell (entry_count s - 7 + selected_index s) (entries s)
                  = Undefined OutOfBounds).
  { unfold read_cell, in_block.
    replace (0 <=? entry_count s - 7 + selected_index s) with false by lia.
    reflexivity. }
  split.
  - unfold handle_a. cbn [entry_count entries selected_index
      set_scroll_offset set_selected_index].
    replace (entry_count s >? 0) with true by lia. rewrite Hread. reflexivity.
  - unfold handle_x. cbn [entry_count entries selected_index
      set_scroll_offset set_selected_index].
    replace (entry_count s >? 0) with true by lia. rewrite Hread. reflexivity.
Qed.

Lemma page_up_leaves_a_short_list_witness :
  selected_index (handle_l (store_of 3 0 0))
  = entry_count (store_of 3 0 0) - 7 + selected_index (store_of 3 0 0)
  /\ selected_index (handle_l (store_of 3 0 0)) < 0
  /\ scroll_offset (handle_l (store_of 3 0 0))
     = selected_index (handle_l (store_of 3 0 0))
  /\ handle_a 8 demo_world false (handle_l (store_of 3 0 0))
     = Undefined OutOfBounds
  /\ handle_x demo_world (handle_l (store_of 3 0 0)) = Undefined OutOfBounds.
Proof.
  apply (page_up_leaves_a_short_list 8 demo_world false (store_of 3 0 0)).
  - simpl. lia.
  - simpl. lia.
  - simpl. lia.
Defined.

(** [handle_buttons] is [handle_navigation] with the way out kept. *)
Lemma handle_buttons_navigation (V : Z) (w : World) (sa : bool) (ed : Edges)
  (changed : bool) (s : State) :
  handle_navigation V w sa ed changed s
  = let* cs := handle_buttons V w sa ed changed s in Ok (snd cs).
Proof.
  unfold handle_navigation, handle_buttons, pair_with. cbv zeta.
  destruct (if e_r ed then _ else _) as [s1|]; [|reflexivity]. cbn [bind].
  destruct (if e_x ed then _ else _) as [s2|]; [|reflexivity]. cbn [bind].
  destruct (if e_a ed then _ else _) as [[[] s3]|]; [| |reflexivity];
    cbn [bind]; [|reflexivity].
  destruct (if e_b ed then _ else _) as [s4|]; [|reflexivity]. cbn [bind].
  destruct changed; [destruct (render_menu V sa s4)|]; reflexivity.
Qed.

(** ** Frames: facts *)

Lemma scrolled_refl (s : State) : scrolled s s.
Proof. destruct s. reflexivity. Qed.

Lemma rendered_scrolled (V : Z) (sa : bool) (s : State) :
  scrolled s (rendered V sa s).
Proof.
  unfold rendered, render_menu_viewport.
  repeat break_if; try apply scrolled_refl; reflexivity.
Qed.

Lemma render_menu_scrolled (V : Z) (sa : bool) (s s' : State) :
  render_menu V sa s = Ok s' -> scrolled s s'.
Proof.
  intros Hrun. rewrite (render_menu_returns V sa s s' Hrun).
  apply rendered_scrolled.
Qed.



Section FrameFacts.

Variable V : Z.
Variable Settings : Type.
Variable is_active : Settings -> bool.
Variable on_input :
  bool -> bool -> bool -> bool -> bool -> bool -> bool ->
  Settings -> bool * Settings.
Variable load : Settings -> Settings.
Variable show_menu : Settings -> Settings.
Variable load_core : string -> Settings -> bool * Settings.

(** X20. Actions fire on release only: a frame in which no button goes
    from down to up, whatever is pressed or held, leaves the menu state
    as it was but for the scroll offset, which the redraw may adjust,
    and keeps the multicore flag and the sound; without a change of the
    input nothing is drawn and the menu state is the same. This is what
    [handle_input] returns when it returns: the redraw reads the rows of
    the window. *)
Theorem frame_without_release_changes_nothing (w : World) (pad : Pad)
  (f f' : Frame Settings) :
  nothing_released (prev_input f) pad ->
  handle_input V is_active on_input load show_menu load_core w pad f = Ok f' ->
  scrolled (menu f) (menu f')
  /\ show_multicore_opt f' = show_multicore_opt f
  /\ sound f' = sound f
  /\ (input_changed (prev_input f) pad = false -> menu f' = menu f).
Proof.
  intros (Hup & Hdown & Ha & Hb & Hl & Hr & Hselect & Hleft & Hright & Hx & Hy)
    Hrun.
  unfold handle_input in Hrun.
  destruct (game_queued (menu f)).
  { injection Hrun as <-. split; [apply scrolled_refl|]. repeat split. }
  rewrite Hselect, Hup, Hdown, Ha, Hb, Hl, Hr, Hleft, Hright, Hx, Hy in Hrun.
  cbn [orb bind] in Hrun.
  assert (Hredraw : forall sa s_r,
            (if input_changed (prev_input f) pad
             then render_menu V sa (menu f) else Ok (menu f)) = Ok s_r ->
            scrolled (menu f) s_r
            /\ (input_changed (prev_input f) pad = false -> s_r = menu f)).
  { intros sa s_r Hdraw. destruct (input_changed (prev_input f) pad).
    - split; [eapply render_menu_scrolled; exact Hdraw | discriminate].
    - injection Hdraw as <-. split; [apply scrolled_refl | reflexivity]. }
  destruct (on_input false false false false false false false (settings f))
    as [consumed st].
  destruct consumed.
  - destruct (if input_changed _ _ then _ else _) as [s_r|] eqn:Hdraw;
      cbn [bind] in Hrun; [|discriminate].
    injection Hrun as <-. cbn [menu show_multicore_opt sound].
    destruct (Hredraw _ _ Hdraw). repeat split; assumption.
  - destruct (az_picker_active (menu f)).
    + unfold az_picker_input, az_navigate in Hrun. cbn [andb bind] in Hrun.
      destruct (if input_changed _ _ then _ else _) as [s_r|] eqn:Hdraw;
        cbn [bind] in Hrun; [|discriminate].
      injection Hrun as <-. cbn [menu show_multicore_opt sound].
      destruct (Hredraw _ _ Hdraw). repeat split; assumption.
    + unfold handle_buttons, pair_with in Hrun.
      cbn [e_right e_up e_down e_l e_r e_x e_a e_b bind] in Hrun.
      destruct (if input_changed _ _ then _ else _) as [s_r|] eqn:Hdraw;
        cbn [bind] in Hrun; [|discriminate].
      injection Hrun as <-. cbn [menu show_multicore_opt sound].
      destruct (Hredraw _ _ Hdraw). repeat split; assumption.
Qed.

End FrameFacts.

Lemma frame_without_release_changes_nothing_witness :
  scrolled (menu demo_gb_frame)
    (menu (frame_after demo_world pad_a_down demo_gb_frame))
  /\ show_multicore_opt (frame_after demo_world pad_a_down demo_gb_frame)
     = show_multicore_opt demo_gb_frame
  /\ sound (frame_after demo_world pad_a_down demo_gb_frame)
     = sound demo_gb_frame
  /\ (input_changed (prev_input demo_gb_frame) pad_a_down = false ->
      menu (frame_after demo_world pad_a_down demo_gb_frame)
      = menu demo_gb_frame).
Proof.
  apply (frame_without_release_changes_nothing 8 unit (fun _ => false)
           closed_menu_input (fun st => st) (fun st => st) closed_menu_core
           demo_world pad_a_down demo_gb_frame
           (frame_after demo_world pad_a_down demo_gb_frame)).
  - repeat split.
  - vm_compute. reflexivity.
Defined.

Lemma scrolled_content (s s' : State) : scrolled s s' -> same_content s s'.
Proof. intros H. rewrite H. repeat split. Qed.

Lemma same_content_trans (s1 s2 s3 : State) :
  same_content s1 s2 -> same_content s2 s3 -> same_content s1 s3.
Proof.
  unfold same_content. intros (?&?&?&?&?&?) (?&?&?&?&?&?).
  repeat split; congruence.
Qed.

Lemma az_navigate_content (up down left right : bool) (s : State) :
  same_content s (az_navigate up down left right s).
Proof. unfold az_navigate. repeat break_if; repeat split. Qed.

Lemma az_confirm_content (s s' : State) :
  az_confirm s = Ok s' -> same_content s s'.
Proof.
  unfold az_confirm. destruct (_ && _); [|discriminate].
  destruct (search_chars !! _); [|discriminate].
  destruct (find_entry _ s); intros [= <-]; repeat split.
Qed.

Lemma az_picker_input_content (up down left right a b : bool) (s : State) :
  0 <= az_selected_index s <= 27 ->
  exists s', az_picker_input up down left right a b s = Ok s'
             /\ same_content s s'.
Proof.
  intros Hgrid. unfold az_picker_input.
  pose proof (az_navigate_content up down left right s) as Hnav.
  destruct (az_navigate_in_grid up down left right s Hgrid) as (Hgrid' & _).
  destruct a.
  - destruct (az_confirm_returns _ Hgrid') as (s' & Hrun & _).
    rewrite Hrun. cbn [bind]. eexists. split; [reflexivity|].
    apply (same_content_trans _ _ _ Hnav).
    apply (same_content_trans _ s'); [apply az_confirm_content, Hrun|].
    destruct b; repeat split.
  - cbn [bind]. eexists. split; [reflexivity|].
    apply (same_content_trans _ _ _ Hnav). destruct b; repeat split.
Qed.

Lemma store_picker_cells (pad : Pad) (p : list Z) :
  length p = 16%nat ->
  prev_at 0 (store_picker pad p) = pad_up pad
  /\ prev_at 1 (store_picker pad p) = pad_down pad
  /\ prev_at 2 (store_picker pad p) = pad_a pad
  /\ prev_at 3 (store_picker pad p) = pad_b pad
  /\ prev_at 7 (store_picker pad p) = pad_left pad
  /\ prev_at 8 (store_picker pad p) = pad_right pad
  /\ prev_at 4 (store_picker pad p) = prev_at 4 p
  /\ prev_at 5 (store_picker pad p) = prev_at 5 p
  /\ prev_at 6 (store_picker pad p) = prev_at 6 p
  /\ prev_at 9 (store_picker pad p) = prev_at 9 p
  /\ prev_at 10 (store_picker pad p) = prev_at 10 p.
Proof.
  intros Hlen.
  do 17 (destruct p as [|? p]; try discriminate Hlen).
  repeat split.
Qed.

Lemma store_main_cells (pad : Pad) (p : list Z) :
  length p = 16%nat ->
  prev_at 0 (store_main pad p) = pad_up pad
  /\ prev_at 1 (store_main pad p) = pad_down pad
  /\ prev_at 2 (store_main pad p) = pad_a pad
  /\ prev_at 3 (store_main pad p) = pad_b pad
  /\ prev_at 4 (store_main pad p) = pad_l pad
  /\ prev_at 5 (store_main pad p) = pad_r pad
  /\ prev_at 6 (store_main pad p) = pad_select pad
  /\ prev_at 7 (store_main pad p) = pad_left pad
  /\ prev_at 8 (store_main pad p) = pad_right pad
  /\ prev_at 9 (store_main pad p) = pad_x pad
  /\ prev_at 10 (store_main pad p) = prev_at 10 p.
Proof.
  intros Hlen.
  do 17 (destruct p as [|? p]; try discriminate Hlen).
  repeat split.
Qed.

Lemma all_mappings_reached : forallb mapping_reached console_mappings = true.
Proof. vm_compute. reflexivity. Qed.

Section FrameFacts2.

Variable V : Z.
Variable Settings : Type.
Variable is_active : Settings -> bool.
Variable on_input :
  bool -> bool -> bool -> bool -> bool -> bool -> bool ->
  Settings -> bool * Settings.
Variable load : Settings -> Settings.
Variable show_menu : Settings -> Settings.
Variable load_core : string -> Settings -> bool * Settings.

(** X21. While the A-Z picker is open it takes the frame: the store, the
    view, the stores of games and the launch state are left alone, so
    L, R, X and B act on nothing but the picker; and of the eleven
    buttons only up, down, A, B, left and right are recorded for the
    next frame, while the cells of L, R, SELECT, X and Y keep what they
    held. This is what [handle_input] returns when it returns: a
    direction released plays the navigation sound, and the redraw reads
    the rows around the new selection. *)
Theorem picker_frame_is_exclusive (w : World) (pad : Pad)
  (f f' : Frame Settings) :
  menu_closed on_input ->
  game_queued (menu f) = false ->
  released (prev_at 6 (prev_input f)) (pad_select pad) = false ->
  az_picker_active (menu f) = true ->
  0 <= az_selected_index (menu f) <= 27 ->
  length (prev_input f) = 16%nat ->
  handle_input V is_active on_input load show_menu load_core w pad f = Ok f' ->
  same_content (menu f) (menu f')
  /\ prev_input f' = store_picker pad (prev_input f)
  /\ prev_at 4 (prev_input f') = prev_at 4 (prev_input f)
  /\ prev_at 5 (prev_input f') = prev_at 5 (prev_input f)
  /\ prev_at 6 (prev_input f') = prev_at 6 (prev_input f)
  /\ prev_at 9 (prev_input f') = prev_at 9 (prev_input f)
  /\ prev_at 10 (prev_input f') = prev_at 10 (prev_input f).
Proof.
  intros Hclosed Hqueue Hselect Hpicker Hgrid Hlen Hframe.
  unfold handle_input in Hframe. rewrite Hqueue in Hframe.
  destruct (if _ || _ || _ || _ then navigation_sfx w (sound f) else _)
    as [sd|]; cbn [bind] in Hframe; [|discriminate].
  rewrite Hselect in Hframe.
  match type of Hframe with
  | context [on_input ?u ?d ?l ?r ?a ?b ?y ?st] =>
      pose proof (Hclosed u d l r a b y st) as Hno;
      destruct (on_input u d l r a b y st) as [consumed st'];
      destruct (az_picker_input_content u d l r a b (menu f) Hgrid)
        as (s' & Hrun & Hsame)
  end.
  cbn [fst] in Hno. subst consumed.
  rewrite Hpicker, Hrun in Hframe. cbn [bind] in Hframe.
  destruct (if input_changed _ _ then _ else _) as [s_r|] eqn:Hdraw;
    cbn [bind] in Hframe; [|discriminate].
  injection Hframe as <-. cbn [menu prev_input].
  split.
  - apply (same_content_trans _ _ _ Hsame).
    destruct (input_changed (prev_input f) pad).
    + apply scrolled_content. eapply render_menu_scrolled. exact Hdraw.
    + injection Hdraw as <-. repeat split.
  - split; [reflexivity|].
    destruct (store_picker_cells pad (prev_input f) Hlen)
      as (_ & _ & _ & _ & _ & _ & H4 & H5 & H6 & H9 & H10).
    tauto.
Qed.

(** X23. SELECT in the folder of a console: for every row of
    [console_mappings], releasing SELECT in the folder
    [/mnt/sda1/ROMS/console], with the settings menu closed and the
    multicore flag off, asks the settings module for the settings of the
    core of that row; no row is shadowed by an earlier one. The menu
    state is redrawn, only the SELECT cell of [prev_input] is stored,
    and the sound is kept or is what [navigation_sfx] left when a
    direction was released in the same frame. This is what
    [handle_input] returns when it returns. *)
Theorem select_asks_for_the_core_of_the_folder (w : World) (pad : Pad)
  (f f' : Frame Settings) (console core : string) :
  In (console, core) console_mappings ->
  game_queued (menu f) = false ->
  released (prev_at 6 (prev_input f)) (pad_select pad) = true ->
  is_active (settings f) = false ->
  show_multicore_opt f = false ->
  current_path (menu f) = String.append ROMS_PREFIX console ->
  handle_input V is_active on_input load show_menu load_core w pad f = Ok f' ->
  settings f' = show_core_settings show_menu load_core core (settings f)
  /\ menu f' = rendered V (is_active (settings f')) (menu f)
  /\ prev_input f' = <[6%nat := pad_select pad]> (prev_input f)
  /\ show_multicore_opt f' = false
  /\ (sound f' = sound f \/ navigation_sfx w (sound f) = Ok (sound f')).
Proof.
  intros Hrow Hqueue Hselect Hidle Hflag Hpath Hframe.
  pose proof all_mappings_reached as Hall.
  rewrite forallb_forall in Hall. specialize (Hall _ Hrow).
  unfold mapping_reached in Hall. cbn [fst snd] in Hall.
  unfold handle_input in Hframe. rewrite Hqueue in Hframe.
  assert (Hsound : forall sd,
            (if released (prev_at 0 (prev_input f)) (pad_up pad)
                || released (prev_at 1 (prev_input f)) (pad_down pad)
                || released (prev_at 7 (prev_input f)) (pad_left pad)
                || released (prev_at 8 (prev_input f)) (pad_right pad)
             then navigation_sfx w (sound f) else Ok (sound f)) = Ok sd ->
            sd = sound f \/ navigation_sfx w (sound f) = Ok sd).
  { intros sd. destruct (_ || _ || _ || _); [right; assumption|].
    intros [= <-]. left. reflexivity. }
  destruct (if _ || _ || _ || _ then navigation_sfx w (sound f) else _)
    as [sd|]; cbn [bind] in Hframe; [|discriminate].
  specialize (Hsound sd eq_refl).
  rewrite Hselect in Hframe. unfold select_released in Hframe.
  cbn [menu prev_input show_multicore_opt settings sound] in Hframe.
  rewrite Hidle, Hflag, Hpath in Hframe.
  apply andb_true_iff in Hall. destruct Hall as [Hroot Hall].
  apply negb_true_iff in Hroot. rewrite Hroot in Hframe.
  destruct (strrchr_split "/" (String.append ROMS_PREFIX console))
    as [[parent leaf]|]; [|discriminate Hall].
  repeat (apply andb_true_iff in Hall; destruct Hall as [Hall ?]).
  apply negb_true_iff in Hall. rewrite Hall in Hframe.
  unfold strcpy_buf in Hframe.
  match goal with H : (String.length leaf <? 256)%nat = true |- _ =>
    rewrite H in Hframe end.
  cbn [bind] in Hframe.
  destruct (get_core_name_for_console leaf) as [core'|]; [|discriminate].
  match goal with H : String.eqb core' core = true |- _ =>
    apply String.eqb_eq in H; subst core' end.
  cbn [bind] in Hframe.
  destruct (render_menu V _ (menu f)) as [s_r|] eqn:Hdraw;
    cbn [bind] in Hframe; [|discriminate].
  injection Hframe as <-.
  cbn [menu prev_input show_multicore_opt settings sound].
  split; [reflexivity|]. split; [exact (render_menu_returns V _ _ _ Hdraw)|].
  split; [reflexivity|]. split; [reflexivity | exact Hsound].
Qed.

End FrameFacts2.



Section FrameFacts3.

Variable V : Z.
Variable Settings : Type.
Variable is_active : Settings -> bool.
Variable on_input :
  bool -> bool -> bool -> bool -> bool -> bool -> bool ->
  Settings -> bool * Settings.
Variable load : Settings -> Settings.
Variable show_menu : Settings -> Settings.
Variable load_core : string -> Settings -> bool * Settings.


End FrameFacts3.
Lemma closed_menu_is_closed : menu_closed closed_menu_input.
Proof. intros up down left right a b y st. reflexivity. Qed.

Lemma picker_frame_is_exclusive_witness :
  same_content (menu fruit_frame)
    (menu (frame_after demo_world pad_at_rest fruit_frame))
  /\ prev_input (frame_after demo_world pad_at_rest fruit_frame)
     = store_picker pad_at_rest (prev_input fruit_frame)
  /\ prev_at 4 (prev_input (frame_after demo_world pad_at_rest fruit_frame))
     = prev_at 4 (prev_input fruit_frame)
  /\ prev_at 5 (prev_input (frame_after demo_world pad_at_rest fruit_frame))
     = prev_at 5 (prev_input fruit_frame)
  /\ prev_at 6 (prev_input (frame_after demo_world pad_at_rest fruit_frame))
     = prev_at 6 (prev_input fruit_frame)
  /\ prev_at 9 (prev_input (frame_after demo_world pad_at_rest fruit_frame))
     = prev_at 9 (prev_input fruit_frame)
  /\ prev_at 10 (prev_input (frame_after demo_world pad_at_rest fruit_frame))
     = prev_at 10 (prev_input fruit_frame).
Proof.
  apply (picker_frame_is_exclusive 8 unit (fun _ => false) closed_menu_input
           (fun st => st) (fun st => st) closed_menu_core demo_world
           pad_at_rest fruit_frame
           (frame_after demo_world pad_at_rest fruit_frame)).
  - exact closed_menu_is_closed.
  - reflexivity.
  - reflexivity.
  - reflexivity.
  - simpl. lia.
  - reflexivity.
  - vm_compute. reflexivity.
Defined.


Lemma select_asks_for_the_core_of_the_folder_witness :
  settings (frame_after demo_world pad_at_rest demo_select_frame)
  = show_core_settings (fun st => st) closed_menu_core "Gambatte"
      (settings demo_select_frame)
  /\ menu (frame_after demo_world pad_at_rest demo_select_frame)
     = rendered 8
         ((fun _ => false)
            (settings (frame_after demo_world pad_at_rest demo_select_frame)))
         (menu demo_select_frame)
  /\ prev_input (frame_after demo_world pad_at_rest demo_select_frame)
     = <[6%nat := pad_select pad_at_rest]> (prev_input demo_select_frame)
  /\ show_multicore_opt (frame_after demo_world pad_at_rest demo_select_frame)
     = false
  /\ (sound (frame_after demo_world pad_at_rest demo_select_frame)
      = sound demo_select_frame
      \/ navigation_sfx demo_world (sound demo_select_frame)
         = Ok (sound (frame_after demo_world pad_at_rest demo_select_frame))).
Proof.
  apply (select_asks_for_the_core_of_the_folder 8 unit (fun _ => false)
           closed_menu_input (fun st => st) (fun st => st) closed_menu_core
           demo_world pad_at_rest demo_select_frame
           (frame_after demo_world pad_at_rest demo_select_frame)
           "gb" "Gambatte").
  - right. left. reflexivity.
  - reflexivity.
  - reflexivity.
  - reflexivity.
  - reflexivity.
  - reflexivity.
  - vm_compute. reflexivity.
Defined.

(** ** Random game: facts *)

Lemma scan_ok (w : World) (pth : string) (s : State) :
  alloc_ok w ->
  entries_capacity s <= CAPACITY_LIMIT ->
  directory_fits w pth ->
  exists s1,
    scan_directory w pth s = Ok s1
    /\ listing s1
       = scan_listing w pth (hide_empty_folders s) (effective_cache w s)
    /\ entries_capacity s1 <= CAPACITY_LIMIT
    /\ game_queued s1 = game_queued s
    /\ hide_empty_folders s1 = hide_empty_folders s
    /\ effective_cache w s1 = effective_cache w s
    /\ current_path s1 = current_path s
    /\ selected_index s1 = 0.
Proof.
  intros Halloc Hcap Hfits.
  destruct (scan_directory_holds w pth s Halloc Hcap Hfits)
    as (s1 & spare & Hscan & Hholds & Hcap1 & (Hsess & Hcache)).
  exists s1. split; [exact Hscan|].
  split; [exact (listing_holds _ _ _ Hholds)|]. split; [exact Hcap1|].
  destruct Hsess as (Hsel & _ & Hcp & _ & _ & Hhide & Hq & _).
  rewrite effective_cache_reset in Hcache. cbn in Hsel, Hcp, Hhide, Hq.
  tauto.
Qed.

Lemma rescan_root_ok (w : World) (s : State) :
  alloc_ok w ->
  entries_capacity s <= CAPACITY_LIMIT ->
  directory_fits w ROMS_PATH ->
  exists s1,
    rescan_root w s = Ok s1
    /\ listing s1
       = scan_listing w ROMS_PATH (hide_empty_folders s) (effective_cache w s)
    /\ entries_capacity s1 <= CAPACITY_LIMIT
    /\ game_queued s1 = game_queued s
    /\ hide_empty_folders s1 = hide_empty_folders s
    /\ effective_cache w s1 = effective_cache w s
    /\ current_path s1 = ROMS_PATH
    /\ selected_index s1 = 0.
Proof.
  intros Halloc Hcap Hfits. unfold rescan_root.
  set (s0 := set_current_path (strncpy_buf 512 ROMS_PATH) s).
  change (current_path s0) with ROMS_PATH.
  destruct (scan_ok w ROMS_PATH s0 Halloc Hcap Hfits)
    as (s1 & Hscan & Hlist & Hcap1 & Hq & Hhide & Hcache & Hcp & Hsel).
  assert (Hsame : effective_cache w s0 = effective_cache w s)
    by (apply effective_cache_ext; reflexivity).
  exists s1. rewrite Hsame in *. cbn in Hq, Hhide, Hcp. tauto.
Qed.

(** A file row of a scan comes from a directory entry. *)
Lemma scan_listing_file (w : World) (pth : string) (hide : bool)
  (cache : list string) (e : MenuEntry) :
  e ∈ scan_listing w pth hide cache ->
  is_dir e = false ->
  exists ents ent,
    opendir w pth = Some ents /\ In ent ents
    /\ path e
       = strncpy_buf 512 (path_join pth (strncpy_buf 256 (d_name ent))).
Proof.
  unfold scan_listing. intros He Hfile.
  destruct (opendir w pth) as [ents|].
  - assert (Hrows : e ∈ scan_rows w pth (strcmp_eq pth ROMS_PATH) hide cache
                          ents).
    { destruct (strcmp_eq pth ROMS_PATH).
      - rewrite !elem_of_app, !elem_of_cons in He.
        destruct He as [[->|[->|[->|He]]]|[He|[->|He]]];
          try discriminate Hfile; try (inversion He; fail).
        rewrite sort_entries_perm in He. exact He.
      - rewrite sort_entries_perm, elem_of_cons in He.
        destruct He as [->|He]; [discriminate Hfile | exact He]. }
    apply list_elem_of_omap in Hrows. destruct Hrows as (ent & Hent & Hrow).
    exists ents, ent. split; [reflexivity|].
    split; [apply list_elem_of_In, Hent|].
    revert Hrow. unfold scan_row.
    repeat break_if; intros Hrow; try discriminate Hrow;
      injection Hrow as <-; reflexivity.
  - destruct (strcmp_eq pth ROMS_PATH); [inversion He|].
    apply list_elem_of_singleton in He. subst e. discriminate Hfile.
Qed.

Lemma nth_matching_found (p : MenuEntry -> bool) (k : Z)
  (l : list MenuEntry) (e : MenuEntry) :
  nth_matching p k l = Some e -> e ∈ l /\ p e = true.
Proof.
  unfold nth_matching. destruct (0 <=? k); [|discriminate].
  intros Hlook. apply list_elem_of_lookup_2 in Hlook.
  apply list_elem_of_filter in Hlook. destruct Hlook as [Hp He].
  split; [exact He | apply Is_true_eq_true, Hp].
Qed.

Lemma pick_attempts_outcome (w : World) (s0 : State) :
  alloc_ok w ->
  (forall p, directory_fits w p) ->
  short_paths w ->
  forall (n k : nat) (s : State),
    entries_capacity s <= CAPACITY_LIMIT ->
    game_queued s = false ->
    hide_empty_folders s = hide_empty_folders s0 ->
    effective_cache w s = effective_cache w s0 ->
    exists s',
      pick_attempts w n k s = Ok s'
      /\ ((exists e s1,
             is_dir e = false /\ name e <> ".."%string /\ e ∈ listing s1
             /\ launch_real_file w e s1 = Ok s'
             /\ game_queued s' = true)
          \/ (game_queued s' = false
              /\ current_path s' = ROMS_PATH
              /\ selected_index s' = 0
              /\ listing s'
                 = scan_listing w ROMS_PATH (hide_empty_folders s0)
                     (effective_cache w s0))).
Proof.
  intros Halloc Hfits Hshort.
  assert (Hroot : forall s,
            entries_capacity s <= CAPACITY_LIMIT ->
            game_queued s = false ->
            hide_empty_folders s = hide_empty_folders s0 ->
            effective_cache w s = effective_cache w s0 ->
            exists s',
              rescan_root w s = Ok s'
              /\ ((exists e s1,
                     is_dir e = false /\ name e <> ".."%string
                     /\ e ∈ listing s1
                     /\ launch_real_file w e s1 = Ok s'
                     /\ game_queued s' = true)
                  \/ (game_queued s' = false
                      /\ current_path s' = ROMS_PATH
                      /\ selected_index s' = 0
                      /\ listing s'
                         = scan_listing w ROMS_PATH (hide_empty_folders s0)
                             (effective_cache w s0)))).
  { intros s Hcap Hq Hhide Hcache.
    destruct (rescan_root_ok w s Halloc Hcap (Hfits _))
      as (s1 & Hrun & Hlist & _ & Hq1 & _ & _ & Hcp & Hsel).
    exists s1. split; [exact Hrun|]. right.
    rewrite Hq1, Hlist, Hhide, Hcache. tauto. }
  induction n as [|n IH]; intros k s Hcap Hq Hhide Hcache.
  - apply Hroot; assumption.
  - cbn [pick_attempts].
    destruct (rescan_root_ok w s Halloc Hcap (Hfits _))
      as (s1 & Hrun & _ & Hcap1 & Hq1 & Hhide1 & Hcache1 & _).
    rewrite Hrun. cbn [bind].
    destruct (Z.eqb_spec
                (Z.of_nat (length (filter (fun e => Is_true (is_console e))
                                     (listing s1)))) 0) as [_|Hconsoles].
    { apply Hroot; congruence. }
    unfold int_rem at 1.
    replace (Z.of_nat (length (filter (fun e => Is_true (is_console e))
                                 (listing s1))) =? 0) with false by lia.
    cbn [bind].
    match goal with
    | |- context [scan_directory w (current_path ?st) ?st] =>
        set (s2 := st)
    end.
    assert (Hs2 : entries_capacity s2 <= CAPACITY_LIMIT
                  /\ game_queued s2 = false
                  /\ hide_empty_folders s2 = hide_empty_folders s0
                  /\ effective_cache w s2 = effective_cache w s0).
    { unfold s2. destruct (nth_matching is_console _ (listing s1)).
      - split; [exact Hcap1|]. split; [cbn; congruence|].
        split; [cbn; congruence|].
        rewrite <- Hcache, <- Hcache1. apply effective_cache_ext; reflexivity.
      - repeat split; congruence. }
    destruct Hs2 as (Hcap2 & Hq2 & Hhide2 & Hcache2).
    destruct (scan_ok w (current_path s2) s2 Halloc Hcap2 (Hfits _))
      as (s3 & Hscan & Hlist3 & Hcap3 & Hq3 & Hhide3 & Hcache3 & _).
    rewrite Hscan. cbn [bind].
    destruct (Z.eqb_spec
                (Z.of_nat (length (filter (fun e => Is_true (is_game_file e))
                                     (listing s3)))) 0) as [_|Hfiles].
    { apply IH; congruence. }
    unfold int_rem.
    replace (Z.of_nat (length (filter (fun e => Is_true (is_game_file e))
                                 (listing s3))) =? 0) with false by lia.
    cbn [bind].
    destruct (nth_matching is_game_file _ (listing s3)) as [e|] eqn:Hpick;
      [|apply IH; congruence].
    apply nth_matching_found in Hpick. destruct Hpick as [He Hgame].
    unfold is_game_file in Hgame. apply andb_true_iff in Hgame.
    destruct Hgame as [Hfile Hname].
    apply negb_true_iff in Hfile. apply negb_true_iff in Hname.
    assert (Hlen : (String.length (path e) <= 255)%nat).
    { rewrite Hlist3 in He.
      destruct (scan_listing_file _ _ _ _ _ He Hfile)
        as (ents & ent & Hopen & Hent & ->).
      pose proof (Hshort _ _ _ Hopen Hent) as Hp.
      unfold strncpy_buf at 1. rewrite str_take_all by (simpl; lia).
      exact Hp. }
    unfold launch_real_file, strcpy_buf.
    replace (String.length (path e) <? 256)%nat with true by lia.
    cbn [bind]. eexists. split; [reflexivity|]. left.
    exists e, s3. split; [exact Hfile|].
    split; [apply String.eqb_neq; exact Hname|]. split; [exact He|].
    split; [|reflexivity].
    unfold launch_real_file, strcpy_buf.
    replace (String.length (path e) <? 256)%nat with true by lia.
    reflexivity.
Qed.

(** X24. "Random game" never fails and never launches a folder: when
    allocations succeed and every scanned path fits the launch
    buffers, [pick_random_game] returns, and either it has queued a
    game taken from a file row of a listing, never a directory or ".."
    row, or no game is queued and the root is shown with its first row
    selected. The remainder [rand() % count] is only taken of a count
    that is not zero. *)
Theorem random_game_queues_a_file_or_shows_the_root (w : World) (s : State) :
  alloc_ok w ->
  (forall p, directory_fits w p) ->
  short_paths w ->
  entries_capacity s <= CAPACITY_LIMIT ->
  game_queued s = false ->
  exists s',
    pick_random_game w s = Ok s'
    /\ ((exists e s1,
           is_dir e = false /\ name e <> ".."%string /\ e ∈ listing s1
           /\ launch_real_file w e s1 = Ok s'
           /\ game_queued s' = true)
        \/ (game_queued s' = false
            /\ current_path s' = ROMS_PATH
            /\ selected_index s' = 0
            /\ listing s'
               = scan_listing w ROMS_PATH (hide_empty_folders s)
                   (effective_cache w s))).
Proof.
  intros Halloc Hfits Hshort Hcap Hq.
  apply (pick_attempts_outcome w s Halloc Hfits Hshort 100 0 s Hcap Hq);
    reflexivity.
Qed.

Lemma demo_world_short : short_paths demo_world.
Proof.
  intros p ents ent Hopen Hent. cbn in Hopen. unfold demo_opendir in Hopen.
  repeat match type of Hopen with
         | (if String.eqb p ?q then _ else _) = _ =>
             destruct (String.eqb_spec p q) as [->|_]
         end;
    try discriminate Hopen;
    (injection Hopen as <-; simpl in Hent;
     repeat (destruct Hent as [<-|Hent]; [vm_compute; lia|]);
     destruct Hent).
Qed.

Lemma random_game_queues_a_file_or_shows_the_root_witness :
  exists s',
    pick_random_game demo_world blank_state = Ok s'
    /\ ((exists e s1,
           is_dir e = false /\ name e <> ".."%string /\ e ∈ listing s1
           /\ launch_real_file demo_world e s1 = Ok s'
           /\ game_queued s' = true)
        \/ (game_queued s' = false
            /\ current_path s' = ROMS_PATH
            /\ selected_index s' = 0
            /\ listing s'
               = scan_listing demo_world ROMS_PATH
                   (hide_empty_folders blank_state)
                   (effective_cache demo_world blank_state))).
Proof.
  apply (random_game_queues_a_file_or_shows_the_root demo_world blank_state).
  - intros n. reflexivity.
  - apply demo_world_fits.
  - exact demo_world_short.
  - vm_compute. discriminate.
  - reflexivity.
Defined.

(** ** Sound *)

(** ** Sound: facts *)

Lemma lor_shift (a b k : Z) :
  0 <= k -> 0 <= a < 2 ^ k -> Z.lor a (Z.shiftl b k) = a + b * 2 ^ k.
Proof.
  intros Hk Ha.
  assert (Hdisjoint : Z.land a (Z.shiftl b k) = 0).
  { apply Z.bits_inj'. intros n Hn. rewrite Z.land_spec, Z.bits_0.
    destruct (Z.lt_ge_cases n k) as [Hlt|Hge].
    - rewrite (Z.shiftl_spec_low b k n Hlt). apply andb_false_r.
    - rewrite <- (Z.mod_small a (2 ^ k)) by lia.
      rewrite Z.mod_pow2_bits_high by lia. reflexivity. }
  rewrite <- Z.lxor_lor by exact Hdisjoint.
  rewrite <- Z.add_nocarry_lxor by exact Hdisjoint.
  rewrite Z.shiftl_mul_pow2 by exact Hk. reflexivity.
Qed.

Lemma le16_decode (v : Z) :
  0 <= v < 65536 ->
  Z.lor (v mod 256) (Z.shiftl ((v / 256) mod 256) 8) = v.
Proof.
  intros Hv.
  rewrite lor_shift by (try apply Z.mod_pos_bound; lia).
  change (2 ^ 8) with 256.
  rewrite (Z.mod_small (v / 256)).
  - pose proof (Z.div_mod v 256). lia.
  - split; [apply Z.div_pos; lia | apply Z.div_lt_upper_bound; lia].
Qed.

Lemma le32_sum (u : Z) :
  0 <= u < 4294967296 ->
  u mod 256 + (u / 256) mod 256 * 256 + (u / 65536) mod 256 * 65536
  + (u / 16777216) mod 256 * 16777216 = u.
Proof.
  intros Hu.
  change 65536 with (256 * 256).
  change 16777216 with (256 * 256 * 256).
  rewrite <- !Z.div_div by lia.
  pose proof (Z.div_mod u 256 ltac:(lia)) as H0.
  pose proof (Z.div_mod (u / 256) 256 ltac:(lia)) as H1.
  pose proof (Z.div_mod (u / 256 / 256) 256 ltac:(lia)) as H2.
  pose proof (Z.div_mod (u / 256 / 256 / 256) 256 ltac:(lia)) as H3.
  assert (Htop : u / 256 / 256 / 256 / 256 = 0).
  { rewrite !Z.div_div by lia. apply Z.div_small. lia. }
  rewrite Htop in H3. lia.
Qed.

Lemma le32_decode (v : Z) :
  INT_MIN <= v <= INT_MAX ->
  wrap (Z.lor (Z.lor (Z.lor (v mod 256) (Z.shiftl ((v / 256) mod 256) 8))
                 (Z.shiftl ((v / 65536) mod 256) 16))
          (Z.shiftl ((v / 16777216) mod 256) 24)) = v.
Proof.
  intros Hv. unfold INT_MIN, INT_MAX in Hv.
  pose proof (Z.mod_pos_bound v 256 ltac:(lia)) as B0.
  pose proof (Z.mod_pos_bound (v / 256) 256 ltac:(lia)) as B1.
  pose proof (Z.mod_pos_bound (v / 65536) 256 ltac:(lia)) as B2.
  pose proof (Z.mod_pos_bound (v / 16777216) 256 ltac:(lia)) as B3.
  rewrite (lor_shift (v mod 256)) by (change (2 ^ 8) with 256; lia).
  rewrite (lor_shift (_ + _)) by (change (2 ^ 8) with 256;
                                  change (2 ^ 16) with 65536; lia).
  rewrite (lor_shift (_ + _ + _))
    by (change (2 ^ 8) with 256; change (2 ^ 16) with 65536;
        change (2 ^ 24) with 16777216; lia).
  change (2 ^ 8) with 256. change (2 ^ 16) with 65536.
  change (2 ^ 24) with 16777216.
  set (u := v mod 4294967296).
  assert (Hu : 0 <= u < 4294967296) by (apply Z.mod_pos_bound; lia).
  assert (Hbytes : v mod 256 = u mod 256
                   /\ (v / 256) mod 256 = (u / 256) mod 256
                   /\ (v / 65536) mod 256 = (u / 65536) mod 256
                   /\ (v / 16777216) mod 256 = (u / 16777216) mod 256).
  { assert (Hvu : v = u + 4294967296 * (v / 4294967296))
      by (unfold u; pose proof (Z.div_mod v 4294967296); lia).
    set (q := v / 4294967296) in *. rewrite Hvu.
    repeat split.
    - replace (u + 4294967296 * q) with (u + (16777216 * q) * 256) by lia.
      apply Z.mod_add. lia.
    - replace (u + 4294967296 * q) with (u + (16777216 * q) * 256) by lia.
      rewrite Z.div_add by lia.
      replace (u / 256 + 16777216 * q) with (u / 256 + (65536 * q) * 256)
        by lia.
      apply Z.mod_add. lia.
    - replace (u + 4294967296 * q) with (u + (65536 * q) * 65536) by lia.
      rewrite Z.div_add by lia.
      replace (u / 65536 + 65536 * q) with (u / 65536 + (256 * q) * 256)
        by lia.
      apply Z.mod_add. lia.
    - replace (u + 4294967296 * q) with (u + (256 * q) * 16777216) by lia.
      rewrite Z.div_add by lia.
      replace (u / 16777216 + 256 * q) with (u / 16777216 + q * 256) by lia.
      apply Z.mod_add. lia. }
  destruct Hbytes as (-> & -> & -> & ->).
  rewrite le32_sum by exact Hu.
  unfold wrap, u.
  destruct (Z.le_gt_cases 0 v) as [Hpos|Hneg].
  - rewrite (Z.mod_small v) by lia. rewrite Z.mod_small by lia. lia.
  - replace (v mod 4294967296) with (v + 4294967296).
    + replace (v + 4294967296 + 2147483648)
        with (v + 2147483648 + 1 * 4294967296) by lia.
      rewrite Z.mod_add by lia. rewrite Z.mod_small by lia. lia.
    + symmetry. replace (v + 4294967296) with (v + 1 * 4294967296) by lia.
      rewrite <- (Z.mod_add v 1 4294967296) by lia.
      apply Z.mod_small. lia.
Qed.

Lemma byte_at_nth (buf : list Z) (i : Z) :
  0 <= i < Z.of_nat (length buf) ->
  byte_at buf i = Ok (nth (Z.to_nat i) buf 0).
Proof.
  intros Hi. unfold byte_at.
  replace ((0 <=? i) && (i <? Z.of_nat (length buf))) with true by lia.
  destruct (buf !! Z.to_nat i) as [v|] eqn:Hlook.
  - f_equal. symmetry. apply nth_lookup_Some with (d := 0) in Hlook.
    exact Hlook.
  - apply lookup_ge_None in Hlook. lia.
Qed.

Lemma wav_chunks_step (fuel : nat) (buf : list Z) (pos : Z) (out : Wav) :
  int_add pos 8 <= wrap (Z.of_nat (length buf)) ->
  wav_chunks (S fuel) buf pos out
  = let* chunk_size := read_le32 buf (pos + 4) in
    let* is_fmt := tag_at buf pos "fmt " in
    if is_fmt then
      let* format := read_le16 buf (pos + 8) in
      let* ch := read_le16 buf (pos + 10) in
      let* rate := read_le32 buf (pos + 12) in
      let* bits := read_le16 buf (pos + 22) in
      let out := mkWav rate ch bits (num_samples out) (data out) in
      if negb (format =? 1) then Ok (false, out)
      else wav_chunks fuel buf (int_add pos (int_add 8 chunk_size)) out
    else
      let* is_data := tag_at buf pos "data" in
      if is_data then
        let* bytes := int_div (bits_per_sample out) 8 in
        let* samples := int_div chunk_size (int_mul (channels out) bytes) in
        Ok (true,
            mkWav (sample_rate out) (channels out) (bits_per_sample out)
              samples (Some (pos + 8)))
      else wav_chunks fuel buf (int_add pos (int_add 8 chunk_size)) out.
Proof.
  intros Hin. cbn [wav_chunks].
  replace (int_add pos 8 <=? wrap (Z.of_nat (length buf))) with true by lia.
  reflexivity.
Qed.

(** A file whose first chunk is a 16-byte PCM format chunk and whose
    second chunk is the data chunk. *)
Lemma wav_load_two_chunks (buf : list Z) (out : Wav)
  (ch rate bits size : Z) :
  (44 <= length buf)%nat ->
  Z.of_nat (length buf) <= INT_MAX ->
  tag_at buf 0 "RIFF" = Ok true ->
  tag_at buf 8 "WAVE" = Ok true ->
  tag_at buf 12 "fmt " = Ok true ->
  read_le32 buf 16 = Ok 16 ->
  read_le16 buf 20 = Ok 1 ->
  read_le16 buf 22 = Ok ch ->
  read_le32 buf 24 = Ok rate ->
  read_le16 buf 34 = Ok bits ->
  tag_at buf 36 "fmt " = Ok false ->
  tag_at buf 36 "data" = Ok true ->
  read_le32 buf 40 = Ok size ->
  wav_load buf out
  = let* bytes := int_div bits 8 in
    let* samples := int_div size (int_mul ch bytes) in
    Ok (true, mkWav rate ch bits samples (Some 44)).
Proof.
  intros Hlen Hmax Hriff Hwave Hfmt Hsize1 Hformat Hch Hrate Hbits
    Hnofmt Hdata Hsize2.
  unfold INT_MAX in Hmax.
  assert (Hwrap : wrap (Z.of_nat (length buf)) = Z.of_nat (length buf))
    by (apply wrap_small; unfold INT_MIN, INT_MAX; lia).
  unfold wav_load.
  replace (length buf <? 44)%nat with false by lia.
  rewrite Hriff, Hwave. cbn [bind negb orb].
  rewrite wav_chunks_step by (rewrite Hwrap; unwrap; lia).
  change (12 + 4) with 16. change (12 + 8) with 20.
  change (12 + 10) with 22. change (12 + 12) with 24.
  change (12 + 22) with 34.
  rewrite Hsize1, Hfmt, Hformat, Hch, Hrate, Hbits. cbn [bind].
  change (negb (1 =? 1)) with false. cbv iota.
  change (int_add 12 (int_add 8 16)) with 36.
  assert (Hfuel : exists fuel, length buf = S fuel)
    by (destruct buf; [simpl in Hlen; lia | eauto]).
  destruct Hfuel as (fuel & Hfuel). rewrite Hfuel at 1.
  rewrite wav_chunks_step by (rewrite Hwrap; unwrap; lia).
  change (36 + 4) with 40. change (36 + 8) with 44.
  rewrite Hsize2, Hnofmt, Hdata. reflexivity.
Qed.

Lemma canonical_length (ch rate bits byte_rate block_align : Z)
  (samples : list Z) :
  length (canonical_wav ch rate bits byte_rate block_align samples)
  = (44 + length samples)%nat.
Proof. reflexivity. Qed.

Ltac canonical_read :=
  unfold tag_at, read_le16, read_le32;
  rewrite !byte_at_nth by (rewrite canonical_length; lia);
  cbn [bind].

(** X25. Reading back a canonical PCM file: for the 44-byte header
    written for [ch] channels, [rate] Hz and [bits] bits per sample in
    front of [n] bytes of samples, [wav_load] succeeds and returns these
    three values, the number of frames [n / (ch * (bits / 8))] and a
    data pointer just behind the header. *)
Theorem wav_load_reads_canonical_header (ch rate bits byte_rate block_align : Z)
  (samples : list Z) (out : Wav) :
  1 <= ch < 65536 ->
  0 <= rate <= INT_MAX ->
  8 <= bits < 65536 ->
  Z.of_nat (length samples) <= INT_MAX - 44 ->
  wav_load (canonical_wav ch rate bits byte_rate block_align samples) out
  = Ok (true,
        mkWav rate ch bits
          (Z.quot (Z.of_nat (length samples)) (ch * Z.quot bits 8))
          (Some 44)).
Proof.
  intros Hch Hrate Hbits Hlen. unfold INT_MAX in *.
  set (buf := canonical_wav ch rate bits byte_rate block_align samples).
  assert (Hbytes : 1 <= Z.quot bits 8 < 8192).
  { split; [apply Z.quot_le_lower_bound; lia|].
    apply Z.quot_lt_upper_bound; lia. }
  rewrite (wav_load_two_chunks buf out ch rate bits
             (Z.of_nat (length samples))).
  - unfold int_div. replace (8 =? 0) with false by lia. cbn [bind].
    rewrite (wrap_small (Z.quot bits 8))
      by (unfold INT_MIN, INT_MAX; lia).
    unfold int_mul.
    rewrite (wrap_small (ch * Z.quot bits 8))
      by (unfold INT_MIN, INT_MAX; nia).
    replace (ch * Z.quot bits 8 =? 0) with false by nia.
    cbn [bind]. rewrite wrap_small; [reflexivity|].
    assert (Hp : 1 <= ch * Z.quot bits 8) by nia.
    set (p := ch * Z.quot bits 8) in *.
    set (n := Z.of_nat (length samples)) in *.
    assert (Hn : 0 <= n) by (unfold n; lia).
    assert (0 <= Z.quot n p <= n).
    { split; [apply Z.quot_pos; lia|].
      apply Z.quot_le_upper_bound; [lia | nia]. }
    unfold INT_MIN, INT_MAX. lia.
  - unfold buf. rewrite canonical_length. lia.
  - unfold buf. rewrite canonical_length. unfold INT_MAX. lia.
  - unfold buf. canonical_read. reflexivity.
  - unfold buf. canonical_read. reflexivity.
  - unfold buf. canonical_read. reflexivity.
  - unfold buf. canonical_read. reflexivity.
  - unfold buf. canonical_read. reflexivity.
  - unfold buf. canonical_read. f_equal.
    exact (le16_decode ch ltac:(lia)).
  - unfold buf. canonical_read. f_equal.
    exact (le32_decode rate ltac:(unfold INT_MIN, INT_MAX; lia)).
  - unfold buf. canonical_read. f_equal.
    exact (le16_decode bits ltac:(lia)).
  - unfold buf. canonical_read. reflexivity.
  - unfold buf. canonical_read. reflexivity.
  - unfold buf. canonical_read. f_equal.
    exact (le32_decode (Z.of_nat (length samples))
             ltac:(unfold INT_MIN, INT_MAX; lia)).
Qed.

Lemma wav_load_reads_canonical_header_witness :
  wav_load (canonical_wav 2 44100 16 176400 4 [0; 0; 0; 0; 1; 0; 1; 0])
    zero_wav
  = Ok (true,
        mkWav 44100 2 16
          (Z.quot (Z.of_nat (length [0; 0; 0; 0; 1; 0; 1; 0]))
             (2 * Z.quot 16 8))
          (Some 44)).
Proof.
  apply (wav_load_reads_canonical_header 2 44100 16 176400 4
           [0; 0; 0; 0; 1; 0; 1; 0] zero_wav).
  - lia.
  - unfold INT_MAX. lia.
  - lia.
  - unfold INT_MAX. simpl. lia.
Defined.

Lemma chr_inj (x y : ascii) : chr x = chr y -> x = y.
Proof.
  unfold chr. intros H. apply N2Z.inj in H.
  rewrite <- (ascii_N_embedding x), <- (ascii_N_embedding y), H. reflexivity.
Qed.

Lemma chunk_reads (a b c d : ascii) (chunk_size : Z) (rest : list Z) :
  let buf :=
    wav_with_chunk (String a (String b (String c (String d EmptyString))))
      chunk_size rest in
  (24 <= length rest)%nat ->
  INT_MIN <= chunk_size <= INT_MAX ->
  length buf = (20 + length rest)%nat
  /\ tag_at buf 0 "RIFF" = Ok true
  /\ tag_at buf 8 "WAVE" = Ok true
  /\ read_le32 buf 16 = Ok chunk_size
  /\ tag_at buf 12 "fmt "
     = Ok ((chr a =? 102) && (chr b =? 109) && (chr c =? 116)
           && (chr d =? 32))
  /\ tag_at buf 12 "data"
     = Ok ((chr a =? 100) && (chr b =? 97) && (chr c =? 116)
           && (chr d =? 97)).
Proof.
  intros buf Hrest Hsize.
  assert (Hlen : length buf = (20 + length rest)%nat) by reflexivity.
  split; [exact Hlen|].
  repeat split; unfold tag_at, read_le32;
    rewrite !byte_at_nth by (rewrite Hlen; lia); cbn [bind];
    try reflexivity.
  f_equal. exact (le32_decode chunk_size Hsize).
Qed.

Lemma tag_differs (a b c d : ascii) (t0 t1 t2 t3 : ascii) :
  String a (String b (String c (String d EmptyString)))
  <> String t0 (String t1 (String t2 (String t3 EmptyString))) ->
  (chr a =? chr t0) && (chr b =? chr t1) && (chr c =? chr t2)
  && (chr d =? chr t3) = false.
Proof.
  intros Hne. apply not_true_is_false. intros H.
  repeat (apply andb_true_iff in H; destruct H as [H ?]).
  apply Hne.
  repeat match goal with
         | E : (chr _ =? chr _) = true |- _ =>
             apply Z.eqb_eq, chr_inj in E
         end.
  congruence.
Qed.

(** X26. Division by zero in [wav_load]: the number of frames is the
    chunk size divided by [channels * (bits_per_sample / 8)], whatever
    these are. A file whose data chunk comes first is divided by what
    [*out] held before, which is zero for a [Wav] that was never filled;
    and a canonical file with fewer than 8 bits per sample is divided
    by zero as well. *)
Theorem wav_load_divides_by_zero (chunk_size ch rate bits byte_rate
  block_align : Z) (rest samples : list Z) (out : Wav) :
  (24 <= length rest)%nat ->
  Z.of_nat (length rest) <= INT_MAX - 20 ->
  INT_MIN <= chunk_size <= INT_MAX ->
  channels out = 0 \/ -8 < bits_per_sample out < 8 ->
  1 <= ch < 65536 ->
  0 <= rate <= INT_MAX ->
  0 <= bits < 8 ->
  Z.of_nat (length samples) <= INT_MAX - 44 ->
  wav_load (wav_with_chunk "data" chunk_size rest) out
  = Undefined DivisionByZero
  /\ wav_load (canonical_wav ch rate bits byte_rate block_align samples) out
     = Undefined DivisionByZero.
Proof.
  intros Hrest Hmax Hsize Hzero Hch Hrate Hbits Hlen. split.
  - destruct (chunk_reads "d" "a" "t" "a" chunk_size rest Hrest Hsize)
      as (Hl & Hriff & Hwave & Hread & Hfmt & Hdata).
    unfold INT_MAX in Hmax.
    unfold wav_load. rewrite Hl.
    replace (20 + length rest <? 44)%nat with false by lia.
    rewrite Hriff, Hwave. cbn [bind negb orb].
    rewrite wav_chunks_step
      by (rewrite Hl, wrap_small by (unfold INT_MIN, INT_MAX; lia);
          unwrap; lia).
    change (12 + 4) with 16. rewrite Hread, Hfmt, Hdata. cbn [bind].
    change ((chr "d" =? 102) && (chr "a" =? 109) && (chr "t" =? 116)
            && (chr "a" =? 32)) with false.
    change ((chr "d" =? 100) && (chr "a" =? 97) && (chr "t" =? 116)
            && (chr "a" =? 97)) with true.
    cbv iota. unfold int_div at 1. change (8 =? 0) with false. cbn [bind].
    assert (Hprod : int_mul (channels out)
                      (wrap (Z.quot (bits_per_sample out) 8)) = 0).
    { destruct Hzero as [-> | Hsmall]; [reflexivity|].
      replace (Z.quot (bits_per_sample out) 8) with 0
        by (symmetry; apply Z.quot_small_iff; lia).
      change (wrap 0) with 0.
      unfold int_mul. rewrite Z.mul_0_r. reflexivity. }
    rewrite Hprod. reflexivity.
  - unfold INT_MAX in *.
    set (buf := canonical_wav ch rate bits byte_rate block_align samples).
    rewrite (wav_load_two_chunks buf out ch rate bits
               (Z.of_nat (length samples))).
    + unfold int_div at 1. change (8 =? 0) with false. cbn [bind].
      replace (Z.quot bits 8) with 0
        by (symmetry; apply Z.quot_small; lia).
      unfold int_mul. rewrite Z.mul_0_r. reflexivity.
    + unfold buf. rewrite canonical_length. lia.
    + unfold buf. rewrite canonical_length. unfold INT_MAX. lia.
    + unfold buf. canonical_read. reflexivity.
    + unfold buf. canonical_read. reflexivity.
    + unfold buf. canonical_read. reflexivity.
    + unfold buf. canonical_read. reflexivity.
    + unfold buf. canonical_read. reflexivity.
    + unfold buf. canonical_read. f_equal.
      exact (le16_decode ch ltac:(lia)).
    + unfold buf. canonical_read. f_equal.
      exact (le32_decode rate ltac:(unfold INT_MIN, INT_MAX; lia)).
    + unfold buf. canonical_read. f_equal.
      exact (le16_decode bits ltac:(lia)).
    + unfold buf. canonical_read. reflexivity.
    + unfold buf. canonical_read. reflexivity.
    + unfold buf. canonical_read. f_equal.
      exact (le32_decode (Z.of_nat (length samples))
               ltac:(unfold INT_MIN, INT_MAX; lia)).
Qed.

Lemma wav_load_divides_by_zero_witness :
  wav_load (wav_with_chunk "data" 8 (replicate 24 0)) zero_wav
  = Undefined DivisionByZero
  /\ wav_load (canonical_wav 1 8000 4 4000 1 [0; 0]) zero_wav
     = Undefined DivisionByZero.
Proof.
  apply (wav_load_divides_by_zero 8 1 8000 4 4000 1 (replicate 24 0) [0; 0]
           zero_wav).
  - simpl. lia.
  - unfold INT_MAX. simpl. lia.
  - unfold INT_MIN, INT_MAX. lia.
  - left. reflexivity.
  - lia.
  - unfold INT_MAX. lia.
  - lia.
  - unfold INT_MAX. simpl. lia.
Defined.

(** X27. A loop without end in [wav_load]: a chunk that is neither
    "fmt " nor "data" and whose size field is 0xFFFFFFF8, that is -8,
    moves the position by [8 + (-8)]; the loop reads the same chunk
    again, for any number of rounds. *)
Theorem wav_load_loops_on_a_backward_chunk (tag : string) (rest : list Z)
  (out : Wav) :
  String.length tag = 4%nat ->
  tag <> "fmt "%string ->
  tag <> "data"%string ->
  (24 <= length rest)%nat ->
  Z.of_nat (length rest) <= INT_MAX - 20 ->
  (forall fuel,
     wav_chunks fuel (wav_with_chunk tag (-8) rest) 12 out
     = Undefined Diverges)
  /\ wav_load (wav_with_chunk tag (-8) rest) out = Undefined Diverges.
Proof.
  intros Htag Hfmt Hdata Hrest Hmax. unfold INT_MAX in Hmax.
  destruct tag as [|a [|b [|c [|d [|? ?]]]]]; try discriminate Htag.
  destruct (chunk_reads a b c d (-8) rest Hrest
              ltac:(unfold INT_MIN, INT_MAX; lia))
    as (Hl & Hriff & Hwave & Hread & Hisfmt & Hisdata).
  set (buf := wav_with_chunk
                (String a (String b (String c (String d EmptyString))))
                (-8) rest) in *.
  assert (Hwrap : wrap (Z.of_nat (length buf)) = Z.of_nat (length buf))
    by (apply wrap_small; rewrite Hl; unfold INT_MIN, INT_MAX; lia).
  pose proof (tag_differs a b c d "f" "m" "t" " " Hfmt) as Hnofmt.
  pose proof (tag_differs a b c d "d" "a" "t" "a" Hdata) as Hnodata.
  change (chr "f") with 102 in Hnofmt. change (chr "m") with 109 in Hnofmt.
  change (chr "t") with 116 in Hnofmt, Hnodata.
  change (chr " ") with 32 in Hnofmt.
  change (chr "d") with 100 in Hnodata. change (chr "a") with 97 in Hnodata.
  rewrite Hnofmt in Hisfmt. rewrite Hnodata in Hisdata.
  assert (Hloop : forall fuel, wav_chunks fuel buf 12 out = Undefined Diverges).
  { induction fuel as [|fuel IH].
    - cbn [wav_chunks].
      replace (int_add 12 8 <=? wrap (Z.of_nat (length buf))) with true
        by (rewrite Hwrap, Hl; unwrap; lia).
      reflexivity.
    - rewrite wav_chunks_step by (rewrite Hwrap, Hl; unwrap; lia).
      change (12 + 4) with 16. rewrite Hread, Hisfmt, Hisdata. cbn [bind].
      exact IH. }
  split; [exact Hloop|].
  unfold wav_load. rewrite Hl.
  replace (20 + length rest <? 44)%nat with false by lia.
  rewrite Hriff, Hwave. cbn [bind negb orb]. apply Hloop.
Qed.

Lemma wav_load_loops_on_a_backward_chunk_witness :
  (forall fuel,
     wav_chunks fuel (wav_with_chunk "LIST" (-8) (replicate 24 0)) 12 zero_wav
     = Undefined Diverges)
  /\ wav_load (wav_with_chunk "LIST" (-8) (replicate 24 0)) zero_wav
     = Undefined Diverges.
Proof.
  apply (wav_load_loops_on_a_backward_chunk "LIST" (replicate 24 0) zero_wav).
  - reflexivity.
  - discriminate.
  - discriminate.
  - simpl. lia.
  - unfold INT_MAX. simpl. lia.
Defined.

Lemma sfx_claim_full (wav : Wav) (volume : Z) (voices : list SfxVoice) :
  all_active voices -> sfx_claim wav volume voices = voices.
Proof.
  induction 1 as [|v voices Hv _ IH]; [reflexivity|].
  cbn [sfx_claim]. rewrite Hv, IH. reflexivity.
Qed.

Lemma sfx_claim_free (wav : Wav) (volume : Z) (voices : list SfxVoice) :
  ~ all_active voices ->
  exists before v after,
    voices = before ++ v :: after
    /\ all_active before
    /\ voice_active v = false
    /\ sfx_claim wav volume voices
       = before ++ mkVoice (Some wav) 0 volume true :: after.
Proof.
  induction voices as [|v voices IH]; intros Hfree.
  - exfalso. apply Hfree. constructor.
  - destruct (voice_active v) eqn:Hv.
    + destruct IH as (before & v' & after & -> & Hbefore & Hv' & Hrun).
      { intros Hall. apply Hfree. constructor; assumption. }
      exists (v :: before), v', after.
      split; [reflexivity|]. split; [constructor; assumption|].
      split; [exact Hv'|]. cbn [sfx_claim]. rewrite Hv, Hrun. reflexivity.
    + exists [], v, voices.
      split; [reflexivity|]. split; [constructor|]. split; [exact Hv|].
      cbn [sfx_claim]. rewrite Hv. reflexivity.
Qed.

(** X28. Voices of [sfx_play]: the sound takes the first voice that is
    not active, from its start and at the given volume, and leaves
    every other voice, the number of voices and the music alone; when
    all voices are active the call changes nothing and the sound is
    dropped. *)
Theorem sfx_play_takes_the_first_free_voice (wav : Wav) (volume : Z)
  (a : Audio) :
  (all_active (sfx a) -> sfx_play wav volume a = a)
  /\ (~ all_active (sfx a) ->
      exists before v after,
        sfx a = before ++ v :: after
        /\ all_active before
        /\ voice_active v = false
        /\ sfx_play wav volume a
           = mkAudio (bgm_wav a) (bgm_pos a) (bgm_volume a) (bgm_playing a)
               (before ++ mkVoice (Some wav) 0 volume true :: after))
  /\ length (sfx (sfx_play wav volume a)) = length (sfx a).
Proof.
  split; [|split].
  - intros Hfull. unfold sfx_play. rewrite sfx_claim_full by exact Hfull.
    destruct a. reflexivity.
  - intros Hfree.
    destruct (sfx_claim_free wav volume (sfx a) Hfree)
      as (before & v & after & Hsplit & Hbefore & Hv & Hrun).
    exists before, v, after. unfold sfx_play. rewrite Hrun. tauto.
  - unfold sfx_play. cbn [sfx].
    induction (sfx a) as [|v voices IH]; [reflexivity|].
    cbn [sfx_claim]. destruct (voice_active v); cbn [length];
      [rewrite IH|]; reflexivity.
Qed.

Lemma sfx_play_takes_the_first_free_voice_witness :
  (all_active (sfx demo_audio) -> sfx_play zero_wav 200 demo_audio = demo_audio)
  /\ (~ all_active (sfx demo_audio) ->
      exists before v after,
        sfx demo_audio = before ++ v :: after
        /\ all_active before
        /\ voice_active v = false
        /\ sfx_play zero_wav 200 demo_audio
           = mkAudio (bgm_wav demo_audio) (bgm_pos demo_audio)
               (bgm_volume demo_audio) (bgm_playing demo_audio)
               (before ++ mkVoice (Some zero_wav) 0 200 true :: after))
  /\ length (sfx (sfx_play zero_wav 200 demo_audio))
     = length (sfx demo_audio).
Proof.
  exact (sfx_play_takes_the_first_free_voice zero_wav 200 demo_audio).
Defined.

(** ** The name of a row as it is drawn *)

Lemma str_drop_length (n : nat) (s : string) :
  String.length (str_drop n s) = (String.length s - n)%nat.
Proof.
  revert s. induction n as [|n IH]; intros [|c r]; cbn [str_drop String.length];
    try lia.
  rewrite IH. lia.
Qed.

Lemma name_window_length (width offset : Z) (name : string) :
  0 <= width -> 0 <= offset ->
  offset <= Z.of_nat (String.length name) - width ->
  Z.of_nat (String.length (name_window width offset name)) = width.
Proof.
  intros Hw Ho Hfit. unfold name_window.
  rewrite str_take_length_exact; [lia|].
  rewrite str_drop_length. lia.
Qed.

Lemma name_window_start (width : Z) (name : string) :
  name_window width 0 name = str_take (Z.to_nat width) name.
Proof. unfold name_window. destruct name; reflexivity. Qed.

(** X29. The scrolling window of [get_scrolling_text], with the buffer
    of [render_menu]: a row that is not selected or whose name is short
    leaves the scroll state alone and gives a text that fits the buffer;
    the long name of the selected row gives a window of exactly
    [MAX_FILENAME_DISPLAY_LEN] characters at the new offset, which is at
    most one step from the old one and again shows a full window. *)
Theorem scrolling_name_keeps_its_window
  (MAX MAXU DELAY SPEED : Z) (path name : string) (is_selected : bool)
  (sc : Scroll) :
  let name_len := Z.of_nat (String.length name) in
  let result :=
    get_scrolling_text MAX MAXU DELAY SPEED path name is_selected
      (Z.to_nat (MAX + 4)) sc in
  0 < MAX ->
  0 <= MAXU <= MAX ->
  SPEED <> 0 ->
  name_len <= INT_MAX ->
  0 <= text_scroll_frame_counter sc < INT_MAX ->
  (is_selected = true -> MAX < name_len ->
   scroll_in_range MAX DELAY name sc) ->
  exists text sc',
    result = Ok (text, sc')
    /\ Z.of_nat (String.length text) <= MAX + 3
    /\ (is_selected = false \/ name_len <= MAX -> sc' = sc)
    /\ (is_selected = true -> MAX < name_len ->
        text = name_window MAX (text_scroll_offset sc') name
        /\ Z.of_nat (String.length text) = MAX
        /\ scroll_in_range MAX DELAY name sc'
        /\ Z.abs (text_scroll_offset sc' - text_scroll_offset sc) <= 1
        /\ text_scroll_frame_counter sc' = text_scroll_frame_counter sc + 1).
Proof.
  intros name_len result Hpos Hmax Hspeed Hlen Hcounter Hrange.
  subst result. unfold get_scrolling_text. fold name_len.
  assert (Hfits : forall text,
            Z.of_nat (String.length text) <= MAX + 3 ->
            strcpy_buf (Z.to_nat (MAX + 4)) text = Ok text).
  { intros text Htext. unfold strcpy_buf.
    replace (String.length text <? Z.to_nat (MAX + 4))%nat with true by lia.
    reflexivity. }
  destruct is_selected.
  - (* the selected row *)
    destruct (Z.leb_spec name_len MAX) as [Hshort|Hlong]; cbn [orb negb].
    + rewrite Hfits by (subst name_len; lia).
      cbn [bind]. exists name, sc. split; [reflexivity|].
      split; [subst name_len; lia|]. split; [reflexivity|]. lia.
    + destruct (Hrange eq_refl Hlong) as (Hoff & Hdir & Hwait).
      fold name_len in Hoff.
      assert (Hwin : forall o, 0 <= o <= name_len - MAX ->
                Z.of_nat (String.length (name_window MAX o name)) = MAX)
        by (intros o Ho; apply name_window_length; subst name_len; lia).
      replace (int_add (text_scroll_frame_counter sc) 1)
        with (text_scroll_frame_counter sc + 1)
        by (unfold INT_MAX in *; unwrap; reflexivity).
      destruct (Z.ltb_spec (text_scroll_frame_counter sc + 1) DELAY).
      * (* before the scroll starts *)
        replace (MAX <? 0) with false by lia.
        rewrite <- name_window_start.
        rewrite Hfits by (rewrite Hwin; lia).
        cbn [bind]. eexists _, _. split; [reflexivity|].
        split; [rewrite Hwin; lia|]. split; [lia|]. intros _ _.
        cbn [text_scroll_offset text_scroll_frame_counter].
        assert (Hzero : text_scroll_offset sc = 0) by (apply Hwait; lia).
        rewrite Hzero.
        split; [reflexivity|]. split; [apply Hwin; lia|].
        split; [|split; [lia|reflexivity]].
        unfold scroll_in_range.
        cbn [text_scroll_offset text_scroll_direction
             text_scroll_frame_counter].
        fold name_len. split; [lia|]. tauto.
      * unfold int_rem. apply Z.eqb_neq in Hspeed. rewrite Hspeed.
        cbn [bind].
        set (moved := wrap (Z.rem (text_scroll_frame_counter sc + 1) SPEED)
                      =? 0).
        assert (Hsub : int_sub name_len MAX = name_len - MAX)
          by (unfold INT_MAX in *; unwrap; reflexivity).
        assert (Hadd : int_add (text_scroll_offset sc)
                         (text_scroll_direction sc)
                       = text_scroll_offset sc + text_scroll_direction sc)
          by (unfold INT_MAX in *; unwrap; reflexivity).
        rewrite Hsub, Hadd.
        match goal with
        | |- context [text_scroll_offset ?x <? 0] => set (sc1 := x)
        end.
        assert (Hsc1 : 0 <= text_scroll_offset sc1 <= name_len - MAX
                       /\ (text_scroll_direction sc1 = 1
                           \/ text_scroll_direction sc1 = -1)
                       /\ Z.abs (text_scroll_offset sc1
                                 - text_scroll_offset sc) <= 1
                       /\ text_scroll_frame_counter sc1
                          = text_scroll_frame_counter sc + 1).
        { subst sc1. destruct moved.
          - destruct (Z.geb_spec (text_scroll_offset sc
                                  + text_scroll_direction sc)
                        (name_len - MAX)).
            + cbn [text_scroll_offset text_scroll_direction
                   text_scroll_frame_counter]. lia.
            + destruct (Z.leb_spec (text_scroll_offset sc
                                    + text_scroll_direction sc) 0);
                cbn [text_scroll_offset text_scroll_direction
                     text_scroll_frame_counter]; lia.
          - cbn [text_scroll_offset text_scroll_direction
                 text_scroll_frame_counter]. lia. }
        destruct Hsc1 as (Hoff1 & Hdir1 & Hstep & Hcount1).
        replace (int_sub name_len (text_scroll_offset sc1))
          with (name_len - text_scroll_offset sc1)
          by (unfold INT_MAX in *; unwrap; reflexivity).
        replace (Z.min MAX (name_len - text_scroll_offset sc1)) with MAX
          by lia.
        replace ((text_scroll_offset sc1 <? 0)
                 || (name_len <? text_scroll_offset sc1) || (MAX <? 0))
          with false by lia.
        fold (name_window MAX (text_scroll_offset sc1) name).
        rewrite Hfits by (rewrite Hwin; lia).
        cbn [bind]. exists (name_window MAX (text_scroll_offset sc1) name), sc1.
        split; [reflexivity|]. split; [rewrite Hwin; lia|].
        split; [lia|]. intros _ _.
        split; [reflexivity|]. split; [apply Hwin; lia|].
        split; [|split; assumption].
        unfold scroll_in_range. fold name_len.
        split; [exact Hoff1|]. split; [exact Hdir1|]. lia.
  - (* a row that is not selected *)
    rewrite orb_true_r.
    set (max_len := if in_main_menu path then MAX else MAXU).
    assert (Hml : 0 <= max_len <= MAX)
      by (subst max_len; destruct (in_main_menu path); lia).
    destruct (Z.leb_spec name_len max_len) as [Hshort|Hlong].
    + rewrite Hfits by (subst name_len; lia).
      cbn [bind]. exists name, sc. split; [reflexivity|].
      split; [subst name_len; lia|]. split; [reflexivity|]. discriminate.
    + replace (max_len <? 0) with false by lia.
      assert (Hcut : Z.of_nat
                (String.length
                   (String.append (str_take (Z.to_nat max_len) name) "..."))
              = max_len + 3).
      { rewrite string_length_append, str_take_length_exact
          by (subst name_len; lia).
        cbn [String.length]. lia. }
      rewrite Hfits by lia.
      cbn [bind]. eexists _, sc. split; [reflexivity|].
      split; [lia|]. split; [reflexivity|]. discriminate.
Qed.

Lemma scrolling_name_keeps_its_window_witness :
  exists text sc',
    get_scrolling_text 8 6 2 1 "/mnt/sda1/ROMS/gb" "Super Mario Land.gb" true
      (Z.to_nat (8 + 4)) scroll_reset
    = Ok (text, sc')
    /\ Z.of_nat (String.length text) <= 8 + 3
    /\ (true = false
        \/ Z.of_nat (String.length "Super Mario Land.gb") <= 8 ->
        sc' = scroll_reset)
    /\ (true = true ->
        8 < Z.of_nat (String.length "Super Mario Land.gb") ->
        text = name_window 8 (text_scroll_offset sc') "Super Mario Land.gb"
        /\ Z.of_nat (String.length text) = 8
        /\ scroll_in_range 8 2 "Super Mario Land.gb" sc'
        /\ Z.abs (text_scroll_offset sc' - text_scroll_offset scroll_reset)
           <= 1
        /\ text_scroll_frame_counter sc'
           = text_scroll_frame_counter scroll_reset + 1).
Proof.
  apply (scrolling_name_keeps_its_window 8 6 2 1 "/mnt/sda1/ROMS/gb"
           "Super Mario Land.gb" true scroll_reset).
  - lia.
  - lia.
  - lia.
  - unfold INT_MAX. simpl. lia.
  - unfold INT_MAX. simpl. lia.
  - intros _ _. unfold scroll_in_range. simpl. lia.
Defined.

(** X30. An offset left over from a longer name: [render_menu] resets
    the scroll state only when the selected index changed, and
    [get_scrolling_text] takes the offset as it finds it. Once the delay
    is over, a frame that does not move the offset copies from beyond
    the end of the name; a frame that moves it puts it back at the last
    full window. *)
Theorem stale_scroll_offset
  (MAX MAXU DELAY SPEED : Z) (path name : string) (display_size : nat)
  (sc : Scroll) :
  let name_len := Z.of_nat (String.length name) in
  let frame := text_scroll_frame_counter sc + 1 in
  let result :=
    get_scrolling_text MAX MAXU DELAY SPEED path name true display_size sc in
  0 < MAX ->
  0 < SPEED ->
  MAX < name_len ->
  0 <= text_scroll_frame_counter sc < INT_MAX ->
  DELAY <= frame ->
  name_len < text_scroll_offset sc < INT_MAX ->
  text_scroll_direction sc = 1 \/ text_scroll_direction sc = -1 ->
  (Z.rem frame SPEED <> 0 -> result = Undefined OutOfBounds)
  /\ (Z.rem frame SPEED = 0 ->
      (MAX < Z.of_nat display_size)%Z ->
      result
      = Ok (name_window MAX (name_len - MAX) name,
            mkScroll frame (name_len - MAX) (-1))).
Proof.
  intros name_len frame result Hpos Hspeed Hlong Hcounter Hdelay Hstale Hdir.
  subst result. unfold get_scrolling_text. fold name_len.
  replace (name_len <=? MAX) with false by lia. cbn [orb negb].
  replace (int_add (text_scroll_frame_counter sc) 1) with frame
    by (subst frame; unfold INT_MAX in *; unwrap; reflexivity).
  replace (frame <? DELAY) with false by lia.
  unfold int_rem. replace (SPEED =? 0) with false by lia. cbn [bind].
  assert (Hrem : wrap (Z.rem frame SPEED) = Z.rem frame SPEED).
  { apply wrap_small.
    pose proof (Z.rem_le frame SPEED ltac:(subst frame; lia) Hspeed).
    pose proof (Z.rem_nonneg frame SPEED ltac:(lia) ltac:(subst frame; lia)).
    subst frame. unfold INT_MIN, INT_MAX in *. lia. }
  rewrite Hrem.
  assert (Hsub : int_sub name_len MAX = name_len - MAX)
    by (unfold INT_MAX in *; unwrap; reflexivity).
  assert (Hadd : int_add (text_scroll_offset sc) (text_scroll_direction sc)
                 = text_scroll_offset sc + text_scroll_direction sc)
    by (unfold INT_MAX in *; unwrap; reflexivity).
  split.
  - intros Hrest. replace (Z.rem frame SPEED =? 0) with false by lia.
    cbn [text_scroll_offset].
    replace (name_len <? text_scroll_offset sc) with true by lia.
    rewrite orb_true_r. reflexivity.
  - intros Hmoves Hsize. rewrite Hmoves. change (0 =? 0) with true.
    cbv iota. rewrite Hsub, Hadd.
    replace (text_scroll_offset sc + text_scroll_direction sc
             >=? name_len - MAX) with true by lia.
    cbn [text_scroll_offset].
    replace (int_sub name_len (name_len - MAX)) with MAX
      by (unfold INT_MAX in *; unwrap; lia).
    rewrite Z.min_id.
    replace ((name_len - MAX <? 0) || (name_len <? name_len - MAX)
             || (MAX <? 0)) with false by lia.
    fold (name_window MAX (name_len - MAX) name).
    unfold strcpy_buf.
    pose proof (name_window_length MAX (name_len - MAX) name
                  ltac:(lia) ltac:(lia) ltac:(subst name_len; lia)) as Hwin.
    replace (String.length (name_window MAX (name_len - MAX) name)
             <? display_size)%nat with true by lia.
    reflexivity.
Qed.

Lemma stale_scroll_offset_witness :
  (Z.rem (9 + 1) 4 <> 0 ->
   get_scrolling_text 8 6 2 4 "FAVORITES" "Tetris.gb" true 12
     (mkScroll 9 11 1)
   = Undefined OutOfBounds)
  /\ (Z.rem (9 + 1) 4 = 0 ->
      (8 < Z.of_nat 12)%Z ->
      get_scrolling_text 8 6 2 4 "FAVORITES" "Tetris.gb" true 12
        (mkScroll 9 11 1)
      = Ok (name_window 8 (Z.of_nat (String.length "Tetris.gb") - 8)
              "Tetris.gb",
            mkScroll (9 + 1) (Z.of_nat (String.length "Tetris.gb") - 8) (-1))).
Proof.
  apply (stale_scroll_offset 8 6 2 4 "FAVORITES" "Tetris.gb" 12
           (mkScroll 9 11 1)).
  - lia.
  - lia.
  - simpl. lia.
  - unfold INT_MAX. simpl. lia.
  - simpl. lia.
  - unfold INT_MAX. simpl. lia.
  - left. reflexivity.
Defined.
